(** * Resumable batch ingestion: PostgreSQL to BigQuery / ClickHouse

    A shallow embedding of the two ingestion scripts of the repository,
    [hello.py] (PostgreSQL to BigQuery) and [pg_to_clickhouse.py]
    (PostgreSQL to ClickHouse), and the properties of their checkpoint
    store, batch loop and type mapper.

    Conventions of the embedding:
    - Python integers are [Z]; [//] is floor division and raises on a zero
      divisor; [range(a, b)] is the list of the integers from [a] to
      [b - 1].
    - The filesystem is a finite map from paths to file contents; a
      checkpoint file holds either a JSON object (a record whose keys may be
      absent) or text that [json.load] rejects.
    - The source database, the destination and the network are an oracle
      ([Env]); every call to them is recorded in the run's event list.
    - A Python exception is a [Raise] outcome; the filesystem changes made
      before it stay.
    - The checkpoint file can be written: the exceptions of a run are those
      of its arithmetic, of reading the checkpoint, of the source and of the
      destination. *)

From Stdlib Require Import ZArith String Ascii List Lia Bool Sorted.
From stdpp Require Import base gmap strings list.

Local Open Scope Z_scope.
Local Open Scope string_scope.
Local Open Scope list_scope.

(** ** Python strings and integers *)

Module Py.

(** [c.upper()] on one ASCII character; other characters are kept. *)
Definition upper_ascii (c : ascii) : ascii :=
  let n := N_of_ascii c in
  if ((97 <=? n) && (n <=? 122))%N then ascii_of_N (n - 32) else c.

(** [s.upper()] *)
Fixpoint upper (s : string) : string :=
  match s with
  | EmptyString => EmptyString
  | String c s' => String (upper_ascii c) (upper s')
  end.

(** [s.replace(old, new)] for one-character [old] and [new]. *)
Fixpoint replace_char (old new : ascii) (s : string) : string :=
  match s with
  | EmptyString => EmptyString
  | String c s' =>
      String (if Ascii.eqb c old then new else c) (replace_char old new s')
  end.

(** [s.startswith(p)] *)
Fixpoint startswith (s p : string) : bool :=
  match p, s with
  | EmptyString, _ => true
  | String _ _, EmptyString => false
  | String a p', String b s' => Ascii.eqb a b && startswith s' p'
  end.

(** [sub in s] for strings. *)
Fixpoint contains (sub s : string) : bool :=
  startswith s sub ||
  match s with
  | EmptyString => false
  | String _ s' => contains sub s'
  end.

(** [c in s] for a character. *)
Fixpoint has_char (c : ascii) (s : string) : bool :=
  match s with
  | EmptyString => false
  | String a s' => Ascii.eqb a c || has_char c s'
  end.

(** [sep.join(l)] *)
Fixpoint join (sep : string) (l : list string) : string :=
  match l with
  | [] => ""
  | [x] => x
  | x :: l' => x +:+ sep +:+ join sep l'
  end.

(** [s.endswith(c)] for a character. *)
Fixpoint ends_with_char (c : ascii) (s : string) : bool :=
  match s with
  | EmptyString => false
  | String a EmptyString => Ascii.eqb a c
  | String _ s' => ends_with_char c s'
  end.

(** [os.path.join(a, b)] on POSIX, for a relative [b]. *)
Definition path_join (a b : string) : string :=
  if String.eqb a "" then b
  else if ends_with_char "/" a then a +:+ b
  else a +:+ "/" +:+ b.

(** [list(range(a, b))] *)
Definition range (a b : Z) : list Z :=
  map (fun i => a + Z.of_nat i) (seq 0 (Z.to_nat (b - a))).

(** A dict literal, in insertion order. *)
Definition dict (V : Type) : Type := list (string * V).

(** [d.get(k)] *)
Fixpoint dict_get {V} (d : dict V) (k : string) : option V :=
  match d with
  | [] => None
  | (k', v) :: d' => if String.eqb k' k then Some v else dict_get d' k
  end.

Definition newline : string := String (ascii_of_nat 10) EmptyString.

(** [s.split(sep)] for a one-character separator: never empty. *)
Fixpoint split (sep : ascii) (s : string) : list string :=
  match s with
  | EmptyString => [EmptyString]
  | String c s' =>
      if Ascii.eqb c sep then EmptyString :: split sep s'
      else
        match split sep s' with
        | x :: l => String c x :: l
        | [] => [String c EmptyString]
        end
  end.

(** [l[-1]] for a list of strings that is not empty. *)
Definition last_item (l : list string) : string := List.last l EmptyString.

(** [os.getenv(key, default)] over the process environment. *)
Definition getenv (environ : gmap string string) (key dflt : string) : string :=
  default dflt (environ !! key).

End Py.

(** ** The type mapper of [pg_to_clickhouse.py] *)

Module TypeMapper.
Import Py.

(** The dict literal of [pg_type_to_ch_type], in source order. *)
Definition type_mapping : dict string :=
  [ ("INTEGER", "Int32");
    ("BIGINT", "Int64");
    ("SMALLINT", "Int16");
    ("SERIAL", "Int32");
    ("BIGSERIAL", "Int64");
    ("REAL", "Float32");
    ("DOUBLE PRECISION", "Float64");
    ("NUMERIC", "Decimal(38, 10)");
    ("DECIMAL", "Decimal(38, 10)");
    ("BOOLEAN", "Bool");
    ("VARCHAR", "String");
    ("CHARACTER VARYING", "String");
    ("CHAR", "String");
    ("TEXT", "String");
    ("DATE", "Date");
    ("TIMESTAMP", "DateTime64(3)");
    ("TIMESTAMP WITHOUT TIME ZONE", "DateTime64(3)");
    ("TIMESTAMP WITH TIME ZONE", "DateTime64(3)");
    ("TIME", "String");
    ("UUID", "UUID");
    ("JSON", "String");
    ("JSONB", "String");
    ("BYTEA", "String");
    ("INET", "String");
    ("CIDR", "String");
    ("MACADDR", "String") ].

(** The loop [for pg_key, ch_type in type_mapping.items(): if
    pg_type.startswith(pg_key): return ch_type]. *)
Fixpoint first_prefix (d : dict string) (pg_type : string) : option string :=
  match d with
  | [] => None
  | (pg_key, ch_type) :: d' =>
      if startswith pg_type pg_key then Some ch_type
      else first_prefix d' pg_type
  end.

Definition pg_type_to_ch_type (pg_type : string) : string :=
  let pg_type := upper pg_type in
  match dict_get type_mapping pg_type with
  | Some ch_type => ch_type
  | None =>
      match first_prefix type_mapping pg_type with
      | Some ch_type => ch_type
      | None => "String"
      end
  end.

(** The branch of [get_create_table_sql] that infers the type from the
    pandas dtype of the column. *)
Definition dtype_to_ch_type (dtype : string) : string :=
  if contains "int" dtype then "Int64"
  else if contains "float" dtype then "Float64"
  else if contains "bool" dtype then "Bool"
  else if contains "datetime" dtype then "DateTime64(3)"
  else "String".

(** [pg_columns and col in pg_columns]: [None] and the empty dict are
    falsy. *)
Definition catalog_type (pg_columns : option (dict string)) (col : string)
  : option string :=
  match pg_columns with
  | Some d => dict_get d col
  | None => None
  end.

(** The body of the loop over [df.columns]: the type of one column. *)
Definition column_ch_type (pg_columns : option (dict string))
    (col dtype : string) : string :=
  match catalog_type pg_columns col with
  | Some pg_type => pg_type_to_ch_type pg_type
  | None => dtype_to_ch_type dtype
  end.

Definition column_def (pg_columns : option (dict string))
    (c : string * string) : string :=
  "    `" +:+ fst c +:+ "` Nullable("
    +:+ column_ch_type pg_columns (fst c) (snd c) +:+ ")".

(** [df_columns] lists the columns of the DataFrame with their dtypes. *)
Definition get_create_table_sql (df_columns : list (string * string))
    (table_name : string) (pg_columns : option (dict string)) : string :=
  let columns := map (column_def pg_columns) df_columns in
  let columns_sql := join ("," +:+ newline) columns in
  newline +:+ "CREATE TABLE IF NOT EXISTS " +:+ table_name +:+ " (" +:+ newline
    +:+ columns_sql +:+ newline
    +:+ ") ENGINE = MergeTree()" +:+ newline
    +:+ "ORDER BY tuple()" +:+ newline.

End TypeMapper.

(** ** Checkpoint records, files and the collaborators *)

(** The JSON object of a checkpoint file. Both scripts write the keys
    [last_completed_batch], [total_uploaded], [total_rows] and
    [batch_size]; [pg_to_clickhouse.py] adds [table_name], [hello.py] adds
    [bq_dataset_table] and [bq_project_id]. A key that the object lacks is
    [None]. *)
Record checkpoint : Type := Checkpoint {
  ck_table_name : option string;
  ck_last_completed_batch : option Z;
  ck_total_uploaded : option Z;
  ck_total_rows : option Z;
  ck_batch_size : option Z;
  ck_bq_dataset_table : option string;
  ck_bq_project_id : option string }.

(** What a file holds: a JSON object, or text that [json.load] rejects. *)
Inductive file : Type :=
| Garbage
| Json (c : checkpoint).

(** A pandas DataFrame, as far as the scripts look at it: its columns with
    their dtypes and its number of rows. A query result has at least one
    column, so [df.empty] is [len(df) == 0]. *)
Record DataFrame : Type := {
  df_columns : list (string * string);
  df_len : nat }.

Definition df_empty (df : DataFrame) : bool := Nat.eqb (df_len df) 0.

(** The exceptions of a run, named by where they arise. *)
Inductive exn : Type :=
| ValueError            (* validate_bq_table_name *)
| ZeroDivisionError     (* (total_rows + batch_size - 1) // batch_size *)
| JSONDecodeError       (* json.load *)
| KeyError              (* checkpoint['last_completed_batch'] *)
| ConnectError          (* get_clickhouse_client *)
| CountError            (* the counting query *)
| FetchError            (* pd.read_sql *)
| WriteError            (* pandas_gbq.to_gbq, ch_client.insert *)
| CommandError.         (* ch_client.command(create_sql) *)

(** The calls a run makes to the filesystem and to its collaborators, in
    the order it makes them. *)
Inductive event : Type :=
| EvConnect (ok : bool)
| EvCount (r : option Z)
| EvSave (path : string) (c : checkpoint)
| EvRemove (path : string)
| EvSample (limit : Z) (r : option nat)
| EvDrop (table : string) (ok : bool)
| EvCreate (table sql : string) (ok : bool)
| EvFetch (batch_num limit offset : Z) (r : option nat)
| EvWrite (table : string) (batch_num : Z) (rows : nat) (ok : bool).

(** The collaborators of one run. [read_sql limit offset] is the result of
    the source query with [LIMIT limit] and, when given, [OFFSET offset];
    [write_ok i] tells whether the write of batch [i] succeeds. *)
Record Env : Type := {
  CHECKPOINT_DIR : string;
  connect_ok : bool;
  count_result : option Z;
  read_sql : Z -> option Z -> option DataFrame;
  write_ok : Z -> bool;
  drop_ok : bool;
  create_ok : bool }.

Inductive outcome (A : Type) : Type :=
| Ok (a : A)
| Raise (e : exn).
Arguments Ok {A} a.
Arguments Raise {A} e.

(** ** The monad of a run: filesystem state, exceptions, event log *)

Module Run.

Definition M (A : Type) : Type :=
  gmap string file -> outcome A * gmap string file * list event.

Definition ret {A} (a : A) : M A := fun fs => (Ok a, fs, []).

Definition raise {A} (e : exn) : M A := fun fs => (Raise e, fs, []).

Definition bind {A B} (m : M A) (k : A -> M B) : M B :=
  fun fs =>
    match m fs with
    | (Ok a, fs1, es1) =>
        match k a fs1 with
        | (r, fs2, es2) => (r, fs2, es1 ++ es2)
        end
    | (Raise e, fs1, es1) => (Raise e, fs1, es1)
    end.

(** [try: m  except Exception as e: h e] *)
Definition try_except {A} (m : M A) (h : exn -> M A) : M A :=
  fun fs =>
    match m fs with
    | (Ok a, fs1, es1) => (Ok a, fs1, es1)
    | (Raise e, fs1, es1) =>
        match h e fs1 with
        | (r, fs2, es2) => (r, fs2, es1 ++ es2)
        end
    end.

Definition emit (ev : event) : M unit := fun fs => (Ok tt, fs, [ev]).

(** [os.path.exists(path)] *)
Definition path_exists (path : string) : M bool :=
  fun fs => (Ok (bool_decide (is_Some (fs !! path))), fs, []).

(** [with open(path, 'r') as f: json.load(f)], for a file that exists. *)
Definition json_load (path : string) : M checkpoint :=
  fun fs =>
    match fs !! path with
    | Some (Json c) => (Ok c, fs, [])
    | _ => (Raise JSONDecodeError, fs, [])
    end.

(** [with open(path, 'w') as f: json.dump(data, f, indent=2)], for a path
    that can be opened for writing: the file then holds the record. *)
Definition json_dump (path : string) (data : checkpoint) : M unit :=
  fun fs => (Ok tt, <[path := Json data]> fs, [EvSave path data]).

(** [os.remove(path)], for a file that exists. *)
Definition os_remove (path : string) : M unit :=
  fun fs => (Ok tt, delete path fs, [EvRemove path]).

(** [d[key]]: raises [KeyError] when the key is absent. *)
Definition getitem {A} (field : option A) : M A :=
  match field with
  | Some a => ret a
  | None => raise KeyError
  end.

(** [a // b] *)
Definition floordiv (a b : Z) : M Z :=
  if Z.eqb b 0 then raise ZeroDivisionError else ret (a / b).

End Run.

Declare Scope run_scope.
Delimit Scope run_scope with run.
Notation "'let!' x ':=' m 'in' k" := (Run.bind m (fun x => k))
  (at level 10, x pattern, m at level 100, k at level 200) : run_scope.
Notation "m ';;;' k" := (Run.bind m (fun _ => k))
  (at level 100, k at level 200, right associativity) : run_scope.

Local Open Scope run_scope.

(** ** [hello.py]: PostgreSQL to BigQuery *)

Module BigQuery.
Import Py Run.

Definition get_checkpoint_filename (env : Env) (bq_dataset_table : string)
  : string :=
  let safe_name := replace_char "." "_" bq_dataset_table in
  path_join (CHECKPOINT_DIR env) ("checkpoint_" +:+ safe_name +:+ ".json").

Definition save_checkpoint (env : Env) (checkpoint_data : checkpoint)
    (bq_dataset_table : string) : M unit :=
  let checkpoint_file := get_checkpoint_filename env bq_dataset_table in
  json_dump checkpoint_file checkpoint_data.

(** The message printed after [json.load] reads
    [checkpoint['last_completed_batch']]. *)
Definition load_checkpoint (env : Env) (bq_dataset_table : string)
  : M (option checkpoint) :=
  let checkpoint_file := get_checkpoint_filename env bq_dataset_table in
  let! found := path_exists checkpoint_file in
  if found then
    let! checkpoint := json_load checkpoint_file in
    let! _ := getitem (ck_last_completed_batch checkpoint) in
    ret (Some checkpoint)
  else ret None.

Definition clear_checkpoint (env : Env) (bq_dataset_table : string) : M unit :=
  let checkpoint_file := get_checkpoint_filename env bq_dataset_table in
  let! found := path_exists checkpoint_file in
  if found then os_remove checkpoint_file else ret tt.

Definition validate_bq_table_name (dataset_table : string) : M bool :=
  if negb (has_char "." dataset_table) then raise ValueError else ret true.

Definition count_rows (env : Env) : M Z :=
  emit (EvCount (count_result env)) ;;;
  match count_result env with
  | Some total_rows => ret total_rows
  | None => raise CountError
  end.

(** [pd.read_sql(text(batch_query), conn)] with [LIMIT batch_size OFFSET
    offset]. *)
Definition fetch_batch (env : Env) (batch_num batch_size offset : Z)
  : M DataFrame :=
  let r := read_sql env batch_size (Some offset) in
  emit (EvFetch batch_num batch_size offset (df_len <$> r)) ;;;
  match r with
  | Some df => ret df
  | None => raise FetchError
  end.

(** [pandas_gbq.to_gbq(dataframe=df, destination_table=..., if_exists=
    'append')]: the call appends the rows and creates the table when it does
    not exist; the event records the call and whether it succeeded. *)
Definition to_gbq (env : Env) (bq_dataset_table : string) (batch_num : Z)
    (df : DataFrame) : M unit :=
  emit (EvWrite bq_dataset_table batch_num (df_len df) (write_ok env batch_num)) ;;;
  if write_ok env batch_num then ret tt else raise WriteError.

(** The dict literal that the three calls of [save_checkpoint] build. *)
Definition checkpoint_data (last_completed_batch total_uploaded total_rows
    batch_size : Z) (bq_dataset_table bq_project_id : string) : checkpoint :=
  {| ck_table_name := None;
     ck_last_completed_batch := Some last_completed_batch;
     ck_total_uploaded := Some total_uploaded;
     ck_total_rows := Some total_rows;
     ck_batch_size := Some batch_size;
     ck_bq_dataset_table := Some bq_dataset_table;
     ck_bq_project_id := Some bq_project_id |}.

(** The loop [for batch_num in range(start_batch, total_batches)], given
    the list of the batch numbers still to do; it returns
    [total_uploaded]. *)
Fixpoint batch_loop (env : Env) (bq_project_id bq_dataset_table : string)
    (batch_size total_rows : Z) (batches : list Z) (total_uploaded : Z)
  : M Z :=
  match batches with
  | [] => ret total_uploaded
  | batch_num :: rest =>
      let offset := batch_num * batch_size in
      let! df :=
        try_except (fetch_batch env batch_num batch_size offset)
          (fun e =>
             save_checkpoint env
               (checkpoint_data (batch_num - 1) total_uploaded total_rows
                  batch_size bq_dataset_table bq_project_id)
               bq_dataset_table ;;;
             raise e) in
      let rows_fetched := Z.of_nat (df_len df) in
      if df_empty df then
        batch_loop env bq_project_id bq_dataset_table batch_size total_rows
          rest total_uploaded
      else
        try_except (to_gbq env bq_dataset_table batch_num df)
          (fun e =>
             save_checkpoint env
               (checkpoint_data (batch_num - 1) total_uploaded total_rows
                  batch_size bq_dataset_table bq_project_id)
               bq_dataset_table ;;;
             raise e) ;;;
        let total_uploaded := total_uploaded + rows_fetched in
        save_checkpoint env
          (checkpoint_data batch_num total_uploaded total_rows batch_size
             bq_dataset_table bq_project_id)
          bq_dataset_table ;;;
        batch_loop env bq_project_id bq_dataset_table batch_size total_rows
          rest total_uploaded
  end.

(** The resume decision: [(start_batch, already_uploaded)]. *)
Definition resume_point (env : Env) (bq_dataset_table : string)
    (total_rows batch_size : Z) (checkpoint : option checkpoint)
  : M (Z * Z) :=
  match checkpoint with
  | Some checkpoint =>
      if bool_decide (ck_total_rows checkpoint = Some total_rows)
         && bool_decide (ck_batch_size checkpoint = Some batch_size)
      then
        let! last := getitem (ck_last_completed_batch checkpoint) in
        let start_batch := last + 1 in
        let already_uploaded :=
          default (start_batch * batch_size) (ck_total_uploaded checkpoint) in
        ret (start_batch, already_uploaded)
      else
        clear_checkpoint env bq_dataset_table ;;;
        ret (0, 0)
  | None => ret (0, 0)
  end.

(** The function returns nothing; its result here is what its summary
    prints, [Some (total_uploaded, total_batches)], and [None] when it
    leaves early for want of rows. The engine of step 1 is built from the
    [PG_*] variables without a connection being made; the first call to
    the source is the counting query. *)
Definition ingest_pg_to_bq_auto (env : Env)
    (bq_project_id bq_dataset_table : string) (batch_size : Z)
  : M (option (Z * Z)) :=
  validate_bq_table_name bq_dataset_table ;;;
  let! total_rows := count_rows env in
  if Z.eqb total_rows 0 then ret None
  else
    let! total_batches := floordiv (total_rows + batch_size - 1) batch_size in
    let! checkpoint := load_checkpoint env bq_dataset_table in
    let! resume :=
      resume_point env bq_dataset_table total_rows batch_size checkpoint in
    let start_batch := fst resume in
    let already_uploaded := snd resume in
    let! total_uploaded :=
      batch_loop env bq_project_id bq_dataset_table batch_size total_rows
        (range start_batch total_batches) already_uploaded in
    clear_checkpoint env bq_dataset_table ;;;
    ret (Some (total_uploaded, total_batches)).

(** The dict that [get_bq_config] returns. *)
Record bq_config : Type := {
  project_id : string;
  dataset : string;
  table : string;
  dataset_table : string }.

Definition get_bq_config (environ : gmap string string) : bq_config :=
  let project_id := getenv environ "BQ_PROJECT_ID" "my-gcp-project" in
  let dataset := getenv environ "BQ_DATASET" "my_dataset" in
  let table := getenv environ "BQ_TABLE" "my_table" in
  {| project_id := project_id;
     dataset := dataset;
     table := table;
     dataset_table := dataset +:+ "." +:+ table |}.

End BigQuery.

(** ** [pg_to_clickhouse.py]: PostgreSQL to ClickHouse *)

Module ClickHouse.
Import Py Run.

Definition CHECKPOINT_FILE : string := "ch_ingestion_checkpoint.json".

Definition save_checkpoint (checkpoint_data : checkpoint) : M unit :=
  json_dump CHECKPOINT_FILE checkpoint_data.

(** The record is returned only when its [table_name] is the target
    table; the message printed then reads
    [checkpoint['last_completed_batch']]. *)
Definition load_checkpoint (table_name : string) : M (option checkpoint) :=
  let! found := path_exists CHECKPOINT_FILE in
  if found then
    let! checkpoint := json_load CHECKPOINT_FILE in
    if bool_decide (ck_table_name checkpoint = Some table_name) then
      let! _ := getitem (ck_last_completed_batch checkpoint) in
      ret (Some checkpoint)
    else ret None
  else ret None.

Definition clear_checkpoint : M unit :=
  let! found := path_exists CHECKPOINT_FILE in
  if found then os_remove CHECKPOINT_FILE else ret tt.

(** [clickhouse_connect.get_client(...)] and the version query that
    verifies the connection. *)
Definition get_clickhouse_client (env : Env) : M unit :=
  emit (EvConnect (connect_ok env)) ;;;
  if connect_ok env then ret tt else raise ConnectError.

Definition count_rows (env : Env) : M Z :=
  emit (EvCount (count_result env)) ;;;
  match count_result env with
  | Some total_rows => ret total_rows
  | None => raise CountError
  end.

(** The first-batch query [sql_query LIMIT batch_size], read for its
    schema. *)
Definition fetch_first (env : Env) (batch_size : Z) : M DataFrame :=
  let r := read_sql env batch_size None in
  emit (EvSample batch_size (df_len <$> r)) ;;;
  match r with
  | Some df => ret df
  | None => raise FetchError
  end.

Definition fetch_batch (env : Env) (batch_num batch_size offset : Z)
  : M DataFrame :=
  let r := read_sql env batch_size (Some offset) in
  emit (EvFetch batch_num batch_size offset (df_len <$> r)) ;;;
  match r with
  | Some df => ret df
  | None => raise FetchError
  end.

(** [ch_client.insert(table=target_table, data=..., column_names=...)] *)
Definition insert (env : Env) (target_table : string) (batch_num : Z)
    (df : DataFrame) : M unit :=
  emit (EvWrite target_table batch_num (df_len df) (write_ok env batch_num)) ;;;
  if write_ok env batch_num then ret tt else raise WriteError.

(** [DROP TABLE IF EXISTS], whose failure is caught and only printed. *)
Definition drop_table (env : Env) (target_table : string) : M unit :=
  emit (EvDrop target_table (drop_ok env)).

Definition create_table (env : Env) (target_table : string)
    (first_df : DataFrame) : M unit :=
  let create_sql :=
    TypeMapper.get_create_table_sql (df_columns first_df) target_table None in
  emit (EvCreate target_table create_sql (create_ok env)) ;;;
  if create_ok env then ret tt else raise CommandError.

(** The dict literal passed to [save_checkpoint]. *)
Definition checkpoint_data (target_table : string) (batch_num total_uploaded
    total_rows batch_size : Z) : checkpoint :=
  {| ck_table_name := Some target_table;
     ck_last_completed_batch := Some batch_num;
     ck_total_uploaded := Some total_uploaded;
     ck_total_rows := Some total_rows;
     ck_batch_size := Some batch_size;
     ck_bq_dataset_table := None;
     ck_bq_project_id := None |}.

(** The [try] block of one iteration; it returns [total_uploaded] as the
    iteration leaves it. *)
Definition batch_body (env : Env) (target_table : string)
    (batch_size total_rows batch_num total_uploaded : Z) : M Z :=
  let offset := batch_num * batch_size in
  let! df := fetch_batch env batch_num batch_size offset in
  let rows_fetched := Z.of_nat (df_len df) in
  if df_empty df then ret total_uploaded
  else
    insert env target_table batch_num df ;;;
    let total_uploaded := total_uploaded + rows_fetched in
    save_checkpoint
      (checkpoint_data target_table batch_num total_uploaded total_rows
         batch_size) ;;;
    ret total_uploaded.

(** The loop [for batch_num in range(start_batch, total_batches)]; the
    [except] clause prints and re-raises. *)
Fixpoint batch_loop (env : Env) (target_table : string)
    (batch_size total_rows : Z) (batches : list Z) (total_uploaded : Z)
  : M Z :=
  match batches with
  | [] => ret total_uploaded
  | batch_num :: rest =>
      let! total_uploaded :=
        try_except
          (batch_body env target_table batch_size total_rows batch_num
             total_uploaded)
          (fun e => raise e) in
      batch_loop env target_table batch_size total_rows rest total_uploaded
  end.

(** The resume decision [if checkpoint and not replace: ...]:
    [(start_batch, already_uploaded)]. *)
Definition resume_point (total_rows batch_size : Z) (replace : bool)
    (checkpoint : option checkpoint) : M (Z * Z) :=
  match checkpoint with
  | Some checkpoint =>
      if negb replace then
        if bool_decide (ck_total_rows checkpoint = Some total_rows)
           && bool_decide (ck_batch_size checkpoint = Some batch_size)
        then
          let! last := getitem (ck_last_completed_batch checkpoint) in
          let start_batch := last + 1 in
          let already_uploaded :=
            default (start_batch * batch_size) (ck_total_uploaded checkpoint) in
          ret (start_batch, already_uploaded)
        else
          clear_checkpoint ;;;
          ret (0, 0)
      else ret (0, 0)
  | None => ret (0, 0)
  end.

(** Step 4: the table is dropped and created when [replace and
    start_batch == 0]. *)
Definition prepare_table (env : Env) (target_table : string)
    (replace : bool) (start_batch : Z) (first_df : DataFrame) : M unit :=
  if replace && Z.eqb start_batch 0 then
    drop_table env target_table ;;;
    create_table env target_table first_df
  else ret tt.

Definition ingest_query_to_clickhouse (env : Env) (target_table : string)
    (batch_size : Z) (replace : bool) : M Z :=
  get_clickhouse_client env ;;;
  let! total_rows := count_rows env in
  if Z.eqb total_rows 0 then ret 0
  else
    let! total_batches := floordiv (total_rows + batch_size - 1) batch_size in
    let! checkpoint := load_checkpoint target_table in
    let! resume := resume_point total_rows batch_size replace checkpoint in
    let start_batch := fst resume in
    let already_uploaded := snd resume in
    let! first_df := fetch_first env batch_size in
    prepare_table env target_table replace start_batch first_df ;;;
    let! total_uploaded :=
      batch_loop env target_table batch_size total_rows
        (range start_batch total_batches) already_uploaded in
    clear_checkpoint ;;;
    ret total_uploaded.

(** [ingest_table_to_clickhouse]: the target table defaults to the source
    table name without its schema, and the query is [SELECT * FROM
    source_table]; [env] holds the answers of the source to that query. *)
Definition default_target_table (source_table : string) : string :=
  last_item (split "." source_table).

Definition ingest_table_to_clickhouse (env : Env) (source_table : string)
    (target_table : option string) (batch_size : Z) (replace : bool) : M Z :=
  let target_table :=
    match target_table with
    | None => default_target_table source_table
    | Some t => t
    end in
  ingest_query_to_clickhouse env target_table batch_size replace.

End ClickHouse.

(** ** Observations on event lists *)

Module Trace.

(** The batch numbers fetched by the loop, in order. *)
Fixpoint fetches (es : list event) : list Z :=
  match es with
  | [] => []
  | EvFetch i _ _ _ :: es' => i :: fetches es'
  | _ :: es' => fetches es'
  end.

(** The batch numbers written with success, in order. *)
Fixpoint writes (es : list event) : list Z :=
  match es with
  | [] => []
  | EvWrite _ i _ true :: es' => i :: writes es'
  | _ :: es' => writes es'
  end.

(** The batch numbers whose iteration went through: fetched empty and
    skipped, or fetched and written. *)
Fixpoint done_batches (es : list event) : list Z :=
  match es with
  | [] => []
  | EvFetch i _ _ (Some O) :: es' => i :: done_batches es'
  | EvWrite _ i _ true :: es' => i :: done_batches es'
  | _ :: es' => done_batches es'
  end.

(** The number of rows written with success. *)
Fixpoint rows_written (es : list event) : Z :=
  match es with
  | [] => 0
  | EvWrite _ _ n true :: es' => Z.of_nat n + rows_written es'
  | _ :: es' => rows_written es'
  end.

(** Whether an event changes the destination schema. *)
Definition is_schema_change (ev : event) : bool :=
  match ev with
  | EvDrop _ _ | EvCreate _ _ _ => true
  | _ => false
  end.

(** Whether an event writes or removes a checkpoint file. *)
Definition is_checkpoint_change (ev : event) : bool :=
  match ev with
  | EvSave _ _ | EvRemove _ => true
  | _ => false
  end.

(** The filesystem after the file operations of an event list. *)
Fixpoint replay (es : list event) (fs : gmap string file) : gmap string file :=
  match es with
  | [] => fs
  | EvSave path c :: es' => replay es' (<[path := Json c]> fs)
  | EvRemove path :: es' => replay es' (delete path fs)
  | _ :: es' => replay es' fs
  end.

End Trace.

(** The rows that the source returns for batch [i]: [0] when the fetch
    fails. *)
Definition batch_rows (env : Env) (batch_size i : Z) : Z :=
  match read_sql env batch_size (Some (i * batch_size)) with
  | Some df => Z.of_nat (df_len df)
  | None => 0
  end.

(** The sum of the rows of the batches of a list. *)
Definition sum_rows (env : Env) (batch_size : Z) (batches : list Z) : Z :=
  foldr (fun i acc => batch_rows env batch_size i + acc) 0 batches.

(** ** The two loops as one recursion

    Both loops follow one recursion over the batch numbers. They differ in
    the checkpoint file, in the record they write, and in what they do when
    a fetch or a write fails: [hello.py] saves a checkpoint for the batch
    before, [pg_to_clickhouse.py] saves nothing. *)

Section LoopModel.
Context (env : Env) (batch_size : Z) (table key : string)
  (data : Z -> Z -> checkpoint) (save_on_fail : bool).

Definition fail_with (e : exn) (i u : Z) (fs : gmap string file)
    (es : list event) : outcome Z * gmap string file * list event :=
  if save_on_fail then
    (Raise e, <[key := Json (data (i - 1) u)]> fs,
     es ++ [EvSave key (data (i - 1) u)])
  else (Raise e, fs, es).

Fixpoint loop_model (batches : list Z) (u : Z) (fs : gmap string file)
  : outcome Z * gmap string file * list event :=
  match batches with
  | [] => (Ok u, fs, [])
  | i :: rest =>
      let fetched n := EvFetch i batch_size (i * batch_size) n in
      match read_sql env batch_size (Some (i * batch_size)) with
      | None => fail_with FetchError i u fs [fetched None]
      | Some df =>
          match df_len df with
          | O =>
              let r := loop_model rest u fs in
              (r.1.1, r.1.2, fetched (Some O) :: r.2)
          | S _ =>
              let n := df_len df in
              if write_ok env i then
                let u' := u + Z.of_nat n in
                let r := loop_model rest u' (<[key := Json (data i u')]> fs) in
                (r.1.1, r.1.2,
                 fetched (Some n) :: EvWrite table i n true
                   :: EvSave key (data i u') :: r.2)
              else
                fail_with WriteError i u fs
                  [fetched (Some n); EvWrite table i n false]
          end
      end
  end.

End LoopModel.

(** ** The checkpoint discipline of an event list *)

(** Events of the batch loop, as opposed to those of the planning phase and
    of the final clean-up. *)
Definition is_loop_event (ev : event) : bool :=
  match ev with
  | EvFetch _ _ _ _ | EvWrite _ _ _ _ | EvSave _ _ => true
  | _ => false
  end.

(** An event list obeys the checkpoint discipline from the batch [s] and
    the count [u0] when
    - the batches are fetched in ascending order without a gap, from [s] on;
    - nothing comes between a successful write of batch [i] and the save of
      its checkpoint: what follows the write, if anything follows, begins
      with the save of a checkpoint whose last completed batch is [i] and
      whose count is the count so far plus the rows of the batch;
    - whenever a checkpoint is saved, its last completed batch is some [j]
      such that the batches gone through before the save are exactly
      [s .. j], and its count is [u0] plus the rows written before. *)
Definition checkpoint_discipline (s u0 : Z) (es : list event) : Prop :=
  (exists e, Trace.fetches es = Py.range s e) /\
  (forall pre t i n post,
     es = pre ++ EvWrite t i n true :: post ->
     post = [] \/
     exists p ck post',
       post = EvSave p ck :: post' /\
       ck_last_completed_batch ck = Some i /\
       ck_total_uploaded ck
         = Some (u0 + Trace.rows_written pre + Z.of_nat n)) /\
  (forall pre p ck post,
     es = pre ++ EvSave p ck :: post ->
     exists j,
       ck_last_completed_batch ck = Some j /\
       ck_total_uploaded ck = Some (u0 + Trace.rows_written pre) /\
       Trace.done_batches pre = Py.range s (j + 1)).

(** ** The runs, from the resume decision on *)

(** [ceil(total_rows / batch_size)] as the scripts compute it. *)
Definition total_batches_of (total_rows batch_size : Z) : Z :=
  (total_rows + batch_size - 1) / batch_size.

(** The resume decision of [hello.py]: load, then compare. *)
Definition bq_start (env : Env) (table : string) (total_rows batch_size : Z)
  : Run.M (Z * Z) :=
  let! checkpoint := BigQuery.load_checkpoint env table in
  BigQuery.resume_point env table total_rows batch_size checkpoint.

(** What [hello.py] does with the outcome of its loop: on success it clears
    the checkpoint and prints the summary. [pre] are the events before the
    loop. *)
Definition bq_finish (env : Env) (table : string) (total_batches : Z)
    (pre : list event) (r : outcome Z * gmap string file * list event)
  : outcome (option (Z * Z)) * gmap string file * list event :=
  let key := BigQuery.get_checkpoint_filename env table in
  match r with
  | (Ok total, fs2, es2) =>
      (Ok (Some (total, total_batches)), delete key fs2,
       pre ++ es2 ++
         (if bool_decide (is_Some (fs2 !! key)) then [EvRemove key] else []))
  | (Raise e, fs2, es2) => (Raise e, fs2, pre ++ es2)
  end.

(** The resume decision of [pg_to_clickhouse.py]. *)
Definition ch_start (table : string) (total_rows batch_size : Z)
    (replace : bool) : Run.M (Z * Z) :=
  let! checkpoint := ClickHouse.load_checkpoint table in
  ClickHouse.resume_point total_rows batch_size replace checkpoint.

(** The events of step 4 of [pg_to_clickhouse.py] when the first-batch
    query returns [first_df] and the table creation succeeds. *)
Definition ch_prepare_events (env : Env) (table : string) (batch_size : Z)
    (replace : bool) (start_batch : Z) (first_df : DataFrame) : list event :=
  EvSample batch_size (Some (df_len first_df)) ::
  (if replace && Z.eqb start_batch 0 then
     [EvDrop table (drop_ok env);
      EvCreate table
        (TypeMapper.get_create_table_sql (df_columns first_df) table None)
        true]
   else []).

Definition ch_finish (pre : list event)
    (r : outcome Z * gmap string file * list event)
  : outcome Z * gmap string file * list event :=
  let key := ClickHouse.CHECKPOINT_FILE in
  match r with
  | (Ok total, fs2, es2) =>
      (Ok total, delete key fs2,
       pre ++ es2 ++
         (if bool_decide (is_Some (fs2 !! key)) then [EvRemove key] else []))
  | (Raise e, fs2, es2) => (Raise e, fs2, pre ++ es2)
  end.

(** ** Runs that transfer a given list of batches *)

(** What a job reports: the count of its summary, when it gets there. *)
Definition bq_reported (o : outcome (option (Z * Z))) : option Z :=
  match o with
  | Ok (Some (total_uploaded, _)) => Some total_uploaded
  | _ => None
  end.

Definition ch_reported (o : outcome Z) : option Z :=
  match o with
  | Ok total_uploaded => Some total_uploaded
  | Raise _ => None
  end.

(** The events [es] are those of a transfer of the batches [batches]
    started with the count [from]: the loop fetches these batches in their
    order and no other, it writes only batches that it has fetched, and when
    the job reports a count, it has fetched all of them, written those that
    are not empty, and the count is [from] plus their rows. *)
Definition transfers (env : Env) (batch_size : Z) (batches : list Z)
    (from : Z) (es : list event) (reported : option Z) : Prop :=
  Trace.fetches es `prefix_of` batches /\
  Trace.writes es `sublist_of` Trace.fetches es /\
  forall total, reported = Some total ->
    Trace.fetches es = batches /\
    Trace.writes es
      = filter (fun i => batch_rows env batch_size i <> 0) batches /\
    total = from + sum_rows env batch_size batches.

(** ** Concrete runs *)

Module Scenario.

Definition frame (n : nat) : DataFrame :=
  {| df_columns := [("id", "int64"); ("name", "object")]; df_len := n |}.

(** A source of 25 rows read ten at a time: batches of 10, 10 and 5
    rows, and nothing past the end. *)
Definition window (limit : Z) (offset : option Z) : option DataFrame :=
  match offset with
  | None => Some (frame 10)
  | Some off =>
      Some (frame (if Z.eqb off 0 then 10
                   else if Z.eqb off 10 then 10
                   else if Z.eqb off 20 then 5 else 0))
  end.

Definition healthy : Env :=
  {| CHECKPOINT_DIR := ".";
     connect_ok := true;
     count_result := Some 25;
     read_sql := window;
     write_ok := fun _ => true;
     drop_ok := true;
     create_ok := true |}.

(** The write of batch [k] fails. *)
Definition write_fails_at (k : Z) : Env :=
  {| CHECKPOINT_DIR := ".";
     connect_ok := true;
     count_result := Some 25;
     read_sql := window;
     write_ok := fun i => negb (Z.eqb i k);
     drop_ok := true;
     create_ok := true |}.

(** The fetch of batch [k] fails. *)
Definition fetch_fails_at (k : Z) : Env :=
  {| CHECKPOINT_DIR := ".";
     connect_ok := true;
     count_result := Some 25;
     read_sql := fun limit offset =>
       if bool_decide (offset = Some (k * limit)) then None
       else window limit offset;
     write_ok := fun _ => true;
     drop_ok := true;
     create_ok := true |}.

(** Batch 0 holds 10 rows, batch 1 comes back empty, and the fetch of
    batch 2 fails. *)
Definition gap_then_failure : Env :=
  {| CHECKPOINT_DIR := ".";
     connect_ok := true;
     count_result := Some 25;
     read_sql := fun limit offset =>
       match offset with
       | None => Some (frame 10)
       | Some off =>
           if Z.eqb off 0 then Some (frame 10)
           else if Z.eqb off 10 then Some (frame 0)
           else None
       end;
     write_ok := fun _ => true;
     drop_ok := true;
     create_ok := true |}.

(** The counting query reports no row. *)
Definition no_rows : Env :=
  {| CHECKPOINT_DIR := ".";
     connect_ok := true;
     count_result := Some 0;
     read_sql := window;
     write_ok := fun _ => true;
     drop_ok := true;
     create_ok := true |}.

(** The checkpoints that a run over 25 rows, ten at a time, leaves after
    batch 0. *)
Definition bq_after_batch_0 : checkpoint :=
  BigQuery.checkpoint_data 0 10 25 10 "sales.orders" "proj".

Definition ch_after_batch_0 : checkpoint :=
  ClickHouse.checkpoint_data "orders" 0 10 25 10.

(** The same without the key [total_uploaded], the batch having held 8
    rows. *)
Definition bq_no_count : checkpoint :=
  {| ck_table_name := None;
     ck_last_completed_batch := Some 0;
     ck_total_uploaded := None;
     ck_total_rows := Some 25;
     ck_batch_size := Some 10;
     ck_bq_dataset_table := Some "sales.orders";
     ck_bq_project_id := Some "proj" |}.

Definition ch_no_count : checkpoint :=
  {| ck_table_name := Some "orders";
     ck_last_completed_batch := Some 0;
     ck_total_uploaded := None;
     ck_total_rows := Some 25;
     ck_batch_size := Some 10;
     ck_bq_dataset_table := None;
     ck_bq_project_id := None |}.

(** Checkpoints of an earlier job of 40 rows. *)
Definition bq_stale : checkpoint :=
  BigQuery.checkpoint_data 1 20 40 10 "sales.orders" "proj".

Definition ch_stale : checkpoint :=
  ClickHouse.checkpoint_data "orders" 1 20 40 10.

(** A checkpoint of another ClickHouse job. *)
Definition ch_users : checkpoint :=
  ClickHouse.checkpoint_data "users" 3 40 100 10.

Definition bq_file : string := "./checkpoint_sales_orders.json".

End Scenario.

(** ** Further observations on runs *)

(** The checkpoints saved by an event list, in order, as pairs of the last
    completed batch and the count. *)
Fixpoint saved (es : list event) : list (Z * Z) :=
  match es with
  | [] => []
  | EvSave _ c :: es' =>
      match ck_last_completed_batch c, ck_total_uploaded c with
      | Some j, Some u => (j, u) :: saved es'
      | _, _ => saved es'
      end
  | _ :: es' => saved es'
  end.

(** A write event carries the rows that the fetch of its batch returned,
    and they are not zero. *)
Definition write_of_fetched_rows (env : Env) (batch_size : Z) (ev : event)
  : Prop :=
  match ev with
  | EvWrite _ i n _ => n <> 0%nat /\ Z.of_nat n = batch_rows env batch_size i
  | _ => True
  end.

(** The source answers every batch window with the rows that a result of
    [total_rows] rows has there. *)
Definition stable_source (env : Env) (total_rows batch_size : Z) : Prop :=
  forall i, 0 <= i < total_batches_of total_rows batch_size ->
    batch_rows env batch_size i = Z.min batch_size (total_rows - i * batch_size).

(** The same collaborators with another outcome of [DROP TABLE]. *)
Definition set_drop_ok (env : Env) (ok : bool) : Env :=
  {| CHECKPOINT_DIR := CHECKPOINT_DIR env;
     connect_ok := connect_ok env;
     count_result := count_result env;
     read_sql := read_sql env;
     write_ok := write_ok env;
     drop_ok := ok;
     create_ok := create_ok env |}.

(** The events of the schema initialisation of a ClickHouse run. *)
Definition schema_events (es : list event) : list event :=
  List.filter Trace.is_schema_change es.

(** * Properties *)

(** ** Python helpers *)

Section PyFacts.
Import Py.

Lemma startswith_refl s : startswith s s = true.
Proof.
  induction s as [|c s IH]; simpl; [done|].
  by rewrite Ascii.eqb_refl, IH.
Qed.

Lemma dict_get_elem_of {V} (d : dict V) k v :
  NoDup d.*1 -> (k, v) ∈ d -> dict_get d k = Some v.
Proof.
  induction d as [|[k' v'] d IH]; simpl; intros Hnd Hin.
  - by apply elem_of_nil in Hin.
  - apply NoDup_cons in Hnd as [Hk' Hnd].
    apply elem_of_cons in Hin as [Heq|Hin].
    + injection Heq as -> ->. by rewrite String.eqb_refl.
    + destruct (String.eqb_spec k' k) as [->|Hne]; [|by apply IH].
      exfalso. apply Hk'. apply list_elem_of_fmap. by exists (k, v).
Qed.

Lemma dict_get_None {V} (d : dict V) k :
  k ∉ d.*1 -> dict_get d k = None.
Proof.
  induction d as [|[k' v'] d IH]; simpl; intros Hk; [done|].
  apply not_elem_of_cons in Hk as [Hne Hk].
  destruct (String.eqb_spec k' k) as [->|_]; [done|by apply IH].
Qed.

Lemma range_nil a b : b <= a -> range a b = [].
Proof. intros H. unfold range. by replace (Z.to_nat (b - a)) with 0%nat by lia. Qed.

Lemma range_cons a b : a < b -> range a b = a :: range (a + 1) b.
Proof.
  intros H. unfold range.
  replace (Z.to_nat (b - a)) with (S (Z.to_nat (b - (a + 1)))) by lia.
  simpl. f_equal; [lia|].
  rewrite <- seq_shift, map_map. apply map_ext. intros i. lia.
Qed.

Lemma range_snoc a b : a <= b -> range a (b + 1) = range a b ++ [b].
Proof.
  intros H. unfold range.
  replace (Z.to_nat (b + 1 - a)) with (Z.to_nat (b - a) + 1)%nat by lia.
  rewrite seq_app, map_app. simpl. do 2 f_equal. lia.
Qed.

Lemma range_cons_inv a b i l :
  range a b = i :: l -> a < b /\ i = a /\ l = range (a + 1) b.
Proof.
  intros H. destruct (decide (a < b)) as [Hlt|Hge].
  - rewrite range_cons in H by done. by injection H as <- <-.
  - rewrite range_nil in H by lia. done.
Qed.

Lemma replace_char_inj old new s1 s2 :
  has_char new s1 = false -> has_char new s2 = false ->
  replace_char old new s1 = replace_char old new s2 -> s1 = s2.
Proof.
  revert s2. induction s1 as [|c1 s1 IH]; intros [|c2 s2]; simpl; try done.
  intros [Hc1 H1]%orb_false_elim [Hc2 H2]%orb_false_elim Heq.
  injection Heq as Hc Hs. f_equal; [|by apply IH].
  destruct (Ascii.eqb_spec c1 old) as [->|_], (Ascii.eqb_spec c2 old) as [->|_];
    try done.
  - subst c2. by rewrite Ascii.eqb_refl in Hc2.
  - subst c1. by rewrite Ascii.eqb_refl in Hc1.
Qed.

Lemma replace_char_app old new s1 s2 :
  replace_char old new (s1 +:+ s2)
    = replace_char old new s1 +:+ replace_char old new s2.
Proof. induction s1 as [|c s1 IH]; simpl; [done|]. by rewrite IH. Qed.

Lemma replace_char_id old new s :
  has_char old s = false -> replace_char old new s = s.
Proof.
  induction s as [|c s IH]; simpl; [done|].
  intros [Hc Hs]%orb_false_elim. by rewrite Hc, IH.
Qed.

Lemma append_inj_l (p s1 s2 : string) : p +:+ s1 = p +:+ s2 -> s1 = s2.
Proof. induction p as [|c p IH]; simpl; [done|]. intros [= H]. by apply IH. Qed.

Lemma string_app_length (s1 s2 : string) :
  String.length (s1 +:+ s2) = (String.length s1 + String.length s2)%nat.
Proof. induction s1 as [|c s1 IH]; simpl; [done|]. by rewrite IH. Qed.

Lemma append_inj_r (s1 s2 q : string) : s1 +:+ q = s2 +:+ q -> s1 = s2.
Proof.
  revert s2. induction s1 as [|c1 s1 IH]; intros [|c2 s2]; simpl; try done.
  - intros H. apply (f_equal String.length) in H. cbn in H.
    rewrite ?string_app_length in H. cbn in H. lia.
  - intros H. apply (f_equal String.length) in H. cbn in H.
    rewrite ?string_app_length in H. cbn in H. lia.
  - intros [= -> H]. f_equal. by apply IH.
Qed.

End PyFacts.

(** ** The type mapper *)

Section TypeMapperFacts.
Import Py TypeMapper.

Lemma type_mapping_keys_NoDup : NoDup type_mapping.*1.
Proof. apply (bool_decide_unpack _). by vm_compute. Qed.

Lemma first_prefix_split d t pre k ch post :
  d = pre ++ (k, ch) :: post ->
  Forall (fun kv => startswith t kv.1 = false) pre ->
  startswith t k = true ->
  first_prefix d t = Some ch.
Proof.
  intros -> Hpre Hk. induction Hpre as [|[k' ch'] pre Hk' _ IH]; simpl.
  - by rewrite Hk.
  - simpl in Hk'. by rewrite Hk'.
Qed.

Lemma first_prefix_None d t :
  Forall (fun kv => startswith t kv.1 = false) d -> first_prefix d t = None.
Proof.
  induction 1 as [|[k ch] d Hk _ IH]; simpl; [done|].
  simpl in Hk. by rewrite Hk.
Qed.

Lemma no_prefix_no_key (d : dict string) t :
  Forall (fun kv => startswith t kv.1 = false) d -> t ∉ d.*1.
Proof.
  intros Hall Hin. apply list_elem_of_fmap in Hin as ([k ch] & -> & Hin).
  rewrite Forall_forall in Hall. specialize (Hall _ Hin). simpl in Hall.
  by rewrite startswith_refl in Hall.
Qed.

End TypeMapperFacts.

(** C8: the lookup order of the type mapper. With [t] the upper-cased
    source type: (1) a pair of the static table whose key is [t] gives the
    result; (2) when no key is [t], the first key of the table, in its
    order, that is a prefix of [t] gives the result; (4) when no key is a
    prefix of [t] the result is the generic text type ["String"]; (3) the
    table definition uses the mapper for a column whose catalog type is known
    and infers the type from the column's runtime dtype (integer,
    floating-point, boolean, temporal; text otherwise) only when no catalog
    type is known. ["VARCHAR(255)"] gets the type registered for
    ["VARCHAR"], and ["CUSTOM_ENUM"] the generic text type. *)
Theorem type_mapper_lookup_order (pg_type : string) :
  let t := Py.upper pg_type in
  (forall ch, (t, ch) ∈ TypeMapper.type_mapping ->
     TypeMapper.pg_type_to_ch_type pg_type = ch) /\
  (forall pre k ch post,
     TypeMapper.type_mapping = pre ++ (k, ch) :: post ->
     t ∉ TypeMapper.type_mapping.*1 ->
     Forall (fun kv => Py.startswith t kv.1 = false) pre ->
     Py.startswith t k = true ->
     TypeMapper.pg_type_to_ch_type pg_type = ch) /\
  (Forall (fun kv => Py.startswith t kv.1 = false) TypeMapper.type_mapping ->
     TypeMapper.pg_type_to_ch_type pg_type = "String") /\
  (forall pg_columns col dtype,
     TypeMapper.catalog_type pg_columns col = Some pg_type ->
     TypeMapper.column_ch_type pg_columns col dtype
       = TypeMapper.pg_type_to_ch_type pg_type) /\
  (forall pg_columns col dtype,
     TypeMapper.catalog_type pg_columns col = None ->
     TypeMapper.column_ch_type pg_columns col dtype
       = if Py.contains "int" dtype then "Int64"
         else if Py.contains "float" dtype then "Float64"
         else if Py.contains "bool" dtype then "Bool"
         else if Py.contains "datetime" dtype then "DateTime64(3)"
         else "String") /\
  (Some (TypeMapper.pg_type_to_ch_type "VARCHAR(255)")
     = Py.dict_get TypeMapper.type_mapping "VARCHAR" /\
   TypeMapper.pg_type_to_ch_type "VARCHAR(255)" = "String" /\
   TypeMapper.pg_type_to_ch_type "CUSTOM_ENUM" = "String" /\
   TypeMapper.column_ch_type None "n" "int64" = "Int64" /\
   TypeMapper.column_ch_type None "x" "float64" = "Float64" /\
   TypeMapper.column_ch_type None "b" "bool" = "Bool" /\
   TypeMapper.column_ch_type None "d" "datetime64[ns]" = "DateTime64(3)" /\
   TypeMapper.column_ch_type None "s" "object" = "String").
Proof.
  intros t. unfold TypeMapper.pg_type_to_ch_type. fold t.
  split; [|split; [|split; [|split; [|split]]]].
  - intros ch Hin.
    by rewrite (dict_get_elem_of _ _ _ type_mapping_keys_NoDup Hin).
  - intros pre k ch post Hsplit Hkey Hpre Hk.
    rewrite (dict_get_None _ _ Hkey).
    by rewrite (first_prefix_split _ _ _ _ _ _ Hsplit Hpre Hk).
  - intros Hall.
    rewrite (dict_get_None _ _ (no_prefix_no_key _ _ Hall)).
    by rewrite (first_prefix_None _ _ Hall).
  - intros pg_columns col dtype Hcat.
    unfold TypeMapper.column_ch_type. by rewrite Hcat.
  - intros pg_columns col dtype Hcat.
    unfold TypeMapper.column_ch_type. by rewrite Hcat.
  - repeat split; by vm_compute.
Qed.

(** The second stage at work: ["varchar(255)"] has no exact match and
    ["VARCHAR"] is the first key that is a prefix of it. *)
Lemma type_mapper_lookup_order_witness :
  TypeMapper.pg_type_to_ch_type "varchar(255)" = "String".
Proof.
  apply (proj1 (proj2 (type_mapper_lookup_order "varchar(255)"))
           (take 10 TypeMapper.type_mapping) "VARCHAR" "String"
           (drop 11 TypeMapper.type_mapping)).
  - reflexivity.
  - apply (bool_decide_unpack _). vm_compute. reflexivity.
  - apply (bool_decide_unpack _). vm_compute. reflexivity.
  - vm_compute. reflexivity.
Defined.

(** ** Equations of the checkpoint store *)

Ltac run_unfold :=
  unfold Run.bind, Run.ret, Run.raise, Run.emit, Run.try_except,
    Run.path_exists, Run.json_load, Run.json_dump, Run.os_remove,
    Run.getitem, Run.floordiv.

Ltac run_unfold_all := repeat (progress run_unfold).

Section StoreFacts.
Import Run.

Lemma is_Some_None_false {A} (o : option A) :
  o = None -> bool_decide (is_Some o) = false.
Proof. intros ->. apply bool_decide_eq_false. by intros [? ?]. Qed.

Lemma is_Some_Some_true {A} (o : option A) a :
  o = Some a -> bool_decide (is_Some o) = true.
Proof. intros ->. by apply bool_decide_eq_true. Qed.

Lemma bq_load_absent env t (fs : gmap string file) :
  fs !! BigQuery.get_checkpoint_filename env t = None ->
  BigQuery.load_checkpoint env t fs = (Ok None, fs, []).
Proof.
  intros H. unfold BigQuery.load_checkpoint. run_unfold.
  by rewrite (is_Some_None_false _ H).
Qed.

Lemma bq_load_garbage env t (fs : gmap string file) :
  fs !! BigQuery.get_checkpoint_filename env t = Some Garbage ->
  BigQuery.load_checkpoint env t fs = (Raise JSONDecodeError, fs, []).
Proof.
  intros H. unfold BigQuery.load_checkpoint. run_unfold.
  by rewrite (is_Some_Some_true _ _ H), H.
Qed.

Lemma bq_load_json env t (fs : gmap string file) c :
  fs !! BigQuery.get_checkpoint_filename env t = Some (Json c) ->
  BigQuery.load_checkpoint env t fs =
    (match ck_last_completed_batch c with
     | Some _ => Ok (Some c)
     | None => Raise KeyError
     end, fs, []).
Proof.
  intros H. unfold BigQuery.load_checkpoint. run_unfold.
  rewrite (is_Some_Some_true _ _ H), H.
  by destruct (ck_last_completed_batch c).
Qed.

Lemma bq_clear env t (fs : gmap string file) :
  BigQuery.clear_checkpoint env t fs =
    (Ok tt, delete (BigQuery.get_checkpoint_filename env t) fs,
     if bool_decide (is_Some (fs !! BigQuery.get_checkpoint_filename env t))
     then [EvRemove (BigQuery.get_checkpoint_filename env t)] else []).
Proof.
  unfold BigQuery.clear_checkpoint. run_unfold.
  destruct (fs !! BigQuery.get_checkpoint_filename env t) as [f|] eqn:H.
  - by rewrite (is_Some_Some_true _ _ eq_refl).
  - rewrite (is_Some_None_false _ eq_refl). by rewrite delete_id.
Qed.

Lemma ch_load_absent t (fs : gmap string file) :
  fs !! ClickHouse.CHECKPOINT_FILE = None ->
  ClickHouse.load_checkpoint t fs = (Ok None, fs, []).
Proof.
  intros H. unfold ClickHouse.load_checkpoint. run_unfold.
  by rewrite (is_Some_None_false _ H).
Qed.

Lemma ch_load_garbage t (fs : gmap string file) :
  fs !! ClickHouse.CHECKPOINT_FILE = Some Garbage ->
  ClickHouse.load_checkpoint t fs = (Raise JSONDecodeError, fs, []).
Proof.
  intros H. unfold ClickHouse.load_checkpoint. run_unfold.
  by rewrite (is_Some_Some_true _ _ H), H.
Qed.

Lemma ch_load_json t (fs : gmap string file) c :
  fs !! ClickHouse.CHECKPOINT_FILE = Some (Json c) ->
  ClickHouse.load_checkpoint t fs =
    (if bool_decide (ck_table_name c = Some t) then
       match ck_last_completed_batch c with
       | Some _ => Ok (Some c)
       | None => Raise KeyError
       end
     else Ok None, fs, []).
Proof.
  intros H. unfold ClickHouse.load_checkpoint. run_unfold.
  rewrite (is_Some_Some_true _ _ H), H.
  destruct (bool_decide (ck_table_name c = Some t)); [|done].
  by destruct (ck_last_completed_batch c).
Qed.

Lemma ch_clear (fs : gmap string file) :
  ClickHouse.clear_checkpoint fs =
    (Ok tt, delete ClickHouse.CHECKPOINT_FILE fs,
     if bool_decide (is_Some (fs !! ClickHouse.CHECKPOINT_FILE))
     then [EvRemove ClickHouse.CHECKPOINT_FILE] else []).
Proof.
  unfold ClickHouse.clear_checkpoint. run_unfold.
  destruct (fs !! ClickHouse.CHECKPOINT_FILE) as [f|] eqn:H.
  - by rewrite (is_Some_Some_true _ _ eq_refl).
  - rewrite (is_Some_None_false _ eq_refl). by rewrite delete_id.
Qed.

End StoreFacts.

(** ** One iteration of the batch loops *)

Section LoopEquations.
Import Run.

Context (env : Env) (project table : string) (batch_size total_rows : Z).

Let bq_key := BigQuery.get_checkpoint_filename env table.
Let bq_data (i u : Z) :=
  BigQuery.checkpoint_data i u total_rows batch_size table project.
Let bq_loop := BigQuery.batch_loop env project table batch_size total_rows.
Let ch_data (i u : Z) :=
  ClickHouse.checkpoint_data table i u total_rows batch_size.
Let ch_loop := ClickHouse.batch_loop env table batch_size total_rows.
Let fetch_ev (i : Z) (r : option nat) :=
  EvFetch i batch_size (i * batch_size) r.

Lemma bq_loop_nil u (fs : gmap string file) : bq_loop [] u fs = (Ok u, fs, []).
Proof. reflexivity. Qed.

Lemma bq_loop_fetch_fails i rest u (fs : gmap string file) :
  read_sql env batch_size (Some (i * batch_size)) = None ->
  bq_loop (i :: rest) u fs =
    (Raise FetchError, <[bq_key := Json (bq_data (i - 1) u)]> fs,
     [fetch_ev i None; EvSave bq_key (bq_data (i - 1) u)]).
Proof.
  intros H. unfold bq_loop. simpl.
  unfold BigQuery.fetch_batch, BigQuery.save_checkpoint. run_unfold.
  by rewrite H.
Qed.

Lemma bq_loop_empty i rest u (fs : gmap string file) df :
  read_sql env batch_size (Some (i * batch_size)) = Some df ->
  df_len df = 0%nat ->
  bq_loop (i :: rest) u fs =
    (let r := bq_loop rest u fs in
     (r.1.1, r.1.2, fetch_ev i (Some 0%nat) :: r.2)).
Proof.
  intros H Hlen. unfold bq_loop. simpl.
  unfold BigQuery.fetch_batch, df_empty. run_unfold.
  rewrite H, Hlen. simpl. rewrite Hlen.
  by destruct (BigQuery.batch_loop _ _ _ _ _ rest u fs) as [[[?|?] ?] ?].
Qed.

Lemma bq_loop_write_fails i rest u (fs : gmap string file) df :
  read_sql env batch_size (Some (i * batch_size)) = Some df ->
  df_len df <> 0%nat ->
  write_ok env i = false ->
  bq_loop (i :: rest) u fs =
    (Raise WriteError, <[bq_key := Json (bq_data (i - 1) u)]> fs,
     [fetch_ev i (Some (df_len df)); EvWrite table i (df_len df) false;
      EvSave bq_key (bq_data (i - 1) u)]).
Proof.
  intros H Hlen Hw. unfold bq_loop. simpl.
  unfold BigQuery.fetch_batch, BigQuery.to_gbq, BigQuery.save_checkpoint,
    df_empty.
  run_unfold. rewrite H, Hw. simpl.
  by rewrite (proj2 (Nat.eqb_neq _ _) Hlen).
Qed.

Lemma bq_loop_written i rest u (fs : gmap string file) df :
  read_sql env batch_size (Some (i * batch_size)) = Some df ->
  df_len df <> 0%nat ->
  write_ok env i = true ->
  bq_loop (i :: rest) u fs =
    (let u' := u + Z.of_nat (df_len df) in
     let r := bq_loop rest u' (<[bq_key := Json (bq_data i u')]> fs) in
     (r.1.1, r.1.2,
      fetch_ev i (Some (df_len df)) :: EvWrite table i (df_len df) true
        :: EvSave bq_key (bq_data i u') :: r.2)).
Proof.
  intros H Hlen Hw. unfold bq_loop. simpl.
  unfold BigQuery.fetch_batch, BigQuery.to_gbq, BigQuery.save_checkpoint,
    df_empty.
  run_unfold. rewrite H, Hw. simpl.
  rewrite (proj2 (Nat.eqb_neq _ _) Hlen). simpl.
  by destruct (BigQuery.batch_loop _ _ _ _ _ rest _ _) as [[[?|?] ?] ?].
Qed.

Lemma ch_loop_nil u (fs : gmap string file) : ch_loop [] u fs = (Ok u, fs, []).
Proof. reflexivity. Qed.

Lemma ch_loop_fetch_fails i rest u (fs : gmap string file) :
  read_sql env batch_size (Some (i * batch_size)) = None ->
  ch_loop (i :: rest) u fs = (Raise FetchError, fs, [fetch_ev i None]).
Proof.
  intros H. unfold ch_loop. simpl.
  unfold ClickHouse.batch_body, ClickHouse.fetch_batch. run_unfold.
  by rewrite H.
Qed.

Lemma ch_loop_empty i rest u (fs : gmap string file) df :
  read_sql env batch_size (Some (i * batch_size)) = Some df ->
  df_len df = 0%nat ->
  ch_loop (i :: rest) u fs =
    (let r := ch_loop rest u fs in
     (r.1.1, r.1.2, fetch_ev i (Some 0%nat) :: r.2)).
Proof.
  intros H Hlen. unfold ch_loop. simpl.
  unfold ClickHouse.batch_body, ClickHouse.fetch_batch, df_empty. run_unfold.
  rewrite H, Hlen. simpl. rewrite Hlen.
  by destruct (ClickHouse.batch_loop _ _ _ _ rest u fs) as [[[?|?] ?] ?].
Qed.

Lemma ch_loop_write_fails i rest u (fs : gmap string file) df :
  read_sql env batch_size (Some (i * batch_size)) = Some df ->
  df_len df <> 0%nat ->
  write_ok env i = false ->
  ch_loop (i :: rest) u fs =
    (Raise WriteError, fs,
     [fetch_ev i (Some (df_len df)); EvWrite table i (df_len df) false]).
Proof.
  intros H Hlen Hw. unfold ch_loop. simpl.
  unfold ClickHouse.batch_body, ClickHouse.fetch_batch, ClickHouse.insert,
    df_empty.
  run_unfold. rewrite H, Hw. simpl.
  by rewrite (proj2 (Nat.eqb_neq _ _) Hlen).
Qed.

Lemma ch_loop_written i rest u (fs : gmap string file) df :
  read_sql env batch_size (Some (i * batch_size)) = Some df ->
  df_len df <> 0%nat ->
  write_ok env i = true ->
  ch_loop (i :: rest) u fs =
    (let u' := u + Z.of_nat (df_len df) in
     let r :=
       ch_loop rest u'
         (<[ClickHouse.CHECKPOINT_FILE := Json (ch_data i u')]> fs) in
     (r.1.1, r.1.2,
      fetch_ev i (Some (df_len df)) :: EvWrite table i (df_len df) true
        :: EvSave ClickHouse.CHECKPOINT_FILE (ch_data i u') :: r.2)).
Proof.
  intros H Hlen Hw. unfold ch_loop. simpl.
  unfold ClickHouse.batch_body, ClickHouse.fetch_batch, ClickHouse.insert,
    ClickHouse.save_checkpoint, df_empty.
  run_unfold. rewrite H, Hw. simpl.
  rewrite (proj2 (Nat.eqb_neq _ _) Hlen). simpl.
  by destruct (ClickHouse.batch_loop _ _ _ _ rest _ _) as [[[?|?] ?] ?].
Qed.

End LoopEquations.

(** ** The loops are instances of the common recursion *)

Lemma bq_loop_model env project table batch_size total_rows batches u
    (fs : gmap string file) :
  BigQuery.batch_loop env project table batch_size total_rows batches u fs =
  loop_model env batch_size table (BigQuery.get_checkpoint_filename env table)
    (fun i u => BigQuery.checkpoint_data i u total_rows batch_size table project)
    true batches u fs.
Proof.
  revert u fs. induction batches as [|i rest IH]; intros u fs; [done|].
  cbn [loop_model].
  destruct (read_sql env batch_size (Some (i * batch_size))) as [df|] eqn:Hread.
  - destruct (df_len df) as [|n] eqn:Hlen.
    + rewrite (bq_loop_empty _ _ _ _ _ _ _ _ _ _ Hread Hlen). cbn zeta.
      by rewrite IH.
    + assert (df_len df <> 0%nat) as Hne by lia.
      destruct (write_ok env i) eqn:Hw.
      * rewrite (bq_loop_written _ _ _ _ _ _ _ _ _ _ Hread Hne Hw). cbn zeta.
        by rewrite IH, Hlen.
      * rewrite (bq_loop_write_fails _ _ _ _ _ _ _ _ _ _ Hread Hne Hw).
        by rewrite Hlen.
  - by rewrite (bq_loop_fetch_fails _ _ _ _ _ _ _ _ _ Hread).
Qed.

Lemma ch_loop_model env table batch_size total_rows batches u
    (fs : gmap string file) :
  ClickHouse.batch_loop env table batch_size total_rows batches u fs =
  loop_model env batch_size table ClickHouse.CHECKPOINT_FILE
    (fun i u => ClickHouse.checkpoint_data table i u total_rows batch_size)
    false batches u fs.
Proof.
  revert u fs. induction batches as [|i rest IH]; intros u fs; [done|].
  cbn [loop_model].
  destruct (read_sql env batch_size (Some (i * batch_size))) as [df|] eqn:Hread.
  - destruct (df_len df) as [|n] eqn:Hlen.
    + rewrite (ch_loop_empty _ _ _ _ _ _ _ _ _ Hread Hlen). cbn zeta.
      by rewrite IH.
    + assert (df_len df <> 0%nat) as Hne by lia.
      destruct (write_ok env i) eqn:Hw.
      * rewrite (ch_loop_written _ _ _ _ _ _ _ _ _ Hread Hne Hw). cbn zeta.
        by rewrite IH, Hlen.
      * rewrite (ch_loop_write_fails _ _ _ _ _ _ _ _ _ Hread Hne Hw).
        by rewrite Hlen.
  - by rewrite (ch_loop_fetch_fails _ _ _ _ _ _ _ _ Hread).
Qed.

(** ** Facts on the loops *)

Section LoopFacts.
Import Trace.
Context (env : Env) (batch_size : Z) (table key : string)
  (data : Z -> Z -> checkpoint) (save_on_fail : bool).

Let loop := loop_model env batch_size table key data save_on_fail.

Ltac loop_step i :=
  cbn [loop_model]; unfold fail_with;
  destruct (read_sql env batch_size (Some (i * batch_size))) as [df|] eqn:Hread;
  [ destruct (df_len df) as [|n] eqn:Hlen;
    [ | destruct (write_ok env i) eqn:Hw; [ | destruct save_on_fail ] ]
  | destruct save_on_fail ];
  cbn [fst snd].

Lemma sum_rows_app l1 l2 :
  sum_rows env batch_size (l1 ++ l2)
  = sum_rows env batch_size l1 + sum_rows env batch_size l2.
Proof.
  unfold sum_rows. induction l1 as [|i l1 IH]; simpl; [done|].
  rewrite IH. lia.
Qed.

(** The files after the loop are the files before it with the loop's
    saves applied. *)
Lemma loop_replay batches : forall u (fs : gmap string file),
  (loop batches u fs).1.2 = replay (loop batches u fs).2 fs.
Proof.
  unfold loop. induction batches as [|i rest IH]; intros u fs; [done|].
  loop_step i; simpl; try done; apply IH.
Qed.

(** The loop touches no other file than its checkpoint file. *)
Lemma loop_frame batches : forall u (fs : gmap string file) p,
  p <> key -> (loop batches u fs).1.2 !! p = fs !! p.
Proof.
  unfold loop. induction batches as [|i rest IH]; intros u fs p Hp; [done|].
  loop_step i; simpl; rewrite ?IH by done; by rewrite ?lookup_insert_ne.
Qed.

(** The loop fetches the batches in the order of the list, without
    skipping any, and all of them when it ends without an exception. *)
Lemma loop_fetches batches : forall u (fs : gmap string file),
  fetches (loop batches u fs).2 `prefix_of` batches /\
  (forall t, (loop batches u fs).1.1 = Ok t ->
     fetches (loop batches u fs).2 = batches).
Proof.
  unfold loop. induction batches as [|i rest IH]; intros u fs; [done|].
  loop_step i; simpl; try (split; [apply prefix_cons, prefix_nil|done]).
  - destruct (IH u fs) as [Hp Hok]. split; [by apply prefix_cons|].
    intros t Ht. by rewrite (Hok t Ht).
  - destruct (IH (u + Z.of_nat (S n))
                (<[key := Json (data i (u + Z.of_nat (S n)))]> fs))
      as [Hp Hok].
    split; [by apply prefix_cons|]. intros t Ht. by rewrite (Hok t Ht).
Qed.

(** Only fetched batches are written. *)
Lemma loop_writes_sublist batches : forall u (fs : gmap string file),
  writes (loop batches u fs).2 `sublist_of` fetches (loop batches u fs).2.
Proof.
  unfold loop. induction batches as [|i rest IH]; intros u fs; [done|].
  loop_step i; simpl;
    try (by apply sublist_cons_r; left; apply sublist_nil_l);
    try (by apply sublist_nil_l).
  - apply sublist_cons_r. left. apply IH.
  - apply sublist_skip, IH.
Qed.

(** A loop that ends without an exception has gone through every batch of
    the list and returns the count it started with plus the rows of the
    batches. *)
Lemma loop_ok batches : forall u (fs : gmap string file) t,
  (loop batches u fs).1.1 = Ok t ->
  t = u + sum_rows env batch_size batches /\
  rows_written (loop batches u fs).2 = sum_rows env batch_size batches /\
  done_batches (loop batches u fs).2 = batches /\
  writes (loop batches u fs).2
    = filter (fun i => batch_rows env batch_size i <> 0) batches.
Proof.
  unfold loop. induction batches as [|i rest IH]; intros u fs t.
  { intros [= <-]. cbn. repeat split. lia. }
  unfold sum_rows. cbn [foldr]. fold (sum_rows env batch_size rest).
  rewrite filter_cons.
  loop_step i; simpl; try done; intros Ht.
  - assert (batch_rows env batch_size i = 0) as Hb.
    { unfold batch_rows. by rewrite Hread, Hlen. }
    destruct (IH _ _ _ Ht) as (-> & Hr & Hd & Hw).
    rewrite Hr, Hd, Hw, Hb. rewrite decide_False by lia. done.
  - assert (batch_rows env batch_size i = Z.of_nat (S n)) as Hb.
    { unfold batch_rows. by rewrite Hread, Hlen. }
    destruct (IH _ _ _ Ht) as (-> & Hr & Hd & Hws).
    rewrite Hr, Hd, Hws, Hb. rewrite decide_True by lia. repeat split; lia.
Qed.

(** A successful write is followed at once by the save of a checkpoint
    for that batch, with the count raised by the rows of the batch. *)
Lemma loop_write_saved batches :
  forall u (fs : gmap string file) pre t i n post,
  (loop batches u fs).2 = pre ++ EvWrite t i n true :: post ->
  exists post',
    post = EvSave key (data i (u + rows_written pre + Z.of_nat n)) :: post'.
Proof.
  unfold loop. induction batches as [|b rest IH];
    intros u fs pre t i m post H.
  { by destruct pre. }
  revert H. loop_step b; intros H.
  - destruct pre as [|ev pre]; simplify_eq/=. eapply IH. done.
  - destruct pre as [|ev1 pre]; simplify_eq/=.
    destruct pre as [|ev2 pre]; simplify_eq/=.
    { eexists. f_equal. f_equal. f_equal. lia. }
    destruct pre as [|ev3 pre]; simplify_eq/=.
    edestruct IH as [post' ->]; [eassumption|].
    eexists. f_equal. f_equal. f_equal. lia.
  - do 3 (destruct pre as [|? pre]; simplify_eq/=). by destruct pre.
  - do 2 (destruct pre as [|? pre]; simplify_eq/=). by destruct pre.
  - do 2 (destruct pre as [|? pre]; simplify_eq/=). by destruct pre.
  - do 1 (destruct pre as [|? pre]; simplify_eq/=). by destruct pre.
Qed.

(** Every checkpoint that the loop saves names a batch [j] such that the
    batches gone through so far are exactly those from the first batch of
    the loop to [j], and holds the count of the rows written so far. *)
Lemma loop_saves batches :
  forall i e u (fs : gmap string file) pre p ck post,
  batches = Py.range i e ->
  (loop batches u fs).2 = pre ++ EvSave p ck :: post ->
  exists j,
    i - 1 <= j /\ p = key /\ ck = data j (u + rows_written pre) /\
    done_batches pre = Py.range i (j + 1).
Proof.
  unfold loop. induction batches as [|b rest IH];
    intros i e u fs pre p ck post Hr H.
  { by destruct pre. }
  symmetry in Hr. apply range_cons_inv in Hr as (Hlt & -> & ->).
  assert (forall j l, i <= j -> l = Py.range (i + 1) (j + 1) ->
            i :: l = Py.range i (j + 1)) as Hcons.
  { intros j l Hj ->. by rewrite (range_cons i) by lia. }
  assert ([i] = Py.range i (i + 1)) as Hone.
  { rewrite (range_cons i) by lia. by rewrite range_nil by lia. }
  assert ([] = Py.range i (i - 1 + 1)) as Hnone.
  { by rewrite range_nil by lia. }
  revert H. loop_step i; intros H.
  - destruct pre as [|ev pre]; simplify_eq/=.
    edestruct IH as (j & Hj & -> & -> & Hd); [reflexivity|eassumption|].
    exists j. split_and!; [lia|done|done|]. apply Hcons; [lia|done].
  - destruct pre as [|ev1 pre]; simplify_eq/=.
    destruct pre as [|ev2 pre]; simplify_eq/=.
    destruct pre as [|ev3 pre]; simplify_eq/=.
    { exists i. split_and!; [lia|done|f_equal; lia|done]. }
    edestruct IH as (j & Hj & -> & -> & Hd); [reflexivity|eassumption|].
    exists j. split_and!; [lia|done|f_equal; lia|]. apply Hcons; [lia|done].
  - do 2 (destruct pre as [|? pre]; simplify_eq/=).
    destruct pre as [|? pre]; simplify_eq/=; [|by destruct pre].
    exists (i - 1). split_and!; [lia|done|f_equal; lia|done].
  - do 2 (destruct pre as [|? pre]; simplify_eq/=). by destruct pre.
  - destruct pre as [|? pre]; simplify_eq/=.
    destruct pre as [|? pre]; simplify_eq/=; [|by destruct pre].
    exists (i - 1). split_and!; [lia|done|f_equal; lia|done].
  - destruct pre as [|? pre]; simplify_eq/=. by destruct pre.
Qed.

End LoopFacts.

(** ** Facts on the checkpoint discipline *)

Section DisciplineFacts.
Import Trace.

Lemma fetches_app es1 es2 : fetches (es1 ++ es2) = fetches es1 ++ fetches es2.
Proof.
  induction es1 as [|[] es1 IH]; simpl; rewrite ?IH; done.
Qed.

Lemma writes_app es1 es2 : writes (es1 ++ es2) = writes es1 ++ writes es2.
Proof.
  induction es1 as [|[| | | | | | | |? ? ? []] es1 IH]; simpl; rewrite ?IH; done.
Qed.

Lemma done_batches_app es1 es2 :
  done_batches (es1 ++ es2) = done_batches es1 ++ done_batches es2.
Proof.
  induction es1 as [|[| | | | | | |? ? ? [[]|]|? ? ? []] es1 IH]; simpl;
    rewrite ?IH; done.
Qed.

Lemma rows_written_app es1 es2 :
  rows_written (es1 ++ es2) = rows_written es1 + rows_written es2.
Proof.
  induction es1 as [|[| | | | | | | |? ? ? []] es1 IH]; simpl; rewrite ?IH; lia.
Qed.

Lemma setup_no_loop_event es :
  Forall (fun ev => is_loop_event ev = false) es ->
  fetches es = [] /\ writes es = [] /\ done_batches es = [] /\
  rows_written es = 0.
Proof.
  induction 1 as [|ev es Hev _ (IH1 & IH2 & IH3 & IH4)]; [done|].
  by destruct ev.
Qed.

Lemma setup_not_elem es ev :
  Forall (fun ev => is_loop_event ev = false) es ->
  is_loop_event ev = true -> ev ∉ es.
Proof.
  intros Hall Hev Hin. rewrite Forall_forall in Hall.
  specialize (Hall _ Hin). congruence.
Qed.

(** An element of the middle part of a list, located there. *)
Lemma app3_cons_inv {A} (l1 l2 l3 pre post : list A) x :
  l1 ++ l2 ++ l3 = pre ++ x :: post -> x ∉ l1 -> x ∉ l3 ->
  exists pre' post',
    l2 = pre' ++ x :: post' /\ pre = l1 ++ pre' /\ post = post' ++ l3.
Proof.
  intros H H1 H3.
  apply app_eq_inv in H as [(k & -> & Hk)|(k & -> & Hk)].
  - destruct k as [|y k]; simpl in Hk.
    + symmetry in Hk. change (x :: post) with ([] ++ x :: post) in Hk.
      apply app_eq_inv in Hk as [(k & -> & Hk)|(k & Hnil & Hk)].
      * destruct k as [|y k]; simpl in Hk.
        -- exfalso. apply H3. rewrite <- Hk. apply list_elem_of_here.
        -- injection Hk as <- ->. exists [], k.
           by rewrite !app_nil_r.
      * symmetry in Hnil. apply app_eq_nil in Hnil as [-> ->].
        simpl in Hk. exfalso. apply H3. rewrite Hk. apply list_elem_of_here.
    + injection Hk as <- _. exfalso. apply H1.
      apply elem_of_app. right. apply list_elem_of_here.
  - apply app_eq_inv in Hk as [(k' & -> & Hk)|(k' & -> & Hk)].
    + destruct k' as [|y k']; simpl in Hk.
      * exfalso. apply H3. rewrite <- Hk. apply list_elem_of_here.
      * injection Hk as <- ->. eexists _, _. split; [|split]; done.
    + exfalso. apply H3. rewrite Hk.
      apply elem_of_app. right. apply list_elem_of_here.
Qed.

Lemma prefix_of_range l : forall s e,
  l `prefix_of` Py.range s e -> exists e', l = Py.range s e'.
Proof.
  induction l as [|x l IH]; intros s e Hp.
  - exists s. by rewrite range_nil by lia.
  - destruct (decide (s < e)) as [Hlt|Hge].
    + rewrite range_cons in Hp by done.
      destruct Hp as [k Hk]. injection Hk as <- Hk.
      destruct (IH (s + 1) e) as [e' ->]; [by exists k|].
      destruct (decide (s + 1 <= e')).
      * exists e'. by rewrite (range_cons s) by lia.
      * exists (s + 1). rewrite (range_cons s) by lia.
        by rewrite !range_nil by lia.
    + rewrite range_nil in Hp by lia. by apply prefix_nil_inv in Hp.
Qed.

Context (env : Env) (batch_size : Z) (table key : string)
  (data : Z -> Z -> checkpoint) (save_on_fail : bool).
Context (Hlast : forall i u, ck_last_completed_batch (data i u) = Some i).
Context (Htotal : forall i u, ck_total_uploaded (data i u) = Some u).

(** A run whose events are those of the loop over [s .. e - 1], between
    events of the planning phase and of the clean-up, obeys the
    discipline. *)
Lemma discipline_of_loop pre post s e u (fs : gmap string file) :
  Forall (fun ev => is_loop_event ev = false) pre ->
  Forall (fun ev => is_loop_event ev = false) post ->
  checkpoint_discipline s u
    (pre ++
     (loop_model env batch_size table key data save_on_fail
        (Py.range s e) u fs).2 ++ post).
Proof.
  intros Hpre Hpost.
  set (L := (loop_model env batch_size table key data save_on_fail
               (Py.range s e) u fs).2).
  destruct (setup_no_loop_event _ Hpre) as (Hf1 & _ & Hd1 & Hr1).
  destruct (setup_no_loop_event _ Hpost) as (Hf2 & _ & _ & _).
  split; [|split].
  - rewrite !fetches_app, Hf1, Hf2, app_nil_r. simpl.
    eapply prefix_of_range. apply loop_fetches.
  - intros pre0 t i n post0 H.
    apply app3_cons_inv in H as (pre' & post' & HL & -> & ->);
      [|by apply setup_not_elem..].
    apply loop_write_saved in HL as [post'' ->].
    right. eexists _, _, _. split; [done|].
    rewrite rows_written_app, Hr1, Hlast, Htotal. split; [done|].
    f_equal; lia.
  - intros pre0 p ck post0 H.
    apply app3_cons_inv in H as (pre' & post' & HL & -> & ->);
      [|by apply setup_not_elem..].
    eapply loop_saves in HL as (j & Hj & -> & -> & Hd); [|done].
    exists j. rewrite rows_written_app, done_batches_app, Hr1, Hd1, Hlast, Htotal.
    done.
Qed.

(** So does a run that never reaches the loop. *)
Lemma discipline_of_setup s u es :
  Forall (fun ev => is_loop_event ev = false) es ->
  checkpoint_discipline s u es.
Proof.
  intros Hes. destruct (setup_no_loop_event _ Hes) as (Hf & _).
  split; [|split].
  - exists s. by rewrite Hf, range_nil by lia.
  - intros pre t i n post ->. exfalso.
    eapply (setup_not_elem _ (EvWrite t i n true) Hes); [done|].
    apply elem_of_app. right. apply list_elem_of_here.
  - intros pre p ck post ->. exfalso.
    eapply (setup_not_elem _ (EvSave p ck) Hes); [done|].
    apply elem_of_app. right. apply list_elem_of_here.
Qed.

End DisciplineFacts.

(** ** Equations of the runs *)

Ltac norm_events :=
  cbn [app]; rewrite <- ?app_assoc; cbn [app]; rewrite ?app_nil_r.

Section RunEquations.
Import Run.

Lemma bq_run env project table batch_size n (fs : gmap string file) :
  Py.has_char "." table = true ->
  count_result env = Some n -> n <> 0 -> batch_size <> 0 ->
  BigQuery.ingest_pg_to_bq_auto env project table batch_size fs =
    match bq_start env table n batch_size fs with
    | (Ok su, fs1, es1) =>
        bq_finish env table (total_batches_of n batch_size)
          (EvCount (Some n) :: es1)
          (BigQuery.batch_loop env project table batch_size n
             (Py.range su.1 (total_batches_of n batch_size)) su.2 fs1)
    | (Raise e, fs1, es1) => (Raise e, fs1, EvCount (Some n) :: es1)
    end.
Proof.
  intros Hvalid Hcount Hn Hbs.
  unfold BigQuery.ingest_pg_to_bq_auto, BigQuery.validate_bq_table_name,
    BigQuery.count_rows, bq_start, bq_finish, total_batches_of.
  unfold bind at 1 2 3 4 5 6. unfold floordiv, emit, ret, raise.
  rewrite Hvalid, Hcount. cbn [negb]. cbv beta iota.
  rewrite (proj2 (Z.eqb_neq _ _) Hn), (proj2 (Z.eqb_neq _ _) Hbs).
  cbv beta iota. unfold bind at 3.
  destruct (BigQuery.load_checkpoint env table fs) as [[[ck|e] fs0] es0];
    [|done].
  destruct (BigQuery.resume_point env table n batch_size ck fs0)
    as [[[su|e] fs1] es1]; [|done].
  unfold bind.
  destruct (BigQuery.batch_loop _ _ _ _ _ _ _ fs1) as [[[total|e] fs2] es2];
    [|cbn [app]; by rewrite <- ?app_assoc].
  rewrite bq_clear. cbn [app]. rewrite <- ?app_assoc. cbn [app].
  by rewrite ?app_nil_r.
Qed.

Lemma ch_run env table batch_size replace n (fs : gmap string file) :
  connect_ok env = true ->
  count_result env = Some n -> n <> 0 -> batch_size <> 0 ->
  ClickHouse.ingest_query_to_clickhouse env table batch_size replace fs =
    match ch_start table n batch_size replace fs with
    | (Ok su, fs1, es1) =>
        match read_sql env batch_size None with
        | Some first_df =>
            if negb (replace && Z.eqb su.1 0) || create_ok env then
              ch_finish
                ([EvConnect true; EvCount (Some n)] ++ es1 ++
                 ch_prepare_events env table batch_size replace su.1 first_df)
                (ClickHouse.batch_loop env table batch_size n
                   (Py.range su.1 (total_batches_of n batch_size)) su.2 fs1)
            else
              (Raise CommandError, fs1,
               [EvConnect true; EvCount (Some n)] ++ es1 ++
               [EvSample batch_size (Some (df_len first_df));
                EvDrop table (drop_ok env);
                EvCreate table
                  (TypeMapper.get_create_table_sql (df_columns first_df)
                     table None) false])
        | None =>
            (Raise FetchError, fs1,
             [EvConnect true; EvCount (Some n)] ++ es1 ++
             [EvSample batch_size None])
        end
    | (Raise e, fs1, es1) =>
        (Raise e, fs1, [EvConnect true; EvCount (Some n)] ++ es1)
    end.
Proof.
  intros Hconn Hcount Hn Hbs.
  unfold ClickHouse.ingest_query_to_clickhouse,
    ClickHouse.get_clickhouse_client, ClickHouse.count_rows, ch_start,
    ch_finish, ch_prepare_events, total_batches_of,
    ClickHouse.fetch_first, ClickHouse.prepare_table,
    ClickHouse.drop_table, ClickHouse.create_table.
  unfold bind, floordiv, emit, ret, raise.
  rewrite Hconn, Hcount. cbv beta iota.
  rewrite (proj2 (Z.eqb_neq _ _) Hn), (proj2 (Z.eqb_neq _ _) Hbs).
  cbv beta iota.
  destruct (ClickHouse.load_checkpoint table fs) as [[[ck|e] fs0] es0];
    [|by norm_events].
  destruct (ClickHouse.resume_point n batch_size replace ck fs0)
    as [[[su|e] fs1] es1]; [|by norm_events].
  destruct (read_sql env batch_size None) as [first_df|]; [|by norm_events].
  cbn [fmap option_fmap option_map].
  destruct (replace && Z.eqb su.1 0) eqn:Hprep; cbn [negb orb].
  - destruct (create_ok env); [|by norm_events].
    destruct (ClickHouse.batch_loop _ _ _ _ _ _ fs1) as [[[total|e] fs2] es2].
    + rewrite ch_clear. by norm_events.
    + by norm_events.
  - destruct (ClickHouse.batch_loop _ _ _ _ _ _ fs1) as [[[total|e] fs2] es2].
    + rewrite ch_clear. by norm_events.
    + by norm_events.
Qed.

End RunEquations.

(** ** The resume decision, case by case *)

Section StartFacts.
Import Run.

Lemma bq_start_absent env t n bs (fs : gmap string file) :
  fs !! BigQuery.get_checkpoint_filename env t = None ->
  bq_start env t n bs fs = (Ok (0, 0), fs, []).
Proof.
  intros H. unfold bq_start, bind. by rewrite (bq_load_absent _ _ _ H).
Qed.

Lemma bq_start_garbage env t n bs (fs : gmap string file) :
  fs !! BigQuery.get_checkpoint_filename env t = Some Garbage ->
  bq_start env t n bs fs = (Raise JSONDecodeError, fs, []).
Proof.
  intros H. unfold bq_start, bind. by rewrite (bq_load_garbage _ _ _ H).
Qed.

Lemma bq_start_valid env t n bs (fs : gmap string file) c k :
  fs !! BigQuery.get_checkpoint_filename env t = Some (Json c) ->
  ck_last_completed_batch c = Some k ->
  ck_total_rows c = Some n -> ck_batch_size c = Some bs ->
  bq_start env t n bs fs =
    (Ok (k + 1, default ((k + 1) * bs) (ck_total_uploaded c)), fs, []).
Proof.
  intros H Hk Hn Hbs. unfold bq_start, bind.
  rewrite (bq_load_json _ _ _ _ H), Hk. unfold BigQuery.resume_point.
  rewrite !bool_decide_eq_true_2 by done. cbn [andb].
  run_unfold. by rewrite Hk.
Qed.

Lemma bq_start_stale env t n bs (fs : gmap string file) c k :
  fs !! BigQuery.get_checkpoint_filename env t = Some (Json c) ->
  ck_last_completed_batch c = Some k ->
  ck_total_rows c <> Some n \/ ck_batch_size c <> Some bs ->
  bq_start env t n bs fs =
    (Ok (0, 0), delete (BigQuery.get_checkpoint_filename env t) fs,
     [EvRemove (BigQuery.get_checkpoint_filename env t)]).
Proof.
  intros H Hk Hne. unfold bq_start, bind.
  rewrite (bq_load_json _ _ _ _ H), Hk. unfold BigQuery.resume_point.
  assert (bool_decide (ck_total_rows c = Some n)
          && bool_decide (ck_batch_size c = Some bs) = false) as ->.
  { apply andb_false_iff.
    destruct Hne; [left|right]; by apply bool_decide_eq_false. }
  unfold bind. rewrite bq_clear, (is_Some_Some_true _ _ H). done.
Qed.

Lemma ch_start_absent t n bs replace (fs : gmap string file) :
  fs !! ClickHouse.CHECKPOINT_FILE = None ->
  ch_start t n bs replace fs = (Ok (0, 0), fs, []).
Proof.
  intros H. unfold ch_start, bind. by rewrite (ch_load_absent _ _ H).
Qed.

Lemma ch_start_garbage t n bs replace (fs : gmap string file) :
  fs !! ClickHouse.CHECKPOINT_FILE = Some Garbage ->
  ch_start t n bs replace fs = (Raise JSONDecodeError, fs, []).
Proof.
  intros H. unfold ch_start, bind. by rewrite (ch_load_garbage _ _ H).
Qed.

Lemma ch_start_other_table t n bs replace (fs : gmap string file) c :
  fs !! ClickHouse.CHECKPOINT_FILE = Some (Json c) ->
  ck_table_name c <> Some t ->
  ch_start t n bs replace fs = (Ok (0, 0), fs, []).
Proof.
  intros H Ht. unfold ch_start, bind.
  rewrite (ch_load_json _ _ _ H). by rewrite bool_decide_eq_false_2.
Qed.

Lemma ch_start_valid t n bs (fs : gmap string file) c k :
  fs !! ClickHouse.CHECKPOINT_FILE = Some (Json c) ->
  ck_table_name c = Some t ->
  ck_last_completed_batch c = Some k ->
  ck_total_rows c = Some n -> ck_batch_size c = Some bs ->
  ch_start t n bs false fs =
    (Ok (k + 1, default ((k + 1) * bs) (ck_total_uploaded c)), fs, []).
Proof.
  intros H Ht Hk Hn Hbs. unfold ch_start, bind.
  rewrite (ch_load_json _ _ _ H), Hk. rewrite bool_decide_eq_true_2 by done.
  unfold ClickHouse.resume_point. cbn [negb].
  rewrite !bool_decide_eq_true_2 by done. cbn [andb].
  run_unfold. by rewrite Hk.
Qed.

Lemma ch_start_stale t n bs (fs : gmap string file) c k :
  fs !! ClickHouse.CHECKPOINT_FILE = Some (Json c) ->
  ck_table_name c = Some t ->
  ck_last_completed_batch c = Some k ->
  ck_total_rows c <> Some n \/ ck_batch_size c <> Some bs ->
  ch_start t n bs false fs =
    (Ok (0, 0), delete ClickHouse.CHECKPOINT_FILE fs,
     [EvRemove ClickHouse.CHECKPOINT_FILE]).
Proof.
  intros H Ht Hk Hne. unfold ch_start, bind.
  rewrite (ch_load_json _ _ _ H), Hk. rewrite bool_decide_eq_true_2 by done.
  unfold ClickHouse.resume_point. cbn [negb].
  assert (bool_decide (ck_total_rows c = Some n)
          && bool_decide (ck_batch_size c = Some bs) = false) as ->.
  { apply andb_false_iff.
    destruct Hne; [left|right]; by apply bool_decide_eq_false. }
  unfold bind. rewrite ch_clear, (is_Some_Some_true _ _ H). done.
Qed.

(** In replace mode the record, whatever it holds, is not compared. *)
Lemma ch_start_replace t n bs (fs : gmap string file) c k :
  fs !! ClickHouse.CHECKPOINT_FILE = Some (Json c) ->
  ck_last_completed_batch c = Some k ->
  ch_start t n bs true fs = (Ok (0, 0), fs, []).
Proof.
  intros H Hk. unfold ch_start, bind.
  rewrite (ch_load_json _ _ _ H), Hk.
  by destruct (bool_decide (ck_table_name c = Some t)).
Qed.

Lemma bq_start_events env t n bs (fs : gmap string file) :
  Forall (fun ev => is_loop_event ev = false) (bq_start env t n bs fs).2.
Proof.
  unfold bq_start, BigQuery.load_checkpoint, BigQuery.resume_point,
    BigQuery.clear_checkpoint.
  run_unfold_all.
  repeat (case_match; simplify_eq/=); repeat constructor.
Qed.

Lemma ch_start_events t n bs replace (fs : gmap string file) :
  Forall (fun ev => is_loop_event ev = false) (ch_start t n bs replace fs).2.
Proof.
  unfold ch_start, ClickHouse.load_checkpoint, ClickHouse.resume_point,
    ClickHouse.clear_checkpoint.
  run_unfold_all.
  repeat (case_match; simplify_eq/=); repeat constructor.
Qed.

Lemma bq_finish_events env t tb pre r :
  exists post,
    (bq_finish env t tb pre r).2 = pre ++ r.2 ++ post /\
    Forall (fun ev => is_loop_event ev = false) post.
Proof.
  destruct r as [[[total|e] fs2] es2]; cbn.
  - eexists. split; [done|]. case_bool_decide; repeat constructor.
  - exists []. by rewrite app_nil_r.
Qed.

Lemma ch_finish_events pre r :
  exists post,
    (ch_finish pre r).2 = pre ++ r.2 ++ post /\
    Forall (fun ev => is_loop_event ev = false) post.
Proof.
  destruct r as [[[total|e] fs2] es2]; cbn.
  - eexists. split; [done|]. case_bool_decide; repeat constructor.
  - exists []. by rewrite app_nil_r.
Qed.

(** In replace mode the decision is batch 0 with the count 0 whenever the
    load does not raise. *)
Lemma ch_start_replace_cases t n bs (fs : gmap string file) :
  ch_start t n bs true fs = (Ok (0, 0), fs, []) \/
  ch_start t n bs true fs = (Raise JSONDecodeError, fs, []) \/
  ch_start t n bs true fs = (Raise KeyError, fs, []).
Proof.
  unfold ch_start, ClickHouse.load_checkpoint, ClickHouse.resume_point,
    ClickHouse.clear_checkpoint.
  run_unfold_all.
  repeat (case_match; simplify_eq/=); eauto.
Qed.

End StartFacts.

(** ** Runs that end before the resume decision *)

Section EarlyExits.
Import Run.

Lemma bq_run_invalid env project table batch_size (fs : gmap string file) :
  Py.has_char "." table = false ->
  BigQuery.ingest_pg_to_bq_auto env project table batch_size fs
    = (Raise ValueError, fs, []).
Proof.
  intros Hvalid.
  unfold BigQuery.ingest_pg_to_bq_auto, BigQuery.validate_bq_table_name.
  run_unfold. by rewrite Hvalid.
Qed.

Lemma bq_run_count_fails env project table batch_size (fs : gmap string file) :
  Py.has_char "." table = true -> count_result env = None ->
  BigQuery.ingest_pg_to_bq_auto env project table batch_size fs
    = (Raise CountError, fs, [EvCount None]).
Proof.
  intros Hvalid Hcount.
  unfold BigQuery.ingest_pg_to_bq_auto, BigQuery.validate_bq_table_name,
    BigQuery.count_rows.
  run_unfold. by rewrite Hvalid, Hcount.
Qed.

Lemma bq_run_no_rows env project table batch_size (fs : gmap string file) :
  Py.has_char "." table = true -> count_result env = Some 0 ->
  BigQuery.ingest_pg_to_bq_auto env project table batch_size fs
    = (Ok None, fs, [EvCount (Some 0)]).
Proof.
  intros Hvalid Hcount.
  unfold BigQuery.ingest_pg_to_bq_auto, BigQuery.validate_bq_table_name,
    BigQuery.count_rows.
  run_unfold. by rewrite Hvalid, Hcount.
Qed.

Lemma bq_run_zero_batch_size env project table n (fs : gmap string file) :
  Py.has_char "." table = true -> count_result env = Some n -> n <> 0 ->
  BigQuery.ingest_pg_to_bq_auto env project table 0 fs
    = (Raise ZeroDivisionError, fs, [EvCount (Some n)]).
Proof.
  intros Hvalid Hcount Hn.
  unfold BigQuery.ingest_pg_to_bq_auto, BigQuery.validate_bq_table_name,
    BigQuery.count_rows.
  run_unfold. rewrite Hvalid, Hcount. cbn.
  by rewrite (proj2 (Z.eqb_neq _ _) Hn).
Qed.

Lemma ch_run_no_connection env table batch_size replace
    (fs : gmap string file) :
  connect_ok env = false ->
  ClickHouse.ingest_query_to_clickhouse env table batch_size replace fs
    = (Raise ConnectError, fs, [EvConnect false]).
Proof.
  intros Hconn.
  unfold ClickHouse.ingest_query_to_clickhouse,
    ClickHouse.get_clickhouse_client.
  run_unfold. by rewrite Hconn.
Qed.

Lemma ch_run_count_fails env table batch_size replace (fs : gmap string file) :
  connect_ok env = true -> count_result env = None ->
  ClickHouse.ingest_query_to_clickhouse env table batch_size replace fs
    = (Raise CountError, fs, [EvConnect true; EvCount None]).
Proof.
  intros Hconn Hcount.
  unfold ClickHouse.ingest_query_to_clickhouse,
    ClickHouse.get_clickhouse_client, ClickHouse.count_rows.
  run_unfold. by rewrite Hconn, Hcount.
Qed.

Lemma ch_run_no_rows env table batch_size replace (fs : gmap string file) :
  connect_ok env = true -> count_result env = Some 0 ->
  ClickHouse.ingest_query_to_clickhouse env table batch_size replace fs
    = (Ok 0, fs, [EvConnect true; EvCount (Some 0)]).
Proof.
  intros Hconn Hcount.
  unfold ClickHouse.ingest_query_to_clickhouse,
    ClickHouse.get_clickhouse_client, ClickHouse.count_rows.
  run_unfold. by rewrite Hconn, Hcount.
Qed.

Lemma ch_run_zero_batch_size env table replace n (fs : gmap string file) :
  connect_ok env = true -> count_result env = Some n -> n <> 0 ->
  ClickHouse.ingest_query_to_clickhouse env table 0 replace fs
    = (Raise ZeroDivisionError, fs, [EvConnect true; EvCount (Some n)]).
Proof.
  intros Hconn Hcount Hn.
  unfold ClickHouse.ingest_query_to_clickhouse,
    ClickHouse.get_clickhouse_client, ClickHouse.count_rows.
  run_unfold. rewrite Hconn, Hcount. cbn.
  by rewrite (proj2 (Z.eqb_neq _ _) Hn).
Qed.

End EarlyExits.

(** ** The discipline of whole runs *)

Section RunDiscipline.

(** The resume decision of [hello.py], when it is taken: batch 0 with the
    count 0 unless the file holds a record of the plan, and then the batch
    after the record's last completed batch, with the record's count. *)
Lemma bq_start_decision env t n bs (fs : gmap string file) su :
  (bq_start env t n bs fs).1.1 = Ok su ->
  (su = (0, 0) /\
   forall c, fs !! BigQuery.get_checkpoint_filename env t = Some (Json c) ->
     ~ (ck_total_rows c = Some n /\ ck_batch_size c = Some bs)) \/
  (exists c k,
     fs !! BigQuery.get_checkpoint_filename env t = Some (Json c) /\
     ck_last_completed_batch c = Some k /\
     ck_total_rows c = Some n /\ ck_batch_size c = Some bs /\
     su = (k + 1, default ((k + 1) * bs) (ck_total_uploaded c))).
Proof.
  destruct (fs !! BigQuery.get_checkpoint_filename env t) as [[|c]|] eqn:Hfile.
  - by rewrite bq_start_garbage.
  - destruct (ck_last_completed_batch c) as [k|] eqn:Hk.
    + destruct (decide (ck_total_rows c = Some n)) as [Hn|Hn];
        [destruct (decide (ck_batch_size c = Some bs)) as [Hbs|Hbs]|].
      * rewrite (bq_start_valid _ _ _ _ _ c k) by done. intros [= <-].
        right. by exists c, k.
      * rewrite (bq_start_stale _ _ _ _ _ c k) by auto. intros [= <-].
        left. split; [done|]. intros c' [= <-] [_ ?]. done.
      * rewrite (bq_start_stale _ _ _ _ _ c k) by auto. intros [= <-].
        left. split; [done|]. intros c' [= <-] [? _]. done.
    + unfold bq_start, Run.bind. by rewrite (bq_load_json _ _ _ _ Hfile), Hk.
  - rewrite bq_start_absent by done. intros [= <-]. left. split; [done|].
    intros c' [=].
Qed.

(** The resume decision of [pg_to_clickhouse.py], when it is taken. *)
Lemma ch_start_decision t n bs replace (fs : gmap string file) su :
  (ch_start t n bs replace fs).1.1 = Ok su ->
  (su = (0, 0) /\
   (replace = true \/
    forall c, fs !! ClickHouse.CHECKPOINT_FILE = Some (Json c) ->
      ~ (ck_table_name c = Some t /\
         ck_total_rows c = Some n /\ ck_batch_size c = Some bs))) \/
  (replace = false /\
   exists c k,
     fs !! ClickHouse.CHECKPOINT_FILE = Some (Json c) /\
     ck_table_name c = Some t /\
     ck_last_completed_batch c = Some k /\
     ck_total_rows c = Some n /\ ck_batch_size c = Some bs /\
     su = (k + 1, default ((k + 1) * bs) (ck_total_uploaded c))).
Proof.
  destruct (fs !! ClickHouse.CHECKPOINT_FILE) as [[|c]|] eqn:Hfile.
  - by rewrite ch_start_garbage.
  - destruct (decide (ck_table_name c = Some t)) as [Ht|Ht].
    + destruct (ck_last_completed_batch c) as [k|] eqn:Hk.
      * destruct replace.
        { rewrite (ch_start_replace _ _ _ _ c k) by done. intros [= <-].
          left. auto. }
        destruct (decide (ck_total_rows c = Some n)) as [Hn|Hn];
          [destruct (decide (ck_batch_size c = Some bs)) as [Hbs|Hbs]|].
        -- rewrite (ch_start_valid _ _ _ _ c k) by done. intros [= <-].
           right. split; [done|]. by exists c, k.
        -- rewrite (ch_start_stale _ _ _ _ c k) by auto. intros [= <-].
           left. split; [done|]. right. intros c' [= <-] (_ & _ & ?). done.
        -- rewrite (ch_start_stale _ _ _ _ c k) by auto. intros [= <-].
           left. split; [done|]. right. intros c' [= <-] (_ & ? & _). done.
      * unfold ch_start, Run.bind.
        rewrite (ch_load_json _ _ _ Hfile), Hk.
        by rewrite bool_decide_eq_true_2.
    + rewrite (ch_start_other_table _ _ _ _ _ c) by done. intros [= <-].
      left. split; [done|]. right. intros c' [= <-] (? & _). done.
  - rewrite ch_start_absent by done. intros [= <-]. left. split; [done|].
    right. intros c' [=].
Qed.

(** A run obeys the discipline from the batch and the count of its resume
    decision. *)
Lemma bq_run_discipline env project table batch_size s u
    (fs : gmap string file) :
  (forall n su, count_result env = Some n ->
     (bq_start env table n batch_size fs).1.1 = Ok su -> su = (s, u)) ->
  checkpoint_discipline s u
    (BigQuery.ingest_pg_to_bq_auto env project table batch_size fs).2.
Proof.
  intros Hdec.
  destruct (Py.has_char "." table) eqn:Hvalid;
    [|rewrite bq_run_invalid by done; apply discipline_of_setup; constructor].
  destruct (count_result env) as [n|] eqn:Hcount;
    [|rewrite bq_run_count_fails by done;
      apply discipline_of_setup; by repeat constructor].
  destruct (decide (n = 0)) as [->|Hn];
    [rewrite bq_run_no_rows by done;
     apply discipline_of_setup; by repeat constructor|].
  destruct (decide (batch_size = 0)) as [->|Hbs];
    [rewrite (bq_run_zero_batch_size _ _ _ n) by done;
     apply discipline_of_setup; by repeat constructor|].
  rewrite (bq_run _ _ _ _ n) by done.
  pose proof (bq_start_events env table n batch_size fs) as Hstart.
  specialize (Hdec n).
  destruct (bq_start env table n batch_size fs) as [[[su|e] fs1] es1];
    cbn [fst snd] in *.
  - rewrite (Hdec su eq_refl eq_refl). cbn [fst snd].
    destruct (bq_finish_events env table (total_batches_of n batch_size)
                (EvCount (Some n) :: es1)
                (BigQuery.batch_loop env project table batch_size n
                   (Py.range s (total_batches_of n batch_size)) u fs1))
      as (post & -> & Hpost).
    rewrite bq_loop_model.
    apply discipline_of_loop; try done. by constructor.
  - apply discipline_of_setup. by constructor.
Qed.

Lemma ch_run_discipline env table batch_size replace s u
    (fs : gmap string file) :
  (forall n su, count_result env = Some n ->
     (ch_start table n batch_size replace fs).1.1 = Ok su -> su = (s, u)) ->
  checkpoint_discipline s u
    (ClickHouse.ingest_query_to_clickhouse env table batch_size replace fs).2.
Proof.
  intros Hdec.
  destruct (connect_ok env) eqn:Hconn;
    [|rewrite ch_run_no_connection by done;
      apply discipline_of_setup; by repeat constructor].
  destruct (count_result env) as [n|] eqn:Hcount;
    [|rewrite ch_run_count_fails by done;
      apply discipline_of_setup; by repeat constructor].
  destruct (decide (n = 0)) as [->|Hn];
    [rewrite ch_run_no_rows by done;
     apply discipline_of_setup; by repeat constructor|].
  destruct (decide (batch_size = 0)) as [->|Hbs];
    [rewrite (ch_run_zero_batch_size _ _ _ n) by done;
     apply discipline_of_setup; by repeat constructor|].
  rewrite (ch_run _ _ _ _ n) by done.
  pose proof (ch_start_events table n batch_size replace fs) as Hstart.
  specialize (Hdec n).
  destruct (ch_start table n batch_size replace fs) as [[[su|e] fs1] es1];
    cbn [fst snd] in *.
  - rewrite (Hdec su eq_refl eq_refl). cbn [fst snd].
    destruct (read_sql env batch_size None) as [first_df|].
    + destruct (negb (replace && Z.eqb s 0) || create_ok env).
      * match goal with
        | |- context [ch_finish ?pre ?r] =>
            destruct (ch_finish_events pre r) as (post & -> & Hpost)
        end.
        rewrite ch_loop_model.
        apply discipline_of_loop; try done.
        repeat constructor. apply Forall_app. split; [done|].
        unfold ch_prepare_events. repeat constructor.
        destruct (replace && Z.eqb s 0); repeat constructor.
      * apply discipline_of_setup. repeat constructor.
        apply Forall_app. split; [done|]. repeat constructor.
    + apply discipline_of_setup. repeat constructor.
      apply Forall_app. split; [done|]. repeat constructor.
  - apply discipline_of_setup. by repeat constructor.
Qed.

(** A loop of [pg_to_clickhouse.py] that has written no batch has saved no
    checkpoint. *)
Lemma loop_unwritten env batch_size table key data batches :
  forall u (fs : gmap string file),
  Trace.writes
    (loop_model env batch_size table key data false batches u fs).2 = [] ->
  (loop_model env batch_size table key data false batches u fs).1.2 = fs.
Proof.
  induction batches as [|i rest IH]; intros u fs; [done|].
  cbn [loop_model]. unfold fail_with.
  destruct (read_sql env batch_size (Some (i * batch_size))) as [df|]; [|done].
  destruct (df_len df) as [|m]; cbn [fst snd Trace.writes]; [apply IH|].
  by destruct (write_ok env i).
Qed.

(** In replace mode a run that raises before its first successful write
    leaves the files as they were: the checkpoint of an earlier run is
    neither used nor cleared. *)
Lemma ch_replace_run_unwritten env table batch_size (fs : gmap string file) ex :
  let r := ClickHouse.ingest_query_to_clickhouse env table batch_size true fs in
  r.1.1 = Raise ex -> Trace.writes r.2 = [] -> r.1.2 = fs.
Proof.
  cbv zeta.
  destruct (connect_ok env) eqn:Hconn;
    [|by rewrite ch_run_no_connection].
  destruct (count_result env) as [n|] eqn:Hcount;
    [|by rewrite ch_run_count_fails].
  destruct (decide (n = 0)) as [->|Hn]; [by rewrite ch_run_no_rows|].
  destruct (decide (batch_size = 0)) as [->|Hbs];
    [by rewrite (ch_run_zero_batch_size _ _ _ n)|].
  rewrite (ch_run _ _ _ _ n) by done.
  destruct (ch_start_replace_cases table n batch_size fs) as [->|[->| ->]];
    [|done|done].
  cbn [fst snd].
  destruct (read_sql env batch_size None) as [first_df|]; [|done].
  destruct (negb (true && Z.eqb 0 0) || create_ok env); [|done].
  rewrite ch_loop_model.
  pose proof (loop_unwritten env batch_size table ClickHouse.CHECKPOINT_FILE
                (fun i u => ClickHouse.checkpoint_data table i u n batch_size)
                (Py.range 0 (total_batches_of n batch_size)) 0 fs) as Hloop.
  destruct (loop_model _ _ _ _ _ _ _ _ fs) as [[[t|e] fs2] es2];
    cbn [ch_finish fst snd] in *; [done|].
  intros _ Hw. apply Hloop.
  rewrite writes_app in Hw. by apply app_eq_nil in Hw as [_ Hw].
Qed.

End RunDiscipline.

(** ** The files after a run *)

Section RunReplay.
Import Trace.

Lemma replay_app es1 es2 (fs : gmap string file) :
  replay (es1 ++ es2) fs = replay es2 (replay es1 fs).
Proof.
  revert fs. induction es1 as [|[] es1 IH]; intros fs; simpl; by rewrite ?IH.
Qed.

Lemma bq_start_replay env t n bs (fs : gmap string file) :
  (bq_start env t n bs fs).1.2 = replay (bq_start env t n bs fs).2 fs.
Proof.
  unfold bq_start, BigQuery.load_checkpoint, BigQuery.resume_point,
    BigQuery.clear_checkpoint.
  run_unfold_all.
  repeat (case_match; simplify_eq/=); done.
Qed.

Lemma ch_start_replay t n bs replace (fs : gmap string file) :
  (ch_start t n bs replace fs).1.2 = replay (ch_start t n bs replace fs).2 fs.
Proof.
  unfold ch_start, ClickHouse.load_checkpoint, ClickHouse.resume_point,
    ClickHouse.clear_checkpoint.
  run_unfold_all.
  repeat (case_match; simplify_eq/=); done.
Qed.

Lemma bq_finish_replay env t tb pre r (fs fs1 : gmap string file) :
  replay pre fs = fs1 -> r.1.2 = replay r.2 fs1 ->
  (bq_finish env t tb pre r).1.2 = replay (bq_finish env t tb pre r).2 fs.
Proof.
  intros Hpre Hr. destruct r as [[[total|e] fs2] es2]; cbn in *.
  - rewrite !replay_app, Hpre, <- Hr. case_bool_decide as Hk; [done|].
    simpl. apply delete_id. destruct (fs2 !! _) eqn:E; [|done].
    exfalso. apply Hk. by eexists.
  - by rewrite replay_app, Hpre.
Qed.

Lemma ch_finish_replay pre r (fs fs1 : gmap string file) :
  replay pre fs = fs1 -> r.1.2 = replay r.2 fs1 ->
  (ch_finish pre r).1.2 = replay (ch_finish pre r).2 fs.
Proof.
  intros Hpre Hr. destruct r as [[[total|e] fs2] es2]; cbn in *.
  - rewrite !replay_app, Hpre, <- Hr. case_bool_decide as Hk; [done|].
    simpl. apply delete_id. destruct (fs2 !! _) eqn:E; [|done].
    exfalso. apply Hk. by eexists.
  - by rewrite replay_app, Hpre.
Qed.

Lemma bq_run_replay env project table batch_size (fs : gmap string file) :
  (BigQuery.ingest_pg_to_bq_auto env project table batch_size fs).1.2 =
  replay (BigQuery.ingest_pg_to_bq_auto env project table batch_size fs).2 fs.
Proof.
  destruct (Py.has_char "." table) eqn:Hvalid;
    [|by rewrite bq_run_invalid].
  destruct (count_result env) as [n|] eqn:Hcount;
    [|by rewrite bq_run_count_fails].
  destruct (decide (n = 0)) as [->|Hn]; [by rewrite bq_run_no_rows|].
  destruct (decide (batch_size = 0)) as [->|Hbs];
    [by rewrite (bq_run_zero_batch_size _ _ _ n)|].
  rewrite (bq_run _ _ _ _ n) by done.
  pose proof (bq_start_replay env table n batch_size fs) as Hstart.
  destruct (bq_start env table n batch_size fs) as [[[su|e] fs1] es1];
    cbn [fst snd] in *; [|done].
  apply (bq_finish_replay _ _ _ _ _ fs fs1); [by cbn|].
  rewrite bq_loop_model. apply loop_replay.
Qed.

Lemma ch_run_replay env table batch_size replace (fs : gmap string file) :
  (ClickHouse.ingest_query_to_clickhouse env table batch_size replace fs).1.2 =
  replay
    (ClickHouse.ingest_query_to_clickhouse env table batch_size replace fs).2
    fs.
Proof.
  destruct (connect_ok env) eqn:Hconn; [|by rewrite ch_run_no_connection].
  destruct (count_result env) as [n|] eqn:Hcount;
    [|by rewrite ch_run_count_fails].
  destruct (decide (n = 0)) as [->|Hn]; [by rewrite ch_run_no_rows|].
  destruct (decide (batch_size = 0)) as [->|Hbs];
    [by rewrite (ch_run_zero_batch_size _ _ _ n)|].
  rewrite (ch_run _ _ _ _ n) by done.
  pose proof (ch_start_replay table n batch_size replace fs) as Hstart.
  destruct (ch_start table n batch_size replace fs) as [[[su|e] fs1] es1];
    cbn [fst snd] in *; [|done].
  destruct (read_sql env batch_size None) as [first_df|];
    [|cbn; rewrite replay_app; by rewrite <- Hstart].
  destruct (negb (replace && Z.eqb su.1 0) || create_ok env).
  - apply (ch_finish_replay _ _ fs fs1);
      [|rewrite ch_loop_model; apply loop_replay].
    cbn. rewrite replay_app, <- Hstart. unfold ch_prepare_events.
    by destruct (replace && Z.eqb su.1 0).
  - cbn. rewrite replay_app. by rewrite <- Hstart.
Qed.

End RunReplay.

(** * The claims *)

(** C9: when the counting query reports zero rows, the BigQuery job (once
    the table name has passed validation) and the ClickHouse job (once the
    client is connected) end with success: no batch is fetched or written,
    no table is dropped or created, and no checkpoint file is saved or
    removed, so the files are those the run started from. *)
Theorem zero_rows_is_a_no_op env bq_project_id table batch_size replace
    (fs : gmap string file) :
  count_result env = Some 0 ->
  (Py.has_char "." table = true ->
   BigQuery.ingest_pg_to_bq_auto env bq_project_id table batch_size fs
     = (Ok None, fs, [EvCount (Some 0)])) /\
  (connect_ok env = true ->
   ClickHouse.ingest_query_to_clickhouse env table batch_size replace fs
     = (Ok 0, fs, [EvConnect true; EvCount (Some 0)])).
Proof.
  intros Hcount. split; intros H.
  - by apply bq_run_no_rows.
  - by apply ch_run_no_rows.
Qed.

(** An empty source, with checkpoint files of earlier jobs lying around:
    both jobs end at once and leave the files alone. *)
Lemma zero_rows_is_a_no_op_witness :
  let fs : gmap string file :=
    {[ Scenario.bq_file := Json Scenario.bq_stale;
       ClickHouse.CHECKPOINT_FILE := Json Scenario.ch_stale ]} in
  BigQuery.ingest_pg_to_bq_auto Scenario.no_rows "proj" "sales.orders" 10 fs
    = (Ok None, fs, [EvCount (Some 0)]) /\
  ClickHouse.ingest_query_to_clickhouse Scenario.no_rows "orders" 10 true fs
    = (Ok 0, fs, [EvConnect true; EvCount (Some 0)]).
Proof.
  intros fs.
  destruct (zero_rows_is_a_no_op Scenario.no_rows "proj" "sales.orders" 10 true
              fs eq_refl) as [Hbq _].
  destruct (zero_rows_is_a_no_op Scenario.no_rows "proj" "orders" 10 true
              fs eq_refl) as [_ Hch].
  split; [apply Hbq; reflexivity|apply Hch; reflexivity].
Defined.

(** C4 as the code has it. In every run of either script the batches are
    fetched in ascending order without a gap, from the batch of the run's
    resume decision on: batch 0 when the checkpoint file holds no record of
    the plan (no file, a record of other plan parameters or, for
    [pg_to_clickhouse.py], of another table) and always in replace mode;
    batch [k + 1] when [hello.py], or [pg_to_clickhouse.py] in append mode,
    finds a record of the plan whose last completed batch is [k]. Nothing
    comes between a successful write and the save of its checkpoint, which
    names this batch and raises the count by its rows, so the next fetch
    begins after that save. Every checkpoint that a run saves names a batch
    [j] such that the batches the run has gone through before the save are
    exactly those from its first batch to [j], and holds the starting count
    plus the rows written. The files after the run are the files before it
    with the saves and removals of the event list applied in order. A
    checkpoint that an earlier run left is not covered in replace mode: a
    run that raises before its first successful write leaves the file as
    it found it, whatever it has done to the table. *)
Theorem checkpoint_follows_each_batch env project table batch_size replace
    (fs : gmap string file) :
  let bq := BigQuery.ingest_pg_to_bq_auto env project table batch_size fs in
  let ch :=
    ClickHouse.ingest_query_to_clickhouse env table batch_size replace fs in
  let bq_file := fs !! BigQuery.get_checkpoint_filename env table in
  let ch_file := fs !! ClickHouse.CHECKPOINT_FILE in
  ((forall c n,
      bq_file = Some (Json c) -> count_result env = Some n ->
      ck_total_rows c = Some n -> ck_batch_size c = Some batch_size -> False) ->
   checkpoint_discipline 0 0 bq.2) /\
  (forall c n k,
     bq_file = Some (Json c) -> count_result env = Some n ->
     ck_total_rows c = Some n -> ck_batch_size c = Some batch_size ->
     ck_last_completed_batch c = Some k ->
     checkpoint_discipline (k + 1)
       (default ((k + 1) * batch_size) (ck_total_uploaded c)) bq.2) /\
  bq.1.2 = Trace.replay bq.2 fs /\
  (replace = true -> checkpoint_discipline 0 0 ch.2) /\
  ((forall c n,
      ch_file = Some (Json c) -> count_result env = Some n ->
      ck_table_name c = Some table ->
      ck_total_rows c = Some n -> ck_batch_size c = Some batch_size -> False) ->
   checkpoint_discipline 0 0 ch.2) /\
  (forall c n k,
     replace = false ->
     ch_file = Some (Json c) -> count_result env = Some n ->
     ck_table_name c = Some table ->
     ck_total_rows c = Some n -> ck_batch_size c = Some batch_size ->
     ck_last_completed_batch c = Some k ->
     checkpoint_discipline (k + 1)
       (default ((k + 1) * batch_size) (ck_total_uploaded c)) ch.2) /\
  ch.1.2 = Trace.replay ch.2 fs /\
  (replace = true ->
   forall ex, ch.1.1 = Raise ex -> Trace.writes ch.2 = [] -> ch.1.2 = fs).
Proof.
  cbv zeta. split_and!.
  - intros Hno. apply bq_run_discipline. intros n su Hcount Hstart.
    destruct (bq_start_decision _ _ _ _ _ _ Hstart)
      as [[-> _]|(c & k & Hfile & _ & Hn & Hbs & _)]; [done|].
    destruct (Hno c n Hfile Hcount Hn Hbs).
  - intros c n k Hfile Hcount Hn Hbs Hk.
    apply bq_run_discipline. intros n' su Hcount' Hstart.
    assert (n' = n) as -> by congruence.
    destruct (bq_start_decision _ _ _ _ _ _ Hstart)
      as [[_ Hno]|(c' & k' & Hfile' & Hk' & _ & _ & ->)].
    + destruct (Hno c Hfile). done.
    + assert (c' = c) as -> by congruence.
      assert (k' = k) as -> by congruence. done.
  - apply bq_run_replay.
  - intros ->. apply ch_run_discipline. intros n su Hcount Hstart.
    destruct (ch_start_decision _ _ _ _ _ _ Hstart)
      as [[-> _]|[[=] _]]. done.
  - intros Hno. apply ch_run_discipline. intros n su Hcount Hstart.
    destruct (ch_start_decision _ _ _ _ _ _ Hstart)
      as [[-> _]|(_ & c & k & Hfile & Ht & _ & Hn & Hbs & _)]; [done|].
    destruct (Hno c n Hfile Hcount Ht Hn Hbs).
  - intros c n k -> Hfile Hcount Ht Hn Hbs Hk.
    apply ch_run_discipline. intros n' su Hcount' Hstart.
    assert (n' = n) as -> by congruence.
    destruct (ch_start_decision _ _ _ _ _ _ Hstart)
      as [[_ [[=]|Hno]]|(_ & c' & k' & Hfile' & _ & Hk' & _ & _ & ->)].
    + destruct (Hno c Hfile). done.
    + assert (c' = c) as -> by congruence.
      assert (k' = k) as -> by congruence. done.
  - apply ch_run_replay.
  - intros -> ex. apply ch_replace_run_unwritten.
Qed.

(** A run over 25 rows, ten at a time, that finds the record of batch 0:
    it goes on from batch 1 with the count 10. *)
Lemma checkpoint_follows_each_batch_witness :
  checkpoint_discipline 1 10
    (BigQuery.ingest_pg_to_bq_auto Scenario.healthy "proj" "sales.orders" 10
       {[ Scenario.bq_file := Json Scenario.bq_after_batch_0 ]}).2.
Proof.
  destruct (checkpoint_follows_each_batch Scenario.healthy "proj"
              "sales.orders" 10 false
              {[ Scenario.bq_file := Json Scenario.bq_after_batch_0 ]})
    as (_ & Hresume & _).
  apply (Hresume Scenario.bq_after_batch_0 25 0); reflexivity.
Defined.

(** The claim fails in replace mode. A ClickHouse run in replace mode finds
    the record of batch 1 that an earlier run left (20 of 25 rows), drops
    and creates the table, and fails at the fetch of batch 0: nothing has
    been written to the new table, and the file still holds the record of
    batch 1. The run in append mode that comes next starts at batch 2: it
    writes that batch alone, 5 rows, and reports 25. *)
Lemma replace_mode_keeps_a_leftover_checkpoint :
  let leftover := ClickHouse.checkpoint_data "orders" 1 20 25 10 in
  let fs : gmap string file :=
    {[ ClickHouse.CHECKPOINT_FILE := Json leftover ]} in
  let r1 :=
    ClickHouse.ingest_query_to_clickhouse (Scenario.fetch_fails_at 0) "orders"
      10 true fs in
  let r2 :=
    ClickHouse.ingest_query_to_clickhouse Scenario.healthy "orders" 10 false
      r1.1.2 in
  r1.1.1 = Raise FetchError /\
  schema_events r1.2
    = [EvDrop "orders" true;
       EvCreate "orders"
         (TypeMapper.get_create_table_sql
            (df_columns (Scenario.frame 10)) "orders" None) true] /\
  Trace.writes r1.2 = [] /\
  r1.1.2 !! ClickHouse.CHECKPOINT_FILE = Some (Json leftover) /\
  r2.1.1 = Ok 25 /\ Trace.writes r2.2 = [2] /\ Trace.rows_written r2.2 = 5.
Proof. cbv zeta. split_and!; by vm_compute. Qed.

(** ** Batch sizes that are not positive *)

Lemma total_batches_negative_size n bs :
  1 < n -> bs < 0 -> total_batches_of n bs <= 0.
Proof.
  intros Hn Hbs. unfold total_batches_of.
  rewrite <- (Z.div_opp_opp (n + bs - 1) bs) by lia.
  enough (- (n + bs - 1) / - bs < 1) by lia.
  apply Z.div_lt_upper_bound; lia.
Qed.

Lemma bq_run_fresh_nothing_to_do env project table bs n (fs fs1 : gmap string file)
    es1 :
  Py.has_char "." table = true -> count_result env = Some n -> n <> 0 ->
  bs <> 0 -> total_batches_of n bs <= 0 ->
  bq_start env table n bs fs = (Ok (0, 0), fs1, es1) ->
  BigQuery.ingest_pg_to_bq_auto env project table bs fs =
    (Ok (Some (0, total_batches_of n bs)),
     delete (BigQuery.get_checkpoint_filename env table) fs1,
     EvCount (Some n) :: es1 ++
       (if bool_decide
             (is_Some (fs1 !! BigQuery.get_checkpoint_filename env table))
        then [EvRemove (BigQuery.get_checkpoint_filename env table)] else [])).
Proof.
  intros Hvalid Hcount Hn Hbs Htb Hstart.
  rewrite (bq_run _ _ _ _ n) by done. rewrite Hstart. cbn [fst snd].
  by rewrite range_nil by lia.
Qed.

(** C6 as the code has it: the batch size is not validated. A batch size of
    zero makes both jobs fail with a division error once the row count is
    known and is not zero: nothing but the connection and the count has
    happened, and the files are untouched. A negative batch size is not
    rejected: over a source of more than one row the BigQuery job computes
    a batch count that is not positive, fetches nothing, removes the
    checkpoint file of the table when there is one (here a record of other
    plan parameters), and reports success with zero rows. *)
Theorem batch_size_is_not_validated env project table replace n c k
    (fs : gmap string file) :
  count_result env = Some n -> n <> 0 ->
  (Py.has_char "." table = true ->
   BigQuery.ingest_pg_to_bq_auto env project table 0 fs
     = (Raise ZeroDivisionError, fs, [EvCount (Some n)])) /\
  (connect_ok env = true ->
   ClickHouse.ingest_query_to_clickhouse env table 0 replace fs
     = (Raise ZeroDivisionError, fs, [EvConnect true; EvCount (Some n)])) /\
  (forall bs,
     Py.has_char "." table = true -> bs < 0 -> 1 < n ->
     fs !! BigQuery.get_checkpoint_filename env table = None ->
     total_batches_of n bs <= 0 /\
     BigQuery.ingest_pg_to_bq_auto env project table bs fs
       = (Ok (Some (0, total_batches_of n bs)), fs, [EvCount (Some n)])) /\
  (forall bs,
     Py.has_char "." table = true -> bs < 0 -> 1 < n ->
     fs !! BigQuery.get_checkpoint_filename env table = Some (Json c) ->
     ck_last_completed_batch c = Some k ->
     ck_total_rows c <> Some n \/ ck_batch_size c <> Some bs ->
     total_batches_of n bs <= 0 /\
     BigQuery.ingest_pg_to_bq_auto env project table bs fs
       = (Ok (Some (0, total_batches_of n bs)),
          delete (BigQuery.get_checkpoint_filename env table) fs,
          [EvCount (Some n);
           EvRemove (BigQuery.get_checkpoint_filename env table)])).
Proof.
  intros Hcount Hn. split_and!.
  - intros Hvalid. by apply bq_run_zero_batch_size.
  - intros Hconn. by apply ch_run_zero_batch_size.
  - intros bs Hvalid Hbs Hn1 Hfile.
    pose proof (total_batches_negative_size n bs Hn1 Hbs) as Htb.
    split; [done|].
    rewrite (bq_run_fresh_nothing_to_do env project table bs n fs fs [])
      by (try done; try lia; by apply bq_start_absent).
    rewrite (is_Some_None_false _ Hfile). by rewrite delete_id.
  - intros bs Hvalid Hbs Hn1 Hfile Hk Hstale.
    pose proof (total_batches_negative_size n bs Hn1 Hbs) as Htb.
    split; [done|].
    rewrite (bq_run_fresh_nothing_to_do env project table bs n fs
               (delete (BigQuery.get_checkpoint_filename env table) fs)
               [EvRemove (BigQuery.get_checkpoint_filename env table)])
      by (try done; try lia; by eapply bq_start_stale).
    rewrite lookup_delete_eq.
    rewrite (is_Some_None_false None eq_refl).
    by rewrite delete_id by apply lookup_delete_eq.
Qed.

(** A batch size of zero over the 25 rows of the scenario. *)
Lemma batch_size_is_not_validated_witness :
  BigQuery.ingest_pg_to_bq_auto Scenario.healthy "proj" "sales.orders" 0 ∅
    = (Raise ZeroDivisionError, ∅, [EvCount (Some 25)]).
Proof.
  apply (proj1 (batch_size_is_not_validated Scenario.healthy "proj"
                  "sales.orders" true 25 Scenario.bq_stale 1 ∅ eq_refl
                  ltac:(lia))).
  reflexivity.
Defined.

(** The claim fails: with a batch size of [-10] the BigQuery job does not
    fail; it ends with success, and it has removed the checkpoint that an
    earlier run with batch size 10 left for the table. *)
Lemma negative_batch_size_clears_the_checkpoint :
  let fs : gmap string file :=
    {[ Scenario.bq_file := Json Scenario.bq_after_batch_0 ]} in
  let r :=
    BigQuery.ingest_pg_to_bq_auto Scenario.healthy "proj" "sales.orders"
      (-10) fs in
  fs !! Scenario.bq_file = Some (Json Scenario.bq_after_batch_0) /\
  r.1.1 = Ok (Some (0, -2)) /\
  r.1.2 !! Scenario.bq_file = None /\
  r.2 = [EvCount (Some 25); EvRemove Scenario.bq_file].
Proof. cbv zeta. split_and!; by vm_compute. Qed.

(** ** Checkpoint files that do not parse *)

(** C7 as the code has it: loading returns no checkpoint when the file does
    not exist. When the file exists and does not parse, [json.load] raises
    and nothing catches the exception: the load raises, and so does the job
    that called it, right after the count, before any batch is fetched and
    with the files untouched. *)
Theorem unreadable_checkpoint_fails_the_job env project table batch_size
    replace n (fs : gmap string file) :
  (fs !! BigQuery.get_checkpoint_filename env table = None ->
   BigQuery.load_checkpoint env table fs = (Ok None, fs, [])) /\
  (fs !! ClickHouse.CHECKPOINT_FILE = None ->
   ClickHouse.load_checkpoint table fs = (Ok None, fs, [])) /\
  (fs !! BigQuery.get_checkpoint_filename env table = Some Garbage ->
   BigQuery.load_checkpoint env table fs = (Raise JSONDecodeError, fs, []) /\
   (Py.has_char "." table = true -> count_result env = Some n -> n <> 0 ->
    batch_size <> 0 ->
    BigQuery.ingest_pg_to_bq_auto env project table batch_size fs
      = (Raise JSONDecodeError, fs, [EvCount (Some n)]))) /\
  (fs !! ClickHouse.CHECKPOINT_FILE = Some Garbage ->
   ClickHouse.load_checkpoint table fs = (Raise JSONDecodeError, fs, []) /\
   (connect_ok env = true -> count_result env = Some n -> n <> 0 ->
    batch_size <> 0 ->
    ClickHouse.ingest_query_to_clickhouse env table batch_size replace fs
      = (Raise JSONDecodeError, fs, [EvConnect true; EvCount (Some n)]))).
Proof.
  split_and!.
  - apply bq_load_absent.
  - apply ch_load_absent.
  - intros Hfile. split; [by apply bq_load_garbage|].
    intros Hvalid Hcount Hn Hbs.
    rewrite (bq_run _ _ _ _ n) by done.
    by rewrite (bq_start_garbage _ _ _ _ _ Hfile).
  - intros Hfile. split; [by apply ch_load_garbage|].
    intros Hconn Hcount Hn Hbs.
    rewrite (ch_run _ _ _ _ n) by done.
    by rewrite (ch_start_garbage _ _ _ _ _ Hfile).
Qed.

(** A ClickHouse run over a checkpoint file that does not parse. *)
Lemma unreadable_checkpoint_fails_the_job_witness :
  ClickHouse.ingest_query_to_clickhouse Scenario.healthy "orders" 10 false
    {[ ClickHouse.CHECKPOINT_FILE := Garbage ]}
  = (Raise JSONDecodeError, {[ ClickHouse.CHECKPOINT_FILE := Garbage ]},
     [EvConnect true; EvCount (Some 25)]).
Proof.
  destruct (unreadable_checkpoint_fails_the_job Scenario.healthy "proj"
              "orders" 10 false 25 {[ ClickHouse.CHECKPOINT_FILE := Garbage ]})
    as (_ & _ & _ & Hch).
  destruct (Hch eq_refl) as [_ Hrun].
  apply Hrun; [reflexivity|reflexivity|lia|lia].
Defined.

(** The claim fails: a checkpoint file that does not parse is not treated
    as an absent one. Without the file the BigQuery job transfers the 25
    rows; with it the job raises the decoding error. *)
Lemma corrupt_checkpoint_is_fatal :
  let run :=
    BigQuery.ingest_pg_to_bq_auto Scenario.healthy "proj" "sales.orders" 10 in
  (BigQuery.load_checkpoint Scenario.healthy "sales.orders"
     {[ Scenario.bq_file := Garbage ]}).1.1 = Raise JSONDecodeError /\
  (run {[ Scenario.bq_file := Garbage ]}).1.1 = Raise JSONDecodeError /\
  (run ∅).1.1 = Ok (Some (25, 3)).
Proof. cbv zeta. split_and!; by vm_compute. Qed.

(** ** Checkpoint keys *)

Section KeyFacts.
Import Py.

Lemma bq_filename_eq env t1 t2 :
  BigQuery.get_checkpoint_filename env t1
    = BigQuery.get_checkpoint_filename env t2 <->
  replace_char "." "_" t1 = replace_char "." "_" t2.
Proof.
  unfold BigQuery.get_checkpoint_filename, path_join. split.
  - intros H. eapply append_inj_r, (append_inj_l "checkpoint_").
    destruct (String.eqb (CHECKPOINT_DIR env) ""); [exact H|].
    destruct (ends_with_char "/" (CHECKPOINT_DIR env)).
    + eapply append_inj_l. exact H.
    + eapply (append_inj_l "/"), append_inj_l. exact H.
  - by intros ->.
Qed.

Lemma bq_filename_collision env :
  "a.b_c" <> "a_b.c" /\
  has_char "." "a.b_c" = true /\ has_char "." "a_b.c" = true /\
  BigQuery.get_checkpoint_filename env "a.b_c"
    = BigQuery.get_checkpoint_filename env "a_b.c".
Proof. split_and!; done. Qed.

End KeyFacts.

(** A BigQuery run neither reads nor changes a file other than the
    checkpoint file of its table: with such a file put in place, the run
    has the same result and the same events, and the file is still there
    after it. *)
Section Isolation.
Import Run.

Context (env : Env) (batch_size : Z) (table key : string)
  (data : Z -> Z -> checkpoint) (save_on_fail : bool).
Context (p : string) (f : file) (Hp : p <> key).

Lemma loop_insert_other batches : forall u (fs : gmap string file),
  loop_model env batch_size table key data save_on_fail batches u
    (<[p := f]> fs) =
  let r :=
    loop_model env batch_size table key data save_on_fail batches u fs in
  (r.1.1, <[p := f]> r.1.2, r.2).
Proof.
  induction batches as [|i rest IH]; intros u fs; [done|].
  cbn [loop_model]. unfold fail_with.
  destruct (read_sql env batch_size (Some (i * batch_size))) as [df|].
  - destruct (df_len df) as [|m].
    + rewrite IH. done.
    + destruct (write_ok env i).
      * rewrite (insert_insert_ne fs) by done. rewrite IH. done.
      * destruct save_on_fail; cbn; [|done].
        by rewrite (insert_insert_ne fs) by done.
  - destruct save_on_fail; cbn; [|done].
    by rewrite (insert_insert_ne fs) by done.
Qed.

End Isolation.

Section BigQueryIsolation.
Import Run.

Context (env : Env) (project table : string) (batch_size : Z).
Context (p : string) (f : file).
Context (Hp : p <> BigQuery.get_checkpoint_filename env table).

Lemma bq_start_json n (fs : gmap string file) c :
  fs !! BigQuery.get_checkpoint_filename env table = Some (Json c) ->
  bq_start env table n batch_size fs =
    match ck_last_completed_batch c with
    | None => (Raise KeyError, fs, [])
    | Some k =>
        if bool_decide (ck_total_rows c = Some n)
           && bool_decide (ck_batch_size c = Some batch_size)
        then (Ok (k + 1, default ((k + 1) * batch_size) (ck_total_uploaded c)),
              fs, [])
        else (Ok (0, 0), delete (BigQuery.get_checkpoint_filename env table) fs,
              [EvRemove (BigQuery.get_checkpoint_filename env table)])
    end.
Proof.
  intros H. destruct (ck_last_completed_batch c) as [k|] eqn:Hk.
  - destruct (bool_decide (ck_total_rows c = Some n)) eqn:Hn;
      [destruct (bool_decide (ck_batch_size c = Some batch_size)) eqn:Hb|].
    + apply bool_decide_eq_true in Hn, Hb. by apply bq_start_valid.
    + apply bool_decide_eq_false in Hb. eapply bq_start_stale; eauto.
    + apply bool_decide_eq_false in Hn. eapply bq_start_stale; eauto.
  - unfold bq_start, bind. by rewrite (bq_load_json _ _ _ _ H), Hk.
Qed.

Lemma bq_start_insert_other n (fs : gmap string file) :
  bq_start env table n batch_size (<[p := f]> fs) =
  let r := bq_start env table n batch_size fs in
  (r.1.1, <[p := f]> r.1.2, r.2).
Proof.
  destruct (fs !! BigQuery.get_checkpoint_filename env table)
    as [[|c]|] eqn:H.
  - rewrite (bq_start_garbage _ _ _ _ fs) by done.
    by rewrite bq_start_garbage by by rewrite lookup_insert_ne.
  - rewrite (bq_start_json _ fs c) by done.
    rewrite (bq_start_json _ _ c) by by rewrite lookup_insert_ne.
    destruct (ck_last_completed_batch c); [|done].
    destruct (_ && _); [done|]. cbn.
    by rewrite delete_insert_ne by done.
  - rewrite (bq_start_absent _ _ _ _ fs) by done.
    by rewrite bq_start_absent by by rewrite lookup_insert_ne.
Qed.

Lemma bq_finish_insert_other tb pre o (fs2 : gmap string file) es2 :
  bq_finish env table tb pre (o, <[p := f]> fs2, es2) =
  let r := bq_finish env table tb pre (o, fs2, es2) in
  (r.1.1, <[p := f]> r.1.2, r.2).
Proof.
  unfold bq_finish. destruct o as [total|e]; cbn; [|done].
  rewrite lookup_insert_ne by done.
  by rewrite delete_insert_ne by done.
Qed.

Lemma bq_run_insert_other (fs : gmap string file) :
  BigQuery.ingest_pg_to_bq_auto env project table batch_size (<[p := f]> fs) =
  let r := BigQuery.ingest_pg_to_bq_auto env project table batch_size fs in
  (r.1.1, <[p := f]> r.1.2, r.2).
Proof.
  destruct (Py.has_char "." table) eqn:Hvalid;
    [|by rewrite !bq_run_invalid].
  destruct (count_result env) as [n|] eqn:Hcount;
    [|by rewrite !bq_run_count_fails].
  destruct (decide (n = 0)) as [->|Hn]; [by rewrite !bq_run_no_rows|].
  destruct (decide (batch_size = 0)) as [Hz|Hbs].
  { revert Hp. rewrite Hz. intros Hp'.
    by rewrite !(bq_run_zero_batch_size _ _ _ n). }
  rewrite !(bq_run _ _ _ _ n) by done.
  rewrite bq_start_insert_other. cbv zeta.
  destruct (bq_start env table n batch_size fs) as [[[su|e] fs1] es1];
    cbn [fst snd]; [|done].
  rewrite !bq_loop_model. rewrite loop_insert_other by done. cbv zeta.
  destruct (loop_model _ _ _ _ _ _ _ _ fs1) as [[o fs2] es2]. cbn [fst snd].
  apply bq_finish_insert_other.
Qed.

End BigQueryIsolation.

(** C5 as the code has it. [hello.py] derives the checkpoint file from the
    table name (and the checkpoint directory) alone, so the key is the same
    in every run of a job. Two table names that still differ once every dot
    is replaced by an underscore get different files; so do, in particular,
    two tables of one dataset, whatever underscores their names hold, and
    two names without underscores. A run whose file differs from another
    job's file depends in nothing on that file and leaves it as it is.
    [pg_to_clickhouse.py] keeps one checkpoint file for all tables: a load
    returns a record only when its [table_name] is the target table, but a
    save overwrites the record and a clear removes it whatever table it
    belongs to. *)
Theorem checkpoint_keys env project t1 t2 batch_size :
  (forall env', CHECKPOINT_DIR env' = CHECKPOINT_DIR env ->
     BigQuery.get_checkpoint_filename env' t1
       = BigQuery.get_checkpoint_filename env t1) /\
  (Py.replace_char "." "_" t1 <> Py.replace_char "." "_" t2 ->
   BigQuery.get_checkpoint_filename env t1
     <> BigQuery.get_checkpoint_filename env t2) /\
  (forall dataset,
     Py.has_char "." t1 = false -> Py.has_char "." t2 = false -> t1 <> t2 ->
     BigQuery.get_checkpoint_filename env (dataset +:+ "." +:+ t1)
       <> BigQuery.get_checkpoint_filename env (dataset +:+ "." +:+ t2)) /\
  (Py.has_char "_" t1 = false -> Py.has_char "_" t2 = false -> t1 <> t2 ->
   BigQuery.get_checkpoint_filename env t1
     <> BigQuery.get_checkpoint_filename env t2) /\
  (forall (fs : gmap string file) f,
     BigQuery.get_checkpoint_filename env t2
       <> BigQuery.get_checkpoint_filename env t1 ->
     BigQuery.ingest_pg_to_bq_auto env project t1 batch_size
       (<[BigQuery.get_checkpoint_filename env t2 := f]> fs) =
     let r := BigQuery.ingest_pg_to_bq_auto env project t1 batch_size fs in
     (r.1.1, <[BigQuery.get_checkpoint_filename env t2 := f]> r.1.2, r.2)) /\
  (forall (fs : gmap string file) c,
     fs !! ClickHouse.CHECKPOINT_FILE = Some (Json c) ->
     ck_table_name c = Some t1 -> t1 <> t2 ->
     ClickHouse.load_checkpoint t2 fs = (Ok None, fs, [])) /\
  (forall (fs : gmap string file) d,
     (ClickHouse.save_checkpoint d fs).1.2 !! ClickHouse.CHECKPOINT_FILE
       = Some (Json d) /\
     (ClickHouse.clear_checkpoint fs).1.2 !! ClickHouse.CHECKPOINT_FILE = None).
Proof.
  split_and!.
  - intros env' Hdir. unfold BigQuery.get_checkpoint_filename. by rewrite Hdir.
  - intros Hne Heq. apply Hne. by apply (bq_filename_eq env).
  - intros dataset H1 H2 Hne Heq. apply Hne.
    apply bq_filename_eq in Heq.
    rewrite !replace_char_app in Heq.
    apply append_inj_l in Heq. cbn in Heq. injection Heq as Heq.
    by rewrite !replace_char_id in Heq.
  - intros H1 H2 Hne Heq. apply Hne.
    apply bq_filename_eq in Heq. by eapply replace_char_inj.
  - intros fs f Hne. by apply bq_run_insert_other.
  - intros fs c Hfile Hc Hne.
    rewrite (ch_load_json _ _ _ Hfile).
    rewrite bool_decide_eq_false_2; [done|]. rewrite Hc. congruence.
  - intros fs d. split.
    + unfold ClickHouse.save_checkpoint, Run.json_dump. cbn.
      apply lookup_insert_eq.
    + rewrite ch_clear. cbn. apply lookup_delete_eq.
Qed.

(** The table of the default configuration of [hello.py] and another table
    of its dataset, both with underscores in their names. *)
Lemma checkpoint_keys_witness :
  BigQuery.get_checkpoint_filename Scenario.healthy "my_dataset.my_table"
    <> BigQuery.get_checkpoint_filename Scenario.healthy "my_dataset.my_users".
Proof.
  apply (proj1 (proj2 (proj2
           (checkpoint_keys Scenario.healthy "proj" "my_table" "my_users" 10)))
           "my_dataset").
  - reflexivity.
  - reflexivity.
  - discriminate.
Defined.

(** The claim fails: a ClickHouse job for the table [orders] that runs to
    its end overwrites, and then removes, the checkpoint that an interrupted
    job for the table [users] had left. *)
Lemma clickhouse_jobs_share_one_checkpoint :
  let fs : gmap string file :=
    {[ ClickHouse.CHECKPOINT_FILE := Json Scenario.ch_users ]} in
  let r :=
    ClickHouse.ingest_query_to_clickhouse Scenario.healthy "orders" 10 false fs
  in
  ck_table_name Scenario.ch_users = Some "users" /\
  fs !! ClickHouse.CHECKPOINT_FILE = Some (Json Scenario.ch_users) /\
  r.1.1 = Ok 25 /\
  r.2 !! 5%nat
    = Some (EvSave ClickHouse.CHECKPOINT_FILE
              (ClickHouse.checkpoint_data "orders" 0 10 25 10)) /\
  r.1.2 !! ClickHouse.CHECKPOINT_FILE = None.
Proof. cbv zeta. split_and!; by vm_compute. Qed.

(** ** Facts on transfers *)

Section TransferFacts.
Import Trace.

Lemma range_app a b c :
  a <= b -> b <= c -> Py.range a c = Py.range a b ++ Py.range b c.
Proof.
  intros Hab Hbc. remember (Z.to_nat (b - a)) as m eqn:Hm.
  revert a Hab Hm. induction m as [|m IH]; intros a Hab Hm.
  - assert (a = b) as -> by lia. by rewrite (range_nil b b) by lia.
  - rewrite (range_cons a c), (range_cons a b) by lia.
    simpl. f_equal. apply IH; lia.
Qed.

Lemma loop_transfers env batch_size table key data save_on_fail batches u
    (fs : gmap string file) :
  let r :=
    loop_model env batch_size table key data save_on_fail batches u fs in
  transfers env batch_size batches u r.2 (ch_reported r.1.1).
Proof.
  cbv zeta. split_and!.
  - apply loop_fetches.
  - apply loop_writes_sublist.
  - intros total Hrep.
    destruct (loop_model _ _ _ _ _ _ _ _ _).1.1 as [t|e] eqn:Hres;
      simplify_eq/=.
    pose proof (proj2 (loop_fetches env batch_size table key data
                         save_on_fail batches u fs) _ Hres) as Hf.
    destruct (loop_ok env batch_size table key data save_on_fail batches
                u fs _ Hres) as (Ht & _ & _ & Hw).
    done.
Qed.

Lemma bq_finish_transfers env t tb pre r batch_size batches u :
  Forall (fun ev => is_loop_event ev = false) pre ->
  transfers env batch_size batches u r.2 (ch_reported r.1.1) ->
  transfers env batch_size batches u (bq_finish env t tb pre r).2
    (bq_reported (bq_finish env t tb pre r).1.1).
Proof.
  intros Hpre (Hf & Hw & Hrep).
  destruct (setup_no_loop_event _ Hpre) as (Hf1 & Hw1 & _).
  unfold transfers.
  destruct r as [[[total|e] fs2] es2]; cbn in *.
  - rewrite !fetches_app, !writes_app, Hf1, Hw1.
    case_bool_decide; cbn; rewrite ?app_nil_r; split_and!; try done.
    all: by intros ? [= <-]; apply Hrep.
  - rewrite !fetches_app, !writes_app, Hf1, Hw1. done.
Qed.

Lemma ch_finish_transfers env pre r batch_size batches u :
  Forall (fun ev => is_loop_event ev = false) pre ->
  transfers env batch_size batches u r.2 (ch_reported r.1.1) ->
  transfers env batch_size batches u (ch_finish pre r).2
    (ch_reported (ch_finish pre r).1.1).
Proof.
  intros Hpre (Hf & Hw & Hrep).
  destruct (setup_no_loop_event _ Hpre) as (Hf1 & Hw1 & _).
  unfold transfers.
  destruct r as [[[total|e] fs2] es2]; cbn in *.
  - rewrite !fetches_app, !writes_app, Hf1, Hw1.
    case_bool_decide; cbn; rewrite ?app_nil_r; split_and!; try done.
    all: by intros ? [= <-]; apply Hrep.
  - rewrite !fetches_app, !writes_app, Hf1, Hw1. done.
Qed.

(** A run that stops before its loop transfers the empty part of any
    list. *)
Lemma setup_transfers env batch_size batches u es :
  Forall (fun ev => is_loop_event ev = false) es ->
  transfers env batch_size batches u es None.
Proof.
  intros Hes. destruct (setup_no_loop_event _ Hes) as (Hf & Hw & _).
  unfold transfers. rewrite Hf, Hw. split_and!; [apply prefix_nil|done|done].
Qed.

(** The BigQuery run, from the resume decision [(s, u)] on. *)
Lemma bq_run_transfers env project table batch_size n s u
    (fs fs1 : gmap string file) es1 :
  Py.has_char "." table = true ->
  count_result env = Some n -> n <> 0 -> batch_size <> 0 ->
  bq_start env table n batch_size fs = (Ok (s, u), fs1, es1) ->
  let r := BigQuery.ingest_pg_to_bq_auto env project table batch_size fs in
  transfers env batch_size (Py.range s (total_batches_of n batch_size)) u
    r.2 (bq_reported r.1.1).
Proof.
  intros Hvalid Hcount Hn Hbs Hstart. cbv zeta.
  rewrite (bq_run _ _ _ _ n) by done.
  pose proof (bq_start_events env table n batch_size fs) as Hes.
  rewrite Hstart in *. cbn [fst snd] in *.
  apply bq_finish_transfers; [by constructor|].
  rewrite bq_loop_model. apply loop_transfers.
Qed.

(** The ClickHouse run, from the resume decision [(s, u)] on. *)
Lemma ch_run_transfers env table batch_size replace n s u
    (fs fs1 : gmap string file) es1 :
  connect_ok env = true ->
  count_result env = Some n -> n <> 0 -> batch_size <> 0 ->
  ch_start table n batch_size replace fs = (Ok (s, u), fs1, es1) ->
  let r :=
    ClickHouse.ingest_query_to_clickhouse env table batch_size replace fs in
  transfers env batch_size (Py.range s (total_batches_of n batch_size)) u
    r.2 (ch_reported r.1.1).
Proof.
  intros Hconn Hcount Hn Hbs Hstart. cbv zeta.
  rewrite (ch_run _ _ _ _ n) by done.
  pose proof (ch_start_events table n batch_size replace fs) as Hes.
  rewrite Hstart in *. cbn [fst snd] in *.
  destruct (read_sql env batch_size None) as [first_df|].
  - destruct (negb (replace && Z.eqb s 0) || create_ok env).
    + apply ch_finish_transfers; [|rewrite ch_loop_model; apply loop_transfers].
      repeat constructor. apply Forall_app. split; [done|].
      unfold ch_prepare_events. repeat constructor.
      destruct (replace && Z.eqb s 0); repeat constructor.
    + apply setup_transfers. repeat constructor.
      apply Forall_app. split; [done|]. repeat constructor.
  - apply setup_transfers. repeat constructor.
    apply Forall_app. split; [done|]. repeat constructor.
Qed.

End TransferFacts.

(** ** Resumed runs *)

Section SumFacts.

Lemma sum_rows_bound env bs l :
  (forall i, i ∈ l -> batch_rows env bs i <= bs) ->
  sum_rows env bs l <= Z.of_nat (length l) * bs.
Proof.
  induction l as [|i l IH]; intros Hle; [done|].
  unfold sum_rows in *. cbn [foldr length].
  specialize (Hle i (list_elem_of_here _ _)) as Hi.
  assert (foldr (fun i acc => batch_rows env bs i + acc) 0 l
          <= Z.of_nat (length l) * bs) as Hl.
  { apply IH. intros j Hj. apply Hle. by apply list_elem_of_further. }
  lia.
Qed.

Lemma sum_rows_short env bs l j :
  (forall i, i ∈ l -> batch_rows env bs i <= bs) ->
  j ∈ l -> batch_rows env bs j < bs ->
  sum_rows env bs l < Z.of_nat (length l) * bs.
Proof.
  induction l as [|i l IH]; intros Hle Hj Hlt.
  - by apply elem_of_nil in Hj.
  - assert (forall i, i ∈ l -> batch_rows env bs i <= bs) as Hle'.
    { intros i' Hi'. apply Hle. by apply list_elem_of_further. }
    pose proof (Hle i (list_elem_of_here _ _)) as Hi.
    pose proof (sum_rows_bound env bs l Hle') as Hb.
    unfold sum_rows in *. cbn [foldr length].
    apply elem_of_cons in Hj as [->|Hj].
    + lia.
    + specialize (IH Hle' Hj Hlt). lia.
Qed.

Lemma range_length a b : a <= b -> Z.of_nat (length (Py.range a b)) = b - a.
Proof.
  intros H. unfold Py.range. rewrite length_map, length_seq. lia.
Qed.

Lemma elem_of_range a b i : a <= i < b -> i ∈ Py.range a b.
Proof.
  intros H. unfold Py.range. apply list_elem_of_fmap.
  exists (Z.to_nat (i - a)). split; [lia|].
  apply elem_of_seq. lia.
Qed.

Lemma elem_of_range_inv a b i : i ∈ Py.range a b -> a <= i < b.
Proof.
  unfold Py.range. intros (m & -> & Hm%elem_of_seq)%list_elem_of_fmap. lia.
Qed.

End SumFacts.

(** C1 as the code has it: a BigQuery run, and a ClickHouse run in append
    mode ([replace = false]), that load a checkpoint whose total rows and
    batch size are those of the fresh plan and whose last completed batch is
    [k] transfer the batches [k + 1 .. total_batches - 1] and no other: the
    loop fetches them in order, writes those that are not empty, and the
    count reported at the end is the count of the checkpoint plus the rows
    of these batches, which is the sum of the rows of all the batches when
    the count of the checkpoint is the sum of the rows of the batches
    [0 .. k]. (Before its loop a ClickHouse run also reads the first batch
    once, for its schema.) A ClickHouse run in replace mode is not covered:
    it does not resume. *)
Theorem resume_transfers_the_remaining_batches env project table batch_size
    n c k u (fs : gmap string file) :
  count_result env = Some n -> n <> 0 -> batch_size <> 0 ->
  ck_last_completed_batch c = Some k ->
  ck_total_rows c = Some n -> ck_batch_size c = Some batch_size ->
  ck_total_uploaded c = Some u ->
  let total_batches := total_batches_of n batch_size in
  let remaining := Py.range (k + 1) total_batches in
  (Py.has_char "." table = true ->
   fs !! BigQuery.get_checkpoint_filename env table = Some (Json c) ->
   let r := BigQuery.ingest_pg_to_bq_auto env project table batch_size fs in
   transfers env batch_size remaining u r.2 (bq_reported r.1.1) /\
   (-1 <= k < total_batches ->
    u = sum_rows env batch_size (Py.range 0 (k + 1)) ->
    forall total, bq_reported r.1.1 = Some total ->
      total = sum_rows env batch_size (Py.range 0 total_batches))) /\
  (connect_ok env = true ->
   fs !! ClickHouse.CHECKPOINT_FILE = Some (Json c) ->
   ck_table_name c = Some table ->
   let r :=
     ClickHouse.ingest_query_to_clickhouse env table batch_size false fs in
   transfers env batch_size remaining u r.2 (ch_reported r.1.1) /\
   (-1 <= k < total_batches ->
    u = sum_rows env batch_size (Py.range 0 (k + 1)) ->
    forall total, ch_reported r.1.1 = Some total ->
      total = sum_rows env batch_size (Py.range 0 total_batches))).
Proof.
  intros Hcount Hn Hbs Hk Hrows Hsize Hu. cbv zeta.
  assert (forall reported es,
            transfers env batch_size
              (Py.range (k + 1) (total_batches_of n batch_size)) u es reported ->
            -1 <= k < total_batches_of n batch_size ->
            u = sum_rows env batch_size (Py.range 0 (k + 1)) ->
            forall total, reported = Some total ->
              total = sum_rows env batch_size
                        (Py.range 0 (total_batches_of n batch_size))) as Hsum.
  { intros reported es (_ & _ & Hrep) Hkb -> total Htotal.
    destruct (Hrep _ Htotal) as (_ & _ & ->).
    rewrite (range_app 0 (k + 1) (total_batches_of n batch_size)) by lia.
    by rewrite sum_rows_app. }
  split.
  - intros Hvalid Hfile.
    pose proof (bq_start_valid env table n batch_size fs c k Hfile Hk Hrows
                  Hsize) as Hstart.
    rewrite Hu in Hstart. cbn [default] in Hstart.
    pose proof (bq_run_transfers env project table batch_size n _ _ fs _ _
                  Hvalid Hcount Hn Hbs Hstart) as Ht.
    split; [exact Ht|]. by eapply Hsum.
  - intros Hconn Hfile Htable.
    pose proof (ch_start_valid table n batch_size fs c k Hfile Htable Hk Hrows
                  Hsize) as Hstart.
    rewrite Hu in Hstart. cbn [default] in Hstart.
    pose proof (ch_run_transfers env table batch_size false n _ _ fs _ _
                  Hconn Hcount Hn Hbs Hstart) as Ht.
    split; [exact Ht|]. by eapply Hsum.
Qed.

(** The rerun of the scenario: 25 rows, ten at a time, resumed after
    batch 0. *)
Lemma resume_transfers_the_remaining_batches_witness :
  let r :=
    BigQuery.ingest_pg_to_bq_auto Scenario.healthy "proj" "sales.orders" 10
      {[ Scenario.bq_file := Json Scenario.bq_after_batch_0 ]} in
  transfers Scenario.healthy 10 (Py.range (0 + 1) (total_batches_of 25 10)) 10
    r.2 (bq_reported r.1.1).
Proof.
  cbv zeta.
  destruct (resume_transfers_the_remaining_batches Scenario.healthy "proj"
              "sales.orders" 10 25 Scenario.bq_after_batch_0 0 10
              {[ Scenario.bq_file := Json Scenario.bq_after_batch_0 ]})
    as [Hbq _]; [reflexivity|lia|lia|reflexivity..|].
  exact (proj1 (Hbq eq_refl eq_refl)).
Defined.

(** The claim fails: a ClickHouse run in replace mode, which is the
    default, loads the checkpoint of batch 0, whose total rows and batch
    size are those of the plan, and yet starts again at batch 0: it drops
    the table and fetches and writes the batches 0, 1 and 2. *)
Lemma replace_mode_does_not_resume :
  let fs : gmap string file :=
    {[ ClickHouse.CHECKPOINT_FILE := Json Scenario.ch_after_batch_0 ]} in
  let r :=
    ClickHouse.ingest_query_to_clickhouse Scenario.healthy "orders" 10 true fs
  in
  ClickHouse.load_checkpoint "orders" fs
    = (Ok (Some Scenario.ch_after_batch_0), fs, []) /\
  ck_total_rows Scenario.ch_after_batch_0 = count_result Scenario.healthy /\
  ck_batch_size Scenario.ch_after_batch_0 = Some 10 /\
  ck_last_completed_batch Scenario.ch_after_batch_0 = Some 0 /\
  Py.range (0 + 1) (total_batches_of 25 10) = [1; 2] /\
  Trace.fetches r.2 = [0; 1; 2] /\
  Trace.writes r.2 = [0; 1; 2] /\
  r.2 !! 3%nat = Some (EvDrop "orders" true) /\
  r.1.1 = Ok 25.
Proof. cbv zeta. split_and!; by vm_compute. Qed.

(** C10 as the code has it: when the record that a BigQuery run, or a
    ClickHouse run in append mode, resumes from lacks the key
    [total_uploaded], the run takes [(k + 1) * batch_size] for the count so
    far. The count reported at the end then exceeds the sum of the rows of
    all the batches by what the batches [0 .. k] fall short of [k + 1] full
    batches; it is too large as soon as one of them held fewer rows than
    the batch size and none held more. A ClickHouse run in replace mode is
    not covered: it does not resume. *)
Theorem missing_count_is_assumed_full env project table batch_size n c k
    (fs : gmap string file) :
  count_result env = Some n -> n <> 0 -> batch_size <> 0 ->
  ck_last_completed_batch c = Some k ->
  ck_total_rows c = Some n -> ck_batch_size c = Some batch_size ->
  ck_total_uploaded c = None ->
  let total_batches := total_batches_of n batch_size in
  let remaining := Py.range (k + 1) total_batches in
  let assumed := (k + 1) * batch_size in
  let true_total := sum_rows env batch_size (Py.range 0 total_batches) in
  let exceeds (reported : option Z) :=
    -1 <= k < total_batches ->
    forall total, reported = Some total ->
      total - true_total
        = assumed - sum_rows env batch_size (Py.range 0 (k + 1)) /\
      ((forall i, 0 <= i <= k -> batch_rows env batch_size i <= batch_size) ->
       (exists i, 0 <= i <= k /\ batch_rows env batch_size i < batch_size) ->
       true_total < total) in
  (Py.has_char "." table = true ->
   fs !! BigQuery.get_checkpoint_filename env table = Some (Json c) ->
   let r := BigQuery.ingest_pg_to_bq_auto env project table batch_size fs in
   transfers env batch_size remaining assumed r.2 (bq_reported r.1.1) /\
   exceeds (bq_reported r.1.1)) /\
  (connect_ok env = true ->
   fs !! ClickHouse.CHECKPOINT_FILE = Some (Json c) ->
   ck_table_name c = Some table ->
   let r :=
     ClickHouse.ingest_query_to_clickhouse env table batch_size false fs in
   transfers env batch_size remaining assumed r.2 (ch_reported r.1.1) /\
   exceeds (ch_reported r.1.1)).
Proof.
  intros Hcount Hn Hbs Hk Hrows Hsize Hu. cbv zeta.
  assert (forall reported es,
    transfers env batch_size
      (Py.range (k + 1) (total_batches_of n batch_size))
      ((k + 1) * batch_size) es reported ->
    -1 <= k < total_batches_of n batch_size ->
    forall total, reported = Some total ->
      total - sum_rows env batch_size
                (Py.range 0 (total_batches_of n batch_size))
        = (k + 1) * batch_size - sum_rows env batch_size (Py.range 0 (k + 1)) /\
      ((forall i, 0 <= i <= k -> batch_rows env batch_size i <= batch_size) ->
       (exists i, 0 <= i <= k /\ batch_rows env batch_size i < batch_size) ->
       sum_rows env batch_size (Py.range 0 (total_batches_of n batch_size))
         < total)) as Hex.
  { intros reported es (_ & _ & Hrep) Hkb total Htotal.
    destruct (Hrep _ Htotal) as (_ & _ & ->).
    rewrite (range_app 0 (k + 1) (total_batches_of n batch_size)) by lia.
    rewrite sum_rows_app. split; [lia|].
    intros Hle (j & Hj & Hlt).
    pose proof (sum_rows_short env batch_size (Py.range 0 (k + 1)) j) as Hs.
    rewrite range_length in Hs by lia.
    enough (sum_rows env batch_size (Py.range 0 (k + 1))
            < (k + 1 - 0) * batch_size) by lia.
    apply Hs; [|by apply elem_of_range; lia|done].
    intros i Hi%elem_of_range_inv. apply Hle. lia. }
  split.
  - intros Hvalid Hfile.
    pose proof (bq_start_valid env table n batch_size fs c k Hfile Hk Hrows
                  Hsize) as Hstart.
    rewrite Hu in Hstart. cbn [default] in Hstart.
    pose proof (bq_run_transfers env project table batch_size n _ _ fs _ _
                  Hvalid Hcount Hn Hbs Hstart) as Ht.
    split; [exact Ht|]. by eapply Hex.
  - intros Hconn Hfile Htable.
    pose proof (ch_start_valid table n batch_size fs c k Hfile Htable Hk Hrows
                  Hsize) as Hstart.
    rewrite Hu in Hstart. cbn [default] in Hstart.
    pose proof (ch_run_transfers env table batch_size false n _ _ fs _ _
                  Hconn Hcount Hn Hbs Hstart) as Ht.
    split; [exact Ht|]. by eapply Hex.
Qed.

(** A ClickHouse run in append mode over a record without the count: it
    resumes at batch 1 with the count taken to be 10. *)
Lemma missing_count_is_assumed_full_witness :
  let r :=
    ClickHouse.ingest_query_to_clickhouse Scenario.healthy "orders" 10 false
      {[ ClickHouse.CHECKPOINT_FILE := Json Scenario.ch_no_count ]} in
  transfers Scenario.healthy 10 (Py.range (0 + 1) (total_batches_of 25 10))
    ((0 + 1) * 10) r.2 (ch_reported r.1.1).
Proof.
  cbv zeta.
  destruct (missing_count_is_assumed_full Scenario.healthy "proj" "orders" 10
              25 Scenario.ch_no_count 0
              {[ ClickHouse.CHECKPOINT_FILE := Json Scenario.ch_no_count ]})
    as [_ Hch]; [reflexivity|lia|lia|reflexivity..|].
  exact (proj1 (Hch eq_refl eq_refl eq_refl)).
Defined.

(** The claim fails for one of the two entry points: the ClickHouse run in
    replace mode, its default, does not resume from the record without the
    count. It starts at batch 0 with the count 0, so the first checkpoint it
    saves is that of batch 0 with 10 rows, and it reports 25 rows. *)
Lemma replace_mode_assumes_nothing :
  let fs : gmap string file :=
    {[ ClickHouse.CHECKPOINT_FILE := Json Scenario.ch_no_count ]} in
  let r :=
    ClickHouse.ingest_query_to_clickhouse Scenario.healthy "orders" 10 true fs
  in
  ClickHouse.load_checkpoint "orders" fs
    = (Ok (Some Scenario.ch_no_count), fs, []) /\
  ck_total_uploaded Scenario.ch_no_count = None /\
  Py.range (0 + 1) (total_batches_of 25 10) = [1; 2] /\
  Trace.fetches r.2 = [0; 1; 2] /\
  r.2 !! 7%nat
    = Some (EvSave ClickHouse.CHECKPOINT_FILE
              (ClickHouse.checkpoint_data "orders" 0 10 25 10)) /\
  r.1.1 = Ok 25.
Proof. cbv zeta. split_and!; by vm_compute. Qed.

(** ** Stale checkpoints *)

Section StaleFacts.

Lemma loop_no_schema_change env batch_size table key data save_on_fail
    batches : forall u (fs : gmap string file),
  Forall (fun ev => Trace.is_schema_change ev = false)
    (loop_model env batch_size table key data save_on_fail batches u fs).2.
Proof.
  induction batches as [|i rest IH]; intros u fs; [constructor|].
  cbn [loop_model]. unfold fail_with.
  destruct (read_sql env batch_size (Some (i * batch_size))) as [df|].
  - destruct (df_len df) as [|m].
    + constructor; [done|apply IH].
    + destruct (write_ok env i).
      * repeat (constructor; [done|]). apply IH.
      * destruct save_on_fail; repeat constructor.
  - destruct save_on_fail; repeat constructor.
Qed.

Lemma bq_finish_same env t tb pre pre' r :
  (bq_finish env t tb pre r).1 = (bq_finish env t tb pre' r).1 /\
  exists tail,
    (bq_finish env t tb pre r).2 = pre ++ tail /\
    (bq_finish env t tb pre' r).2 = pre' ++ tail /\
    (Forall (fun ev => Trace.is_schema_change ev = false) r.2 ->
     Forall (fun ev => Trace.is_schema_change ev = false) tail).
Proof.
  destruct r as [[[total|e] fs2] es2]; cbn.
  - split; [done|]. eexists. split_and!; [done..|].
    intros H. apply Forall_app. split; [done|].
    case_bool_decide; repeat constructor.
  - split; [done|]. by exists es2.
Qed.

Lemma ch_finish_same pre pre' r :
  (ch_finish pre r).1 = (ch_finish pre' r).1 /\
  exists tail,
    (ch_finish pre r).2 = pre ++ tail /\
    (ch_finish pre' r).2 = pre' ++ tail /\
    (Forall (fun ev => Trace.is_schema_change ev = false) r.2 ->
     Forall (fun ev => Trace.is_schema_change ev = false) tail).
Proof.
  destruct r as [[[total|e] fs2] es2]; cbn.
  - split; [done|]. eexists. split_and!; [done..|].
    intros H. apply Forall_app. split; [done|].
    case_bool_decide; repeat constructor.
  - split; [done|]. by exists es2.
Qed.

End StaleFacts.

(** C3 as the code has it. When the record loaded differs from the fresh
    plan in its total rows or its batch size, a BigQuery run, and a
    ClickHouse run in append mode, remove the checkpoint file and go on
    exactly like a run started without the file: same result, same files at
    the end, same events after the removal, batches from 0 on with the
    count 0. Neither changes the schema of the destination: [hello.py]
    leaves the creation of the table to the writer, and append mode never
    drops or creates. A ClickHouse run in replace mode does not compare the
    record and does not remove the file: whatever the record holds, it
    drops and creates the table and runs its loop from batch 0 with the
    count 0 over the files as they were. *)
Theorem stale_checkpoint_starts_afresh env project table batch_size n c k
    (fs : gmap string file) :
  count_result env = Some n -> n <> 0 -> batch_size <> 0 ->
  ck_last_completed_batch c = Some k ->
  ck_total_rows c <> Some n \/ ck_batch_size c <> Some batch_size ->
  let all := Py.range 0 (total_batches_of n batch_size) in
  (Py.has_char "." table = true ->
   let key := BigQuery.get_checkpoint_filename env table in
   fs !! key = Some (Json c) ->
   let r := BigQuery.ingest_pg_to_bq_auto env project table batch_size fs in
   let fresh :=
     BigQuery.ingest_pg_to_bq_auto env project table batch_size (delete key fs)
   in
   r.1 = fresh.1 /\
   r.2 = EvCount (Some n) :: EvRemove key :: drop 1 fresh.2 /\
   transfers env batch_size all 0 r.2 (bq_reported r.1.1) /\
   Forall (fun ev => Trace.is_schema_change ev = false) r.2) /\
  (connect_ok env = true ->
   let key := ClickHouse.CHECKPOINT_FILE in
   fs !! key = Some (Json c) -> ck_table_name c = Some table ->
   let r :=
     ClickHouse.ingest_query_to_clickhouse env table batch_size false fs in
   let fresh :=
     ClickHouse.ingest_query_to_clickhouse env table batch_size false
       (delete key fs) in
   r.1 = fresh.1 /\
   r.2 = EvConnect true :: EvCount (Some n) :: EvRemove key :: drop 2 fresh.2 /\
   transfers env batch_size all 0 r.2 (ch_reported r.1.1) /\
   Forall (fun ev => Trace.is_schema_change ev = false) r.2) /\
  (connect_ok env = true ->
   fs !! ClickHouse.CHECKPOINT_FILE = Some (Json c) ->
   forall first_df,
     read_sql env batch_size None = Some first_df -> create_ok env = true ->
     ClickHouse.ingest_query_to_clickhouse env table batch_size true fs =
     ch_finish
       [EvConnect true; EvCount (Some n);
        EvSample batch_size (Some (df_len first_df));
        EvDrop table (drop_ok env);
        EvCreate table
          (TypeMapper.get_create_table_sql (df_columns first_df) table None)
          true]
       (ClickHouse.batch_loop env table batch_size n all 0 fs)).
Proof.
  intros Hcount Hn Hbs Hk Hstale. cbv zeta. split_and!.
  - intros Hvalid Hfile.
    pose proof (bq_start_stale env table n batch_size fs c k Hfile Hk Hstale)
      as Hstart.
    pose proof (bq_run_transfers env project table batch_size n _ _ fs _ _
                  Hvalid Hcount Hn Hbs Hstart) as Ht.
    cbv zeta in Ht.
    set (key := BigQuery.get_checkpoint_filename env table) in *.
    set (L := BigQuery.batch_loop env project table batch_size n
                (Py.range 0 (total_batches_of n batch_size)) 0 (delete key fs)).
    assert (BigQuery.ingest_pg_to_bq_auto env project table batch_size fs
            = bq_finish env table (total_batches_of n batch_size)
                [EvCount (Some n); EvRemove key] L) as Hrun.
    { rewrite (bq_run _ _ _ _ n) by done. by rewrite Hstart. }
    assert (BigQuery.ingest_pg_to_bq_auto env project table batch_size
              (delete key fs)
            = bq_finish env table (total_batches_of n batch_size)
                [EvCount (Some n)] L) as Hrun'.
    { rewrite (bq_run _ _ _ _ n) by done.
      by rewrite bq_start_absent by apply lookup_delete_eq. }
    destruct (bq_finish_same env table (total_batches_of n batch_size)
                [EvCount (Some n); EvRemove key] [EvCount (Some n)] L)
      as (Hsame & tail & Hr & Hfresh & Hschema).
    split_and!; [| |exact Ht|]; rewrite Hrun, ?Hrun'.
    + exact Hsame.
    + by rewrite Hr, Hfresh.
    + rewrite Hr. repeat (constructor; [done|]). apply Hschema.
      unfold L. rewrite bq_loop_model. apply loop_no_schema_change.
  - intros Hconn Hfile Htable.
    pose proof (ch_start_stale table n batch_size fs c k Hfile Htable Hk Hstale)
      as Hstart.
    pose proof (ch_run_transfers env table batch_size false n _ _ fs _ _
                  Hconn Hcount Hn Hbs Hstart) as Ht.
    cbv zeta in Ht.
    set (key := ClickHouse.CHECKPOINT_FILE) in *.
    assert (ClickHouse.ingest_query_to_clickhouse env table batch_size false
              (delete key fs) =
            match read_sql env batch_size None with
            | Some first_df =>
                ch_finish
                  [EvConnect true; EvCount (Some n);
                   EvSample batch_size (Some (df_len first_df))]
                  (ClickHouse.batch_loop env table batch_size n
                     (Py.range 0 (total_batches_of n batch_size)) 0
                     (delete key fs))
            | None =>
                (Raise FetchError, delete key fs,
                 [EvConnect true; EvCount (Some n); EvSample batch_size None])
            end) as Hrun'.
    { rewrite (ch_run _ _ _ _ n) by done.
      by rewrite ch_start_absent by apply lookup_delete_eq. }
    assert (ClickHouse.ingest_query_to_clickhouse env table batch_size false fs =
            match read_sql env batch_size None with
            | Some first_df =>
                ch_finish
                  [EvConnect true; EvCount (Some n); EvRemove key;
                   EvSample batch_size (Some (df_len first_df))]
                  (ClickHouse.batch_loop env table batch_size n
                     (Py.range 0 (total_batches_of n batch_size)) 0
                     (delete key fs))
            | None =>
                (Raise FetchError, delete key fs,
                 [EvConnect true; EvCount (Some n); EvRemove key;
                  EvSample batch_size None])
            end) as Hrun.
    { rewrite (ch_run _ _ _ _ n) by done. by rewrite Hstart. }
    split_and!; [| |exact Ht|]; rewrite Hrun, ?Hrun'.
    all: destruct (read_sql env batch_size None) as [first_df|];
      [|by repeat constructor].
    all: destruct (ch_finish_same
                     [EvConnect true; EvCount (Some n); EvRemove key;
                      EvSample batch_size (Some (df_len first_df))]
                     [EvConnect true; EvCount (Some n);
                      EvSample batch_size (Some (df_len first_df))]
                     (ClickHouse.batch_loop env table batch_size n
                        (Py.range 0 (total_batches_of n batch_size)) 0
                        (delete key fs)))
           as (Hsame & tail & Hr & Hfresh & Hschema).
    + exact Hsame.
    + by rewrite Hr, Hfresh.
    + rewrite Hr. repeat (constructor; [done|]). apply Hschema.
      rewrite ch_loop_model. apply loop_no_schema_change.
  - intros Hconn Hfile first_df Hfirst Hcreate.
    rewrite (ch_run _ _ _ _ n) by done.
    rewrite (ch_start_replace table n batch_size fs c k Hfile Hk).
    rewrite Hfirst, Hcreate. cbn [fst snd]. by rewrite orb_true_r.
Qed.

(** A BigQuery run over the checkpoint of an earlier job of 40 rows. *)
Lemma stale_checkpoint_starts_afresh_witness :
  let fs : gmap string file :=
    {[ Scenario.bq_file := Json Scenario.bq_stale ]} in
  let r :=
    BigQuery.ingest_pg_to_bq_auto Scenario.healthy "proj" "sales.orders" 10 fs
  in
  let fresh :=
    BigQuery.ingest_pg_to_bq_auto Scenario.healthy "proj" "sales.orders" 10
      (delete (BigQuery.get_checkpoint_filename Scenario.healthy "sales.orders")
         fs) in
  r.1 = fresh.1.
Proof.
  cbv zeta.
  destruct (stale_checkpoint_starts_afresh Scenario.healthy "proj"
              "sales.orders" 10 25 Scenario.bq_stale 1
              {[ Scenario.bq_file := Json Scenario.bq_stale ]})
    as [Hbq _]; [reflexivity|lia|lia|reflexivity| |].
  - left. discriminate.
  - exact (proj1 (Hbq eq_refl eq_refl)).
Defined.

(** The claim fails twice. A ClickHouse run in replace mode loads a record
    of other plan parameters and does not clear it: when the first fetch
    then fails, the record is still in the file. A ClickHouse run in append
    mode clears such a record and starts at batch 0, but it does not
    initialise the schema: it neither drops nor creates the table. *)
Lemma stale_checkpoint_kept_or_schema_untouched :
  let fs : gmap string file :=
    {[ ClickHouse.CHECKPOINT_FILE := Json Scenario.ch_stale ]} in
  let replacing :=
    ClickHouse.ingest_query_to_clickhouse (Scenario.fetch_fails_at 0) "orders"
      10 true fs in
  let appending :=
    ClickHouse.ingest_query_to_clickhouse Scenario.healthy "orders" 10 false fs
  in
  ClickHouse.load_checkpoint "orders" fs = (Ok (Some Scenario.ch_stale), fs, []) /\
  ck_total_rows Scenario.ch_stale <> count_result Scenario.healthy /\
  (replacing.1.1 = Raise FetchError /\
   replacing.1.2 !! ClickHouse.CHECKPOINT_FILE = Some (Json Scenario.ch_stale) /\
   List.filter Trace.is_checkpoint_change replacing.2 = []) /\
  (appending.1.1 = Ok 25 /\
   Trace.fetches appending.2 = [0; 1; 2] /\
   List.filter Trace.is_schema_change appending.2 = []).
Proof. cbv zeta. split_and!; by vm_compute. Qed.

(** ** Failures inside the loop *)

Section FailureFacts.
Import Trace.

Context (env : Env) (batch_size : Z) (table key : string)
  (data : Z -> Z -> checkpoint).

(** A loop that saves on failure and ends with an exception has failed at
    some batch [k]: it has fetched the batches up to [k], gone through
    those before [k], and the file holds the record of batch [k - 1] with
    the count of the rows of the batches before [k]. *)
Lemma loop_failure_checkpoint batches :
  forall i e u (fs : gmap string file) ex,
  batches = Py.range i e ->
  (loop_model env batch_size table key data true batches u fs).1.1 = Raise ex ->
  exists k,
    i <= k < e /\
    fetches (loop_model env batch_size table key data true batches u fs).2
      = Py.range i (k + 1) /\
    done_batches (loop_model env batch_size table key data true batches u fs).2
      = Py.range i k /\
    (loop_model env batch_size table key data true batches u fs).1.2 !! key
      = Some (Json (data (k - 1)
                      (u + sum_rows env batch_size (Py.range i k)))).
Proof.
  induction batches as [|b rest IH]; intros i e u fs ex Hr Hres; [done|].
  symmetry in Hr. apply range_cons_inv in Hr as (Hlt & -> & ->).
  assert ([i] = Py.range i (i + 1)) as Hone.
  { rewrite (range_cons i) by lia. by rewrite range_nil by lia. }
  assert (forall k, i + 1 <= k ->
            sum_rows env batch_size (Py.range i k)
            = batch_rows env batch_size i
              + sum_rows env batch_size (Py.range (i + 1) k)) as Hsum.
  { intros k Hk. by rewrite (range_cons i k) by lia. }
  revert Hres. cbn [loop_model]. unfold fail_with.
  destruct (read_sql env batch_size (Some (i * batch_size))) as [df|] eqn:Hread.
  - destruct (df_len df) as [|m] eqn:Hlen; cbn [fst snd].
    + intros Hres.
      destruct (IH (i + 1) e u fs ex eq_refl Hres) as (k & Hk & Hf & Hd & Hfs).
      exists k. split; [lia|]. split_and!.
      * cbn [fetches]. rewrite Hf. by rewrite (range_cons i (k + 1)) by lia.
      * cbn [done_batches]. rewrite Hd. by rewrite (range_cons i k) by lia.
      * rewrite Hfs, (Hsum k) by lia. unfold batch_rows.
        rewrite Hread, Hlen. do 3 f_equal.
    + destruct (write_ok env i) eqn:Hw; cbn [fst snd].
      * intros Hres.
        destruct (IH (i + 1) e _ _ ex eq_refl Hres) as (k & Hk & Hf & Hd & Hfs).
        exists k. split; [lia|]. split_and!.
        -- cbn [fetches]. rewrite Hf. by rewrite (range_cons i (k + 1)) by lia.
        -- cbn [done_batches]. rewrite Hd. by rewrite (range_cons i k) by lia.
        -- rewrite Hfs, (Hsum k) by lia. unfold batch_rows.
           rewrite Hread, Hlen. do 3 f_equal. lia.
      * intros _. exists i. split; [lia|]. split_and!; [done| |].
        -- cbn. by rewrite range_nil by lia.
        -- rewrite lookup_insert_eq, range_nil by lia. cbn.
           by rewrite Z.add_0_r.
  - intros _. exists i. split; [lia|]. cbn. split_and!; [done| |].
    + by rewrite range_nil by lia.
    + rewrite lookup_insert_eq, range_nil by lia. cbn. by rewrite Z.add_0_r.
Qed.

End FailureFacts.

(** [hello.py] does what C2 says: when a BigQuery run that started at
    batch [s] with the count [u] ends with an exception raised in its loop,
    the loop failed at some batch [k] after going through the batches
    [s .. k - 1]; the checkpoint file then holds the record of batch
    [k - 1] with the count [u] plus the rows of these batches (the rows of
    the batches [0 .. k - 1] in a first run), and the resume decision of the
    next run over these files is batch [k] with that count. *)
Lemma bigquery_failure_saves_checkpoint env project table batch_size n s u
    (fs fs1 : gmap string file) es1 ex :
  Py.has_char "." table = true ->
  count_result env = Some n -> n <> 0 -> batch_size <> 0 ->
  bq_start env table n batch_size fs = (Ok (s, u), fs1, es1) ->
  let r := BigQuery.ingest_pg_to_bq_auto env project table batch_size fs in
  r.1.1 = Raise ex ->
  exists k,
    let count := u + sum_rows env batch_size (Py.range s k) in
    s <= k < total_batches_of n batch_size /\
    Trace.fetches r.2 = Py.range s (k + 1) /\
    Trace.done_batches r.2 = Py.range s k /\
    r.1.2 !! BigQuery.get_checkpoint_filename env table
      = Some (Json (BigQuery.checkpoint_data (k - 1) count n batch_size table
                      project)) /\
    bq_start env table n batch_size r.1.2 = (Ok (k - 1 + 1, count), r.1.2, []).
Proof.
  intros Hvalid Hcount Hn Hbs Hstart. cbv zeta.
  rewrite (bq_run _ _ _ _ n) by done.
  pose proof (bq_start_events env table n batch_size fs) as Hes.
  rewrite Hstart in *. cbn [fst snd] in *.
  rewrite bq_loop_model.
  pose proof (loop_failure_checkpoint env batch_size table
                (BigQuery.get_checkpoint_filename env table)
                (fun i u => BigQuery.checkpoint_data i u n batch_size table
                              project)
                (Py.range s (total_batches_of n batch_size)) s
                (total_batches_of n batch_size) u fs1) as Hloop.
  destruct (loop_model _ _ _ _ _ _ _ _ fs1) as [[[total|e] fs2] es2];
    cbn [bq_finish fst snd] in *; [done|].
  intros [= ->].
  destruct (Hloop ex eq_refl eq_refl) as (k & Hk & Hf & Hd & Hfs).
  destruct (setup_no_loop_event _ Hes) as (Hf1 & _ & Hd1 & _).
  exists k. cbv zeta. split_and!; [lia..| | | |].
  - cbn. by rewrite fetches_app, Hf1.
  - cbn. by rewrite done_batches_app, Hd1.
  - done.
  - by rewrite (bq_start_valid env table n batch_size fs2 _ (k - 1) Hfs).
Qed.

(** C2, the code at the failing inputs. [pg_to_clickhouse.py] saves no
    checkpoint when a fetch or a write fails; it prints that the progress is
    saved and re-raises. (1) The fetch of batch 0 fails in a first run in
    append mode: no checkpoint file exists afterwards, where [hello.py]
    leaves the record of batch [-1] with the count 0. (2) Batch 0 is
    written, batch 1 comes back empty and the fetch of batch 2 fails: the
    file holds the record of batch 0, and the next run resumes at batch 1,
    not at batch 2, where [hello.py] leaves the record of batch 1. (3) In
    replace mode, after batch 0 is written and the write of batch 1 fails,
    the record of batch 0 is in the file, yet the next run, in the same
    mode, starts again at batch 0. *)
Theorem clickhouse_failure_saves_no_checkpoint :
  let key := ClickHouse.CHECKPOINT_FILE in
  let first :=
    ClickHouse.ingest_query_to_clickhouse (Scenario.fetch_fails_at 0) "orders"
      10 false ∅ in
  let first_bq :=
    BigQuery.ingest_pg_to_bq_auto (Scenario.fetch_fails_at 0) "proj"
      "sales.orders" 10 ∅ in
  let gap :=
    ClickHouse.ingest_query_to_clickhouse Scenario.gap_then_failure "orders"
      10 false ∅ in
  let gap_bq :=
    BigQuery.ingest_pg_to_bq_auto Scenario.gap_then_failure "proj"
      "sales.orders" 10 ∅ in
  let gap_rerun :=
    ClickHouse.ingest_query_to_clickhouse Scenario.healthy "orders" 10 false
      gap.1.2 in
  let replacing :=
    ClickHouse.ingest_query_to_clickhouse (Scenario.write_fails_at 1) "orders"
      10 true ∅ in
  let replacing_rerun :=
    ClickHouse.ingest_query_to_clickhouse Scenario.healthy "orders" 10 true
      replacing.1.2 in
  (first.1.1 = Raise FetchError /\ Trace.fetches first.2 = [0] /\
   first.1.2 !! key = None /\
   first_bq.1.1 = Raise FetchError /\
   first_bq.1.2 !! Scenario.bq_file
     = Some (Json (BigQuery.checkpoint_data (-1) 0 25 10 "sales.orders" "proj"))) /\
  (gap.1.1 = Raise FetchError /\ Trace.fetches gap.2 = [0; 1; 2] /\
   gap.1.2 !! key = Some (Json (ClickHouse.checkpoint_data "orders" 0 10 25 10)) /\
   Trace.fetches gap_rerun.2 = [1; 2] /\
   gap_bq.1.2 !! Scenario.bq_file
     = Some (Json (BigQuery.checkpoint_data 1 10 25 10 "sales.orders" "proj"))) /\
  (replacing.1.1 = Raise WriteError /\
   replacing.1.2 !! key
     = Some (Json (ClickHouse.checkpoint_data "orders" 0 10 25 10)) /\
   Trace.fetches replacing_rerun.2 = [0; 1; 2]).
Proof. cbv zeta. split_and!; by vm_compute. Qed.

(** * Further properties of the two scripts *)

(** ** The checkpoint store on its own *)

(** X1: a checkpoint that has just been saved is what the next load
    returns, and the load changes nothing. In [hello.py] this holds for any
    record with the key [last_completed_batch], in [pg_to_clickhouse.py]
    for any such record whose [table_name] is the table asked for; the
    records that the two scripts build are of this kind. A save replaces
    whatever record the file held. *)
Theorem save_then_load_round_trip env t data (fs : gmap string file) :
  is_Some (ck_last_completed_batch data) ->
  (let fs' := (BigQuery.save_checkpoint env data t fs).1.2 in
   BigQuery.load_checkpoint env t fs' = (Ok (Some data), fs', [])) /\
  (ck_table_name data = Some t ->
   let fs' := (ClickHouse.save_checkpoint data fs).1.2 in
   ClickHouse.load_checkpoint t fs' = (Ok (Some data), fs', [])) /\
  (forall i u n bs project,
     let d := BigQuery.checkpoint_data i u n bs t project in
     BigQuery.load_checkpoint env t (BigQuery.save_checkpoint env d t fs).1.2
       = (Ok (Some d), (BigQuery.save_checkpoint env d t fs).1.2, [])) /\
  (forall i u n bs,
     let d := ClickHouse.checkpoint_data t i u n bs in
     ClickHouse.load_checkpoint t (ClickHouse.save_checkpoint d fs).1.2
       = (Ok (Some d), (ClickHouse.save_checkpoint d fs).1.2, [])) /\
  (forall old,
     (BigQuery.save_checkpoint env data t
        (BigQuery.save_checkpoint env old t fs).1.2).1.2
       = (BigQuery.save_checkpoint env data t fs).1.2 /\
     (ClickHouse.save_checkpoint data (ClickHouse.save_checkpoint old fs).1.2).1.2
       = (ClickHouse.save_checkpoint data fs).1.2).
Proof.
  intros [k Hk]. cbv zeta.
  unfold BigQuery.save_checkpoint, ClickHouse.save_checkpoint, Run.json_dump.
  cbn [fst snd]. split_and!.
  - rewrite (bq_load_json _ _ _ data) by apply lookup_insert_eq.
    by rewrite Hk.
  - intros Ht. rewrite (ch_load_json _ _ data) by apply lookup_insert_eq.
    by rewrite Hk, bool_decide_eq_true_2.
  - intros i u n bs project.
    by rewrite (bq_load_json _ _ _ _ (lookup_insert_eq _ _ _)).
  - intros i u n bs.
    rewrite (ch_load_json _ _ _ (lookup_insert_eq _ _ _)). cbn.
    by rewrite bool_decide_eq_true_2.
  - intros old. split; apply insert_insert_eq.
Qed.

(** The checkpoint of the scenario, saved over a file that does not parse
    and loaded again. *)
Lemma save_then_load_round_trip_witness :
  let fs' :=
    (BigQuery.save_checkpoint Scenario.healthy Scenario.bq_after_batch_0
       "sales.orders" {[ Scenario.bq_file := Garbage ]}).1.2 in
  BigQuery.load_checkpoint Scenario.healthy "sales.orders" fs'
    = (Ok (Some Scenario.bq_after_batch_0), fs', []).
Proof.
  exact (proj1 (save_then_load_round_trip Scenario.healthy "sales.orders"
                  Scenario.bq_after_batch_0 {[ Scenario.bq_file := Garbage ]}
                  (mk_is_Some _ _ eq_refl))).
Defined.

(** X2: clearing is safe to repeat. Where there is no checkpoint file a
    clear succeeds, removes nothing and leaves the files as they are; a
    second clear after a first one is such a clear; and a load after a
    clear finds no checkpoint. This holds in both scripts, whatever the
    file held, a file that does not parse included. *)
Theorem clear_is_idempotent env t (fs : gmap string file) :
  let bq_cleared := (BigQuery.clear_checkpoint env t fs).1.2 in
  let ch_cleared := (ClickHouse.clear_checkpoint fs).1.2 in
  (BigQuery.clear_checkpoint env t fs).1.1 = Ok tt /\
  BigQuery.clear_checkpoint env t bq_cleared = (Ok tt, bq_cleared, []) /\
  BigQuery.load_checkpoint env t bq_cleared = (Ok None, bq_cleared, []) /\
  (ClickHouse.clear_checkpoint fs).1.1 = Ok tt /\
  ClickHouse.clear_checkpoint ch_cleared = (Ok tt, ch_cleared, []) /\
  ClickHouse.load_checkpoint t ch_cleared = (Ok None, ch_cleared, []).
Proof.
  cbv zeta. rewrite !bq_clear, !ch_clear. cbn [fst snd].
  rewrite !lookup_delete_eq, (is_Some_None_false None eq_refl).
  split_and!; try done.
  - by rewrite delete_id by apply lookup_delete_eq.
  - apply bq_load_absent, lookup_delete_eq.
  - by rewrite delete_id by apply lookup_delete_eq.
  - apply ch_load_absent, lookup_delete_eq.
Qed.

(** ** The batch plan *)

(** X3: for a positive row count and a positive batch size the batch count
    that both scripts compute is the least number of windows of
    [batch_size] rows that cover the rows: the windows [i * batch_size ..
    i * batch_size + batch_size - 1] of the batches [0 .. total_batches - 1]
    reach past the last row, the last window begins before it, and every
    row offset lies in the window of exactly one batch of the loop. *)
Theorem batch_plan_covers_every_row n bs :
  0 < n -> 0 < bs ->
  let total_batches := total_batches_of n bs in
  0 < total_batches /\
  (total_batches - 1) * bs < n <= total_batches * bs /\
  forall r, 0 <= r < n ->
    exists i,
      i ∈ Py.range 0 total_batches /\
      i * bs <= r < i * bs + bs /\
      forall j, j * bs <= r < j * bs + bs -> j = i.
Proof.
  intros Hn Hbs. cbv zeta. unfold total_batches_of.
  pose proof (Z.div_mod (n + bs - 1) bs ltac:(lia)) as Hdm.
  pose proof (Z.mod_pos_bound (n + bs - 1) bs Hbs) as Hm.
  set (tb := (n + bs - 1) / bs) in *.
  assert ((tb - 1) * bs < n <= tb * bs) as Hb by nia.
  assert (0 < tb) as Htb by nia.
  split_and!; [done|lia|lia|].
  intros r Hr.
  pose proof (Z.div_mod r bs ltac:(lia)) as Hrdm.
  pose proof (Z.mod_pos_bound r bs Hbs) as Hrm.
  exists (r / bs). split_and!.
  - apply elem_of_range. split; [apply Z.div_pos; lia|].
    apply Z.div_lt_upper_bound; nia.
  - nia.
  - nia.
  - intros j Hj. nia.
Qed.

(** 25 rows, ten at a time: three batches. *)
Lemma batch_plan_covers_every_row_witness :
  0 < total_batches_of 25 10 /\
  (total_batches_of 25 10 - 1) * 10 < 25 <= total_batches_of 25 10 * 10.
Proof.
  destruct (batch_plan_covers_every_row 25 10 ltac:(lia) ltac:(lia))
    as (H1 & H2 & _).
  exact (conj H1 H2).
Defined.

(** ** The type mapper on parametrised types *)

(** X4: a type of the table followed by a parenthesised parameter list,
    such as [VARCHAR(255)], [NUMERIC(10,2)] or [TIMESTAMP(6)], gets the
    ClickHouse type of the bare type, whatever the parameters are: no key
    that stands earlier in the table and is a prefix of another key maps to
    a different type. *)
Theorem parametrised_type_maps_like_its_base k v params :
  (k, v) ∈ TypeMapper.type_mapping ->
  TypeMapper.pg_type_to_ch_type (k +:+ "(" +:+ params) = v.
Proof.
  intros Hin. unfold TypeMapper.type_mapping in Hin.
  repeat (apply elem_of_cons in Hin as [Hin|Hin];
          [injection Hin as -> ->; by vm_compute|]).
  by apply elem_of_nil in Hin.
Qed.

(** A decimal with precision and scale. *)
Lemma parametrised_type_maps_like_its_base_witness :
  TypeMapper.pg_type_to_ch_type ("NUMERIC" +:+ "(" +:+ "10,2)")
    = "Decimal(38, 10)".
Proof.
  apply parametrised_type_maps_like_its_base.
  apply (bool_decide_unpack _). vm_compute. reflexivity.
Defined.

(** ** The default target table *)

Section SplitFacts.
Import Py.

Lemma split_no_sep sep s : has_char sep s = false -> split sep s = [s].
Proof.
  induction s as [|c s IH]; simpl; [done|].
  intros [Hc Hs]%orb_false_elim. rewrite Hc, (IH Hs). done.
Qed.

Lemma split_not_nil sep s : split sep s <> [].
Proof.
  destruct s as [|c s]; simpl; [done|].
  destruct (Ascii.eqb c sep); [done|]. by destruct (split sep s).
Qed.

Lemma split_pieces sep s :
  Forall (fun x => has_char sep x = false) (split sep s).
Proof.
  induction s as [|c s IH]; simpl; [by repeat constructor|].
  destruct (Ascii.eqb c sep) eqn:Hc; [by constructor|].
  destruct (split sep s) as [|x l].
  { constructor; [simpl; by rewrite Hc|constructor]. }
  apply Forall_cons in IH as [Hx Hl]. constructor; [|done].
  simpl. by rewrite Hc, Hx.
Qed.

Lemma split_after_sep sep p t :
  exists x y l, split sep (p +:+ String sep t) = x :: y :: l.
Proof.
  induction p as [|c p (x & y & l & IH)]; simpl.
  - rewrite Ascii.eqb_refl.
    destruct (split sep t) as [|y l] eqn:Ht; [by apply split_not_nil in Ht|].
    by eexists _, _, _.
  - rewrite IH. destruct (Ascii.eqb c sep); by eexists _, _, _.
Qed.

Lemma last_item_split_after_sep sep p t :
  last_item (split sep (p +:+ String sep t)) = last_item (split sep t).
Proof.
  unfold last_item. induction p as [|c p IH]; simpl.
  - rewrite Ascii.eqb_refl.
    destruct (split sep t) as [|y l] eqn:Ht; [by apply split_not_nil in Ht|].
    done.
  - destruct (split_after_sep sep p t) as (x & y & l & Hs).
    rewrite Hs in *. by destruct (Ascii.eqb c sep).
Qed.

Lemma last_item_Forall (P : string -> Prop) l :
  l <> [] -> Forall P l -> P (last_item l).
Proof.
  unfold last_item. induction 2 as [|x l Hx Hl IH]; [done|].
  destruct l as [|y l]; [done|]. by apply IH.
Qed.

End SplitFacts.

(** X5: the target table that [ingest_table_to_clickhouse] takes when none
    is given is the source table name without its schema: it holds no dot;
    it is the source name itself when that holds no dot; and for a name
    [schema.table] it is [table], so the same table name in two schemas
    gives one target table, and with it one ingestion run. *)
Theorem default_target_drops_the_schema env source_table batch_size replace :
  Py.has_char "." (ClickHouse.default_target_table source_table) = false /\
  (Py.has_char "." source_table = false ->
   ClickHouse.default_target_table source_table = source_table) /\
  (forall schema,
     Py.has_char "." source_table = false ->
     ClickHouse.default_target_table (schema +:+ "." +:+ source_table)
       = source_table /\
     ClickHouse.ingest_table_to_clickhouse env
       (schema +:+ "." +:+ source_table) None batch_size replace
     = ClickHouse.ingest_query_to_clickhouse env source_table batch_size
         replace).
Proof.
  unfold ClickHouse.ingest_table_to_clickhouse, ClickHouse.default_target_table.
  split_and!.
  - apply (last_item_Forall (fun x => Py.has_char "." x = false)).
    + apply split_not_nil.
    + apply split_pieces.
  - intros H. by rewrite split_no_sep.
  - intros schema H.
    change (schema +:+ "." +:+ source_table)
      with (schema +:+ String "."%char source_table).
    rewrite (last_item_split_after_sep "." schema source_table).
    by rewrite split_no_sep.
Qed.

(** The table [users] of the schema [public]. *)
Lemma default_target_drops_the_schema_witness :
  ClickHouse.default_target_table ("public" +:+ "." +:+ "users") = "users".
Proof.
  exact (proj1 (proj2 (proj2 (default_target_drops_the_schema Scenario.healthy
                                "users" 10 true)) "public" eq_refl)).
Defined.

(** ** The configured BigQuery table *)

Section ConfigFacts.
Import Py.

Lemma has_char_app_r c s1 s2 :
  has_char c s2 = true -> has_char c (s1 +:+ s2) = true.
Proof.
  intros H. induction s1 as [|a s1 IH]; simpl; [done|].
  rewrite IH. apply orb_true_r.
Qed.

End ConfigFacts.

(** X6: [validate_bq_table_name] looks for a dot and for nothing else. The
    table name that [get_bq_config] builds from the environment always
    passes it, whatever the environment variables hold (empty values
    included), because [get_bq_config] puts a dot between dataset and
    table. A job called with a table name without a dot stops at the
    validation: it raises [ValueError] before it has connected, counted,
    or looked at a file. *)
Theorem configured_table_passes_validation environ env project table
    batch_size (fs : gmap string file) :
  let config := BigQuery.get_bq_config environ in
  BigQuery.validate_bq_table_name (BigQuery.dataset_table config) fs
    = (Ok true, fs, []) /\
  (Py.has_char "." table = false ->
   BigQuery.ingest_pg_to_bq_auto env project table batch_size fs
     = (Raise ValueError, fs, [])).
Proof.
  cbv zeta.
  assert (Py.has_char "." (BigQuery.dataset_table (BigQuery.get_bq_config environ))
          = true) as Hvalid.
  { cbn. by apply has_char_app_r. }
  split.
  - unfold BigQuery.validate_bq_table_name. by rewrite Hvalid.
  - apply bq_run_invalid.
Qed.

(** A table name without its dataset. *)
Lemma configured_table_passes_validation_witness :
  BigQuery.ingest_pg_to_bq_auto Scenario.healthy "proj" "orders" 10
    {[ Scenario.bq_file := Json Scenario.bq_stale ]}
  = (Raise ValueError, {[ Scenario.bq_file := Json Scenario.bq_stale ]}, []).
Proof.
  apply (proj2 (configured_table_passes_validation ∅ Scenario.healthy "proj"
                  "orders" 10
                  {[ Scenario.bq_file := Json Scenario.bq_stale ]})).
  reflexivity.
Defined.

(** ** The shape of every run *)

Section RunShape.
Import Run.

(** The resume decision either leaves the files alone and logs nothing, or
    removes the checkpoint file and starts at batch 0. *)
Lemma bq_start_cases env t n bs (fs : gmap string file) :
  (exists r, bq_start env t n bs fs = (r, fs, [])) \/
  bq_start env t n bs fs =
    (Ok (0, 0), delete (BigQuery.get_checkpoint_filename env t) fs,
     [EvRemove (BigQuery.get_checkpoint_filename env t)]).
Proof.
  unfold bq_start, BigQuery.load_checkpoint, BigQuery.resume_point,
    BigQuery.clear_checkpoint.
  run_unfold_all.
  repeat (case_match; simplify_eq/=); eauto.
Qed.

Lemma ch_start_cases t n bs replace (fs : gmap string file) :
  (exists r, ch_start t n bs replace fs = (r, fs, [])) \/
  (replace = false /\
   ch_start t n bs replace fs =
     (Ok (0, 0), delete ClickHouse.CHECKPOINT_FILE fs,
      [EvRemove ClickHouse.CHECKPOINT_FILE])).
Proof.
  unfold ch_start, ClickHouse.load_checkpoint, ClickHouse.resume_point,
    ClickHouse.clear_checkpoint.
  run_unfold_all.
  repeat (case_match; simplify_eq/=);
    first [by left; eexists|right; split; [by destruct replace|done]].
Qed.

(** The events of a BigQuery run are those of one loop over a range of
    batches, between events that are not loop events. *)
Lemma bq_run_shape env project table batch_size (fs : gmap string file) :
  exists pre s e u fs1 post n,
    (BigQuery.ingest_pg_to_bq_auto env project table batch_size fs).2 =
      pre ++
      (loop_model env batch_size table
         (BigQuery.get_checkpoint_filename env table)
         (fun i u => BigQuery.checkpoint_data i u n batch_size table project)
         true (Py.range s e) u fs1).2 ++ post /\
    Forall (fun ev => is_loop_event ev = false) pre /\
    Forall (fun ev => is_loop_event ev = false) post.
Proof.
  assert (forall es, Forall (fun ev => is_loop_event ev = false) es ->
            exists pre s e u fs1 post n,
              es = pre ++
                (loop_model env batch_size table
                   (BigQuery.get_checkpoint_filename env table)
                   (fun i u =>
                      BigQuery.checkpoint_data i u n batch_size table project)
                   true (Py.range s e) u fs1).2 ++ post /\
              Forall (fun ev => is_loop_event ev = false) pre /\
              Forall (fun ev => is_loop_event ev = false) post) as Hsetup.
  { intros es Hes. exists es, 0, 0, 0, fs, [], 0.
    rewrite range_nil by lia. cbn. by rewrite app_nil_r. }
  destruct (Py.has_char "." table) eqn:Hvalid;
    [|rewrite bq_run_invalid by done; apply Hsetup; constructor].
  destruct (count_result env) as [n|] eqn:Hcount;
    [|rewrite bq_run_count_fails by done; apply Hsetup; by repeat constructor].
  destruct (decide (n = 0)) as [->|Hn];
    [rewrite bq_run_no_rows by done; apply Hsetup; by repeat constructor|].
  destruct (decide (batch_size = 0)) as [->|Hbs];
    [rewrite (bq_run_zero_batch_size _ _ _ n) by done;
     apply Hsetup; by repeat constructor|].
  rewrite (bq_run _ _ _ _ n) by done.
  pose proof (bq_start_events env table n batch_size fs) as Hstart.
  destruct (bq_start env table n batch_size fs) as [[[su|ex] fs1] es1];
    cbn [snd] in *; [|apply Hsetup; by constructor].
  match goal with
  | |- context [bq_finish ?env ?t ?tb ?pre ?r] =>
      destruct (bq_finish_events env t tb pre r) as (post & -> & Hpost)
  end.
  rewrite bq_loop_model.
  eexists _, _, _, _, _, _, _. split; [reflexivity|].
  split; [by constructor|done].
Qed.

Lemma ch_run_shape env table batch_size replace (fs : gmap string file) :
  exists pre s e u fs1 post n,
    (ClickHouse.ingest_query_to_clickhouse env table batch_size replace fs).2 =
      pre ++
      (loop_model env batch_size table ClickHouse.CHECKPOINT_FILE
         (fun i u => ClickHouse.checkpoint_data table i u n batch_size)
         false (Py.range s e) u fs1).2 ++ post /\
    Forall (fun ev => is_loop_event ev = false) pre /\
    Forall (fun ev => is_loop_event ev = false) post.
Proof.
  assert (forall es, Forall (fun ev => is_loop_event ev = false) es ->
            exists pre s e u fs1 post n,
              es = pre ++
                (loop_model env batch_size table ClickHouse.CHECKPOINT_FILE
                   (fun i u =>
                      ClickHouse.checkpoint_data table i u n batch_size)
                   false (Py.range s e) u fs1).2 ++ post /\
              Forall (fun ev => is_loop_event ev = false) pre /\
              Forall (fun ev => is_loop_event ev = false) post) as Hsetup.
  { intros es Hes. exists es, 0, 0, 0, fs, [], 0.
    rewrite range_nil by lia. cbn. by rewrite app_nil_r. }
  destruct (connect_ok env) eqn:Hconn;
    [|rewrite ch_run_no_connection by done;
      apply Hsetup; by repeat constructor].
  destruct (count_result env) as [n|] eqn:Hcount;
    [|rewrite ch_run_count_fails by done; apply Hsetup; by repeat constructor].
  destruct (decide (n = 0)) as [->|Hn];
    [rewrite ch_run_no_rows by done; apply Hsetup; by repeat constructor|].
  destruct (decide (batch_size = 0)) as [->|Hbs];
    [rewrite (ch_run_zero_batch_size _ _ _ n) by done;
     apply Hsetup; by repeat constructor|].
  rewrite (ch_run _ _ _ _ n) by done.
  pose proof (ch_start_events table n batch_size replace fs) as Hstart.
  destruct (ch_start table n batch_size replace fs) as [[[su|ex] fs1] es1];
    cbn [snd] in *; [|apply Hsetup; by repeat constructor].
  destruct (read_sql env batch_size None) as [first_df|].
  - destruct (negb (replace && Z.eqb su.1 0) || create_ok env).
    + match goal with
      | |- context [ch_finish ?pre ?r] =>
          destruct (ch_finish_events pre r) as (post & -> & Hpost)
      end.
      rewrite ch_loop_model.
      eexists _, _, _, _, _, _, _. split; [reflexivity|]. split; [|done].
      repeat constructor. apply Forall_app. split; [done|].
      unfold ch_prepare_events. repeat constructor.
      destruct (replace && Z.eqb su.1 0); repeat constructor.
    + apply Hsetup. repeat constructor.
      apply Forall_app. split; [done|]. repeat constructor.
  - apply Hsetup. repeat constructor.
    apply Forall_app. split; [done|]. repeat constructor.
Qed.

End RunShape.

(** ** The three ways a run can go *)

Section RunCases.
Import Run.

(** A BigQuery run fails before its loop with the files untouched, or ends
    at once for want of rows, or goes through its loop and its end. *)
Lemma bq_run_cases env project table batch_size (fs : gmap string file) :
  let r := BigQuery.ingest_pg_to_bq_auto env project table batch_size fs in
  (exists ex es,
     r = (Raise ex, fs, es) /\ Forall (fun ev => is_loop_event ev = false) es /\
     Forall (fun ev => Trace.is_schema_change ev = false) es) \/
  r = (Ok None, fs, [EvCount (Some 0)]) \/
  (exists n s u fs1 es1,
     Py.has_char "." table = true /\ count_result env = Some n /\
     n <> 0 /\ batch_size <> 0 /\
     bq_start env table n batch_size fs = (Ok (s, u), fs1, es1) /\
     r = bq_finish env table (total_batches_of n batch_size)
           (EvCount (Some n) :: es1)
           (BigQuery.batch_loop env project table batch_size n
              (Py.range s (total_batches_of n batch_size)) u fs1)).
Proof.
  cbv zeta.
  destruct (Py.has_char "." table) eqn:Hvalid;
    [|left; rewrite bq_run_invalid by done; by eexists _, _].
  destruct (count_result env) as [n|] eqn:Hcount;
    [|left; rewrite bq_run_count_fails by done; eexists _, _;
      split_and!; [done|by repeat constructor..]].
  destruct (decide (n = 0)) as [->|Hn];
    [right; left; by rewrite bq_run_no_rows|].
  destruct (decide (batch_size = 0)) as [->|Hbs];
    [left; rewrite (bq_run_zero_batch_size _ _ _ n) by done; eexists _, _;
     split_and!; [done|by repeat constructor..]|].
  rewrite (bq_run _ _ _ _ n) by done.
  destruct (bq_start_cases env table n batch_size fs) as [[o Hstart]|Hstart];
    rewrite Hstart.
  - destruct o as [[s u]|ex].
    + right; right. by eexists n, s, u, fs, [].
    + left. eexists _, _. split_and!; [done|by repeat constructor..].
  - right; right. by eexists n, 0, 0, _, _.
Qed.

(** A ClickHouse run fails before its loop, having at most removed the
    checkpoint file, or ends at once for want of rows, or goes through its
    loop and its end. *)
Lemma ch_run_cases env table batch_size replace (fs : gmap string file) :
  let r :=
    ClickHouse.ingest_query_to_clickhouse env table batch_size replace fs in
  (exists ex fs1 es,
     r = (Raise ex, fs1, es) /\
     (fs1 = fs \/ replace = false /\ fs1 = delete ClickHouse.CHECKPOINT_FILE fs) /\
     Forall (fun ev => is_loop_event ev = false) es) \/
  r = (Ok 0, fs, [EvConnect true; EvCount (Some 0)]) \/
  (exists n s u fs1 es1 first_df,
     connect_ok env = true /\ count_result env = Some n /\
     n <> 0 /\ batch_size <> 0 /\
     ch_start table n batch_size replace fs = (Ok (s, u), fs1, es1) /\
     read_sql env batch_size None = Some first_df /\
     (replace && Z.eqb s 0 = true -> create_ok env = true) /\
     r = ch_finish
           ([EvConnect true; EvCount (Some n)] ++ es1 ++
            ch_prepare_events env table batch_size replace s first_df)
           (ClickHouse.batch_loop env table batch_size n
              (Py.range s (total_batches_of n batch_size)) u fs1)).
Proof.
  cbv zeta.
  destruct (connect_ok env) eqn:Hconn;
    [|left; rewrite ch_run_no_connection by done; eexists _, _, _;
      split_and!; [done|by left|by repeat constructor]].
  destruct (count_result env) as [n|] eqn:Hcount;
    [|left; rewrite ch_run_count_fails by done; eexists _, _, _;
      split_and!; [done|by left|by repeat constructor]].
  destruct (decide (n = 0)) as [->|Hn];
    [right; left; by rewrite ch_run_no_rows|].
  destruct (decide (batch_size = 0)) as [->|Hbs];
    [left; rewrite (ch_run_zero_batch_size _ _ _ n) by done; eexists _, _, _;
     split_and!; [done|by left|by repeat constructor]|].
  rewrite (ch_run _ _ _ _ n) by done.
  assert (exists o fs1 es1,
            ch_start table n batch_size replace fs = (o, fs1, es1) /\
            (fs1 = fs \/
             replace = false /\ fs1 = delete ClickHouse.CHECKPOINT_FILE fs) /\
            Forall (fun ev => is_loop_event ev = false) es1)
    as (o & fs1 & es1 & Hstart & Hfs1 & Hes1).
  { destruct (ch_start_cases table n batch_size replace fs)
      as [[o Hstart]|[Hrep Hstart]]; rewrite Hstart.
    - eexists _, _, _. split_and!; [done|by left|constructor].
    - eexists _, _, _. split_and!; [done|by right|by repeat constructor]. }
  rewrite Hstart. destruct o as [[s u]|ex]; cbn [fst snd].
  - destruct (read_sql env batch_size None) as [first_df|] eqn:Hfirst.
    + destruct (replace && Z.eqb s 0) eqn:Hprep; cbn [negb orb].
      * destruct (create_ok env) eqn:Hcreate.
        -- right; right. eexists n, s, u, fs1, es1, first_df.
           by rewrite Hprep.
        -- left. eexists _, _, _. split_and!; [done|done|].
           repeat constructor. apply Forall_app. split; [done|].
           repeat constructor.
      * right; right. eexists n, s, u, fs1, es1, first_df.
        rewrite Hprep. by split_and!.
    + left. eexists _, _, _. split_and!; [done|done|].
      repeat constructor. apply Forall_app. split; [done|]. repeat constructor.
  - left. eexists _, _, _. split_and!; [done|done|]. by repeat constructor.
Qed.

End RunCases.

(** ** What the files hold after a run *)

(** X7: a job that ends with its summary leaves no checkpoint behind: when
    the BigQuery job reports a count, and when the ClickHouse job returns
    one over a source that is not empty, the checkpoint file does not exist
    afterwards, whatever the file held before and whether or not a batch
    was saved on the way. *)
Theorem completed_run_leaves_no_checkpoint env project table batch_size
    replace (fs : gmap string file) :
  let bq := BigQuery.ingest_pg_to_bq_auto env project table batch_size fs in
  let ch :=
    ClickHouse.ingest_query_to_clickhouse env table batch_size replace fs in
  (forall total, bq_reported bq.1.1 = Some total ->
     bq.1.2 !! BigQuery.get_checkpoint_filename env table = None) /\
  (forall total, count_result env <> Some 0 -> ch.1.1 = Ok total ->
     ch.1.2 !! ClickHouse.CHECKPOINT_FILE = None).
Proof.
  cbv zeta. split.
  - intros total.
    destruct (bq_run_cases env project table batch_size fs)
      as [(ex & es & -> & _)|[->|(n & s & u & fs1 & es1 & _ & _ & _ & _ & _ & ->)]];
      [done|done|].
    destruct (BigQuery.batch_loop _ _ _ _ _ _ _ fs1) as [[[t|ex] fs2] es2];
      cbn; [|done].
    intros _. apply lookup_delete_eq.
  - intros total Hcount.
    destruct (ch_run_cases env table batch_size replace fs)
      as [(ex & fs1 & es & -> & _)|[Hr|
          (n & s & u & fs1 & es1 & df & _ & _ & _ & _ & _ & _ & _ & ->)]];
      [done| |].
    + destruct (connect_ok env) eqn:Hconn;
        [|by rewrite ch_run_no_connection in Hr].
      destruct (count_result env) as [n|] eqn:Hn;
        [|by rewrite ch_run_count_fails in Hr].
      destruct (decide (n = 0)) as [->|Hne]; [done|].
      destruct (decide (batch_size = 0)) as [->|Hbs];
        [by rewrite (ch_run_zero_batch_size _ _ _ n) in Hr|].
      rewrite (ch_run _ _ _ _ n) in Hr by done.
      repeat (case_match; simplify_eq/=).
      all: unfold ch_finish in *; repeat (case_match; simplify_eq/=).
    + destruct (ClickHouse.batch_loop _ _ _ _ _ _ fs1) as [[[t|ex] fs2] es2];
        cbn; [|done].
      intros _. apply lookup_delete_eq.
Qed.

(** The transfer of the scenario, started over the checkpoint of an
    earlier job. *)
Lemma completed_run_leaves_no_checkpoint_witness :
  (BigQuery.ingest_pg_to_bq_auto Scenario.healthy "proj" "sales.orders" 10
     {[ Scenario.bq_file := Json Scenario.bq_stale ]}).1.2
    !! BigQuery.get_checkpoint_filename Scenario.healthy "sales.orders" = None.
Proof.
  apply (proj1 (completed_run_leaves_no_checkpoint Scenario.healthy "proj"
                  "sales.orders" 10 true
                  {[ Scenario.bq_file := Json Scenario.bq_stale ]}) 25).
  reflexivity.
Defined.

(** X8: neither job creates, changes or removes any file other than its
    checkpoint file, however the run goes. *)
Theorem runs_touch_only_the_checkpoint_file env project table batch_size
    replace (fs : gmap string file) p :
  (p <> BigQuery.get_checkpoint_filename env table ->
   (BigQuery.ingest_pg_to_bq_auto env project table batch_size fs).1.2 !! p
     = fs !! p) /\
  (p <> ClickHouse.CHECKPOINT_FILE ->
   (ClickHouse.ingest_query_to_clickhouse env table batch_size replace fs).1.2
     !! p = fs !! p).
Proof.
  split; intros Hp.
  - destruct (bq_run_cases env project table batch_size fs)
      as [(ex & es & -> & _)|[->|
          (n & s & u & fs1 & es1 & _ & _ & _ & _ & Hstart & ->)]];
      [done|done|].
    assert (fs1 !! p = fs !! p) as <-.
    { destruct (bq_start_cases env table n batch_size fs) as [[o Ho]|Ho];
        rewrite Ho in Hstart; simplify_eq; [done|].
      by apply lookup_delete_ne. }
    rewrite bq_loop_model.
    pose proof (loop_frame env batch_size table
                  (BigQuery.get_checkpoint_filename env table)
                  (fun i u =>
                     BigQuery.checkpoint_data i u n batch_size table project)
                  true (Py.range s (total_batches_of n batch_size)) u fs1 p Hp)
      as Hframe.
    destruct (loop_model _ _ _ _ _ _ _ _ fs1) as [[[t|ex] fs2] es2];
      cbn in *; [|done].
    by rewrite lookup_delete_ne.
  - destruct (ch_run_cases env table batch_size replace fs)
      as [(ex & fs1 & es & -> & Hfs1 & _)|[->|
          (n & s & u & fs1 & es1 & df & _ & _ & _ & _ & Hstart & _ & _ & ->)]];
      [|done|].
    + destruct Hfs1 as [->|[_ ->]]; cbn; [done|]. by apply lookup_delete_ne.
    + assert (fs1 !! p = fs !! p) as <-.
      { destruct (ch_start_cases table n batch_size replace fs)
          as [[o Ho]|[_ Ho]]; rewrite Ho in Hstart; simplify_eq; [done|].
        by apply lookup_delete_ne. }
      rewrite ch_loop_model.
      pose proof (loop_frame env batch_size table ClickHouse.CHECKPOINT_FILE
                    (fun i u =>
                       ClickHouse.checkpoint_data table i u n batch_size)
                    false (Py.range s (total_batches_of n batch_size)) u fs1 p
                    Hp) as Hframe.
      destruct (loop_model _ _ _ _ _ _ _ _ fs1) as [[[t|ex] fs2] es2];
        cbn in *; [|done].
      by rewrite lookup_delete_ne.
Qed.

(** A ClickHouse run next to the checkpoint file of a BigQuery job. *)
Lemma runs_touch_only_the_checkpoint_file_witness :
  (ClickHouse.ingest_query_to_clickhouse Scenario.healthy "orders" 10 true
     {[ Scenario.bq_file := Json Scenario.bq_after_batch_0 ]}).1.2
    !! Scenario.bq_file
  = Some (Json Scenario.bq_after_batch_0).
Proof.
  rewrite (proj2 (runs_touch_only_the_checkpoint_file Scenario.healthy "proj"
                    "orders" 10 true
                    {[ Scenario.bq_file := Json Scenario.bq_after_batch_0 ]}
                    Scenario.bq_file)).
  - reflexivity.
  - discriminate.
Defined.

(** ** Schema initialisation *)

Section SchemaFacts.






End SchemaFacts.



Section DropFacts.

Lemma loop_model_set_drop_ok env ok batch_size table key data save_on_fail
    batches : forall u (fs : gmap string file),
  loop_model (set_drop_ok env ok) batch_size table key data save_on_fail
    batches u fs
  = loop_model env batch_size table key data save_on_fail batches u fs.
Proof.
  induction batches as [|i rest IH]; intros u fs; [done|].
  cbn [loop_model set_drop_ok read_sql write_ok]. unfold fail_with.
  destruct (read_sql env batch_size (Some (i * batch_size))) as [df|]; [|done].
  destruct (df_len df); [by rewrite IH|].
  destruct (write_ok env i); [by rewrite IH|done].
Qed.

End DropFacts.

(** X10: a failure of [DROP TABLE] is caught and only printed: the
    ClickHouse job returns the same result and leaves the same files
    whether the drop succeeds or not. *)
Theorem drop_failure_is_ignored env table batch_size replace ok
    (fs : gmap string file) :
  (ClickHouse.ingest_query_to_clickhouse (set_drop_ok env ok) table batch_size
     replace fs).1
  = (ClickHouse.ingest_query_to_clickhouse env table batch_size replace fs).1.
Proof.
  destruct (connect_ok env) eqn:Hconn;
    [|by rewrite !ch_run_no_connection].
  destruct (count_result env) as [n|] eqn:Hcount;
    [|by rewrite !ch_run_count_fails].
  destruct (decide (n = 0)) as [->|Hn]; [by rewrite !ch_run_no_rows|].
  destruct (decide (batch_size = 0)) as [->|Hbs];
    [by rewrite !(ch_run_zero_batch_size _ _ _ n)|].
  rewrite !(ch_run _ _ _ _ n) by done.
  destruct (ch_start table n batch_size replace fs) as [[[su|e] fs1] es1];
    [|done].
  cbn [read_sql create_ok set_drop_ok].
  destruct (read_sql env batch_size None) as [first_df|]; [|done].
  destruct (negb (replace && Z.eqb su.1 0) || create_ok env); [|done].
  rewrite !ch_loop_model, loop_model_set_drop_ok.
  destruct (loop_model _ _ _ _ _ _ _ _ fs1) as [[[t|e] fs2] es2]; done.
Qed.



(** X12: in replace mode the ClickHouse job starts at batch 0 with the
    count 0 whatever the checkpoint file holds: a record of the same table
    and plan, of another plan, of another table, or none. It transfers the
    batches from 0 on and the count it returns is the sum of their rows. *)
Theorem replace_mode_starts_at_batch_0 env table batch_size n
    (fs : gmap string file) :
  connect_ok env = true -> count_result env = Some n -> n <> 0 ->
  batch_size <> 0 ->
  let r := ClickHouse.ingest_query_to_clickhouse env table batch_size true fs in
  transfers env batch_size (Py.range 0 (total_batches_of n batch_size)) 0
    r.2 (ch_reported r.1.1).
Proof.
  intros Hconn Hcount Hn Hbs. cbv zeta.
  destruct (ch_start_replace_cases table n batch_size fs) as [H|[H|H]].
  - by apply (ch_run_transfers env table batch_size true n 0 0 fs fs []).
  - rewrite (ch_run _ _ _ _ n), H by done.
    apply setup_transfers. by repeat constructor.
  - rewrite (ch_run _ _ _ _ n), H by done.
    apply setup_transfers. by repeat constructor.
Qed.

(** Over the checkpoint of another table. *)
Lemma replace_mode_starts_at_batch_0_witness :
  let r :=
    ClickHouse.ingest_query_to_clickhouse Scenario.healthy "orders" 10 true
      {[ ClickHouse.CHECKPOINT_FILE := Json Scenario.ch_users ]} in
  transfers Scenario.healthy 10 (Py.range 0 (total_batches_of 25 10)) 0 r.2
    (ch_reported r.1.1).
Proof.
  apply replace_mode_starts_at_batch_0; [reflexivity|reflexivity|lia|lia].
Defined.

(** ** What is written, and the checkpoints along a run *)

Section WriteFacts.

Context (env : Env) (batch_size : Z) (table key : string)
  (data : Z -> Z -> checkpoint) (save_on_fail : bool).
Context (Hlast : forall i u, ck_last_completed_batch (data i u) = Some i).
Context (Htotal : forall i u, ck_total_uploaded (data i u) = Some u).

Lemma loop_writes_fetched_rows batches : forall u (fs : gmap string file),
  Forall (write_of_fetched_rows env batch_size)
    (loop_model env batch_size table key data save_on_fail batches u fs).2.
Proof.
  induction batches as [|i rest IH]; intros u fs; [constructor|].
  cbn [loop_model]. unfold fail_with.
  destruct (read_sql env batch_size (Some (i * batch_size))) as [df|] eqn:Hread.
  - destruct (df_len df) as [|m] eqn:Hlen; cbn [snd].
    + constructor; [done|apply IH].
    + assert (forall ok, write_of_fetched_rows env batch_size
                           (EvWrite table i (S m) ok)) as Hw.
      { intros ok. split; [done|]. unfold batch_rows. by rewrite Hread, Hlen. }
      destruct (write_ok env i).
      * constructor; [done|]. constructor; [apply Hw|]. constructor; [done|].
        apply IH.
      * destruct save_on_fail; cbn [app snd];
          repeat (apply Forall_cons; split; [first [done|apply Hw]|]);
          by apply Forall_nil.
  - destruct save_on_fail; cbn [app snd];
      repeat (apply Forall_cons; split; [done|]); by apply Forall_nil.
Qed.

Lemma setup_writes_fetched_rows es :
  Forall (fun ev => is_loop_event ev = false) es ->
  Forall (write_of_fetched_rows env batch_size) es.
Proof. intros H. eapply Forall_impl; [exact H|]. by intros []. Qed.

Lemma saved_app es1 es2 : saved (es1 ++ es2) = saved es1 ++ saved es2.
Proof.
  induction es1 as [|ev es1 IH]; [done|].
  destruct ev; cbn; rewrite ?IH; try done.
  by repeat case_match.
Qed.

Lemma setup_saved es :
  Forall (fun ev => is_loop_event ev = false) es -> saved es = [].
Proof. induction 1 as [|ev es Hev _ IH]; [done|]. by destruct ev. Qed.

(** The checkpoints saved by a loop over [i .. e - 1] started with the
    count [u] name batches from [i - 1] on and counts from [u] on, and
    neither the batch nor the count ever decreases from one save to the
    next. *)
Lemma loop_saved_sorted batches : forall i e u (fs : gmap string file),
  batches = Py.range i e ->
  let s :=
    saved (loop_model env batch_size table key data save_on_fail batches u fs).2
  in
  Forall (fun a => i - 1 <= a.1 /\ u <= a.2) s /\
  StronglySorted (fun a b => a.1 <= b.1 /\ a.2 <= b.2) s.
Proof.
  induction batches as [|b rest IH]; intros i e u fs Hr; cbv zeta.
  { split; constructor. }
  symmetry in Hr. apply range_cons_inv in Hr as (Hlt & -> & ->).
  cbn [loop_model]. unfold fail_with.
  destruct (read_sql env batch_size (Some (i * batch_size))) as [df|].
  - destruct (df_len df) as [|m]; cbn [snd saved].
    + destruct (IH (i + 1) e u fs eq_refl) as [Hall Hs]. split; [|done].
      eapply Forall_impl; [exact Hall|]. intros a. cbn. lia.
    + destruct (write_ok env i); cbn [snd saved].
      * rewrite Hlast, Htotal.
        destruct (IH (i + 1) e (u + Z.of_nat (S m))
                    (<[key:=Json (data i (u + Z.of_nat (S m)))]> fs) eq_refl)
          as [Hall Hs].
        split.
        -- constructor; [cbn; lia|].
           eapply Forall_impl; [exact Hall|]. intros a. cbn. lia.
        -- constructor; [done|].
           eapply Forall_impl; [exact Hall|]. intros a. cbn. lia.
      * destruct save_on_fail; cbn [snd saved app].
        -- rewrite Hlast, Htotal. split; repeat constructor; cbn; lia.
        -- split; constructor.
  - destruct save_on_fail; cbn [snd saved app].
    + rewrite Hlast, Htotal. split; repeat constructor; cbn; lia.
    + split; constructor.
Qed.

End WriteFacts.

(** X13: neither job ever writes an empty batch, and what it writes for a
    batch is what the fetch of that batch returned: every write event of
    every run carries a row count that is not zero and is the row count
    of the batch. *)
Theorem writes_carry_the_fetched_rows env project table batch_size replace
    (fs : gmap string file) :
  Forall (write_of_fetched_rows env batch_size)
    (BigQuery.ingest_pg_to_bq_auto env project table batch_size fs).2 /\
  Forall (write_of_fetched_rows env batch_size)
    (ClickHouse.ingest_query_to_clickhouse env table batch_size replace fs).2.
Proof.
  split.
  - destruct (bq_run_shape env project table batch_size fs)
      as (pre & s & e & u & fs1 & post & n & -> & Hpre & Hpost).
    rewrite !Forall_app. split_and!.
    + by apply setup_writes_fetched_rows.
    + apply loop_writes_fetched_rows.
    + by apply setup_writes_fetched_rows.
  - destruct (ch_run_shape env table batch_size replace fs)
      as (pre & s & e & u & fs1 & post & n & -> & Hpre & Hpost).
    rewrite !Forall_app. split_and!.
    + by apply setup_writes_fetched_rows.
    + apply loop_writes_fetched_rows.
    + by apply setup_writes_fetched_rows.
Qed.

(** X14: along every run of either job the checkpoints saved never go
    backwards: from one save to any later one neither the last completed
    batch nor the count decreases. *)
Theorem saved_checkpoints_never_go_back env project table batch_size replace
    (fs : gmap string file) :
  StronglySorted (fun a b => a.1 <= b.1 /\ a.2 <= b.2)
    (saved (BigQuery.ingest_pg_to_bq_auto env project table batch_size fs).2) /\
  StronglySorted (fun a b => a.1 <= b.1 /\ a.2 <= b.2)
    (saved
       (ClickHouse.ingest_query_to_clickhouse env table batch_size replace fs).2).
Proof.
  split.
  - destruct (bq_run_shape env project table batch_size fs)
      as (pre & s & e & u & fs1 & post & n & -> & Hpre & Hpost).
    rewrite !saved_app, (setup_saved _ Hpre), (setup_saved _ Hpost), app_nil_r.
    cbn [app]. by eapply loop_saved_sorted.
  - destruct (ch_run_shape env table batch_size replace fs)
      as (pre & s & e & u & fs1 & post & n & -> & Hpre & Hpost).
    rewrite !saved_app, (setup_saved _ Hpre), (setup_saved _ Hpost), app_nil_r.
    cbn [app]. by eapply loop_saved_sorted.
Qed.

(** ** A first run over a stable source *)

Section StableFacts.
Import Trace.

Context (env : Env) (batch_size : Z).

Lemma sum_rows_full l :
  (forall i, i ∈ l -> batch_rows env batch_size i = batch_size) ->
  sum_rows env batch_size l = Z.of_nat (length l) * batch_size.
Proof.
  induction l as [|i l IH]; intros Hfull; [done|].
  unfold sum_rows in *. cbn [foldr length].
  rewrite (Hfull i (list_elem_of_here _ _)), IH; [lia|].
  intros j Hj. apply Hfull. by apply list_elem_of_further.
Qed.

Lemma filter_all {A} (P : A -> Prop) `{!forall x, Decision (P x)} (l : list A) :
  Forall P l -> filter P l = l.
Proof.
  induction 1 as [|x l Hx _ IH]; [done|].
  by rewrite filter_cons_True, IH.
Qed.

Lemma stable_source_rows n :
  0 < n -> 0 < batch_size -> stable_source env n batch_size ->
  sum_rows env batch_size (Py.range 0 (total_batches_of n batch_size)) = n /\
  Forall (fun i => batch_rows env batch_size i <> 0)
    (Py.range 0 (total_batches_of n batch_size)).
Proof.
  intros Hn Hbs Hstable. unfold stable_source in Hstable.
  assert (0 < total_batches_of n batch_size /\
          (total_batches_of n batch_size - 1) * batch_size < n
            <= total_batches_of n batch_size * batch_size) as (Htb & Hlo & Hhi).
  { unfold total_batches_of.
    pose proof (Z.div_mod (n + batch_size - 1) batch_size ltac:(lia)) as Hdm.
    pose proof (Z.mod_pos_bound (n + batch_size - 1) batch_size Hbs) as Hm.
    nia. }
  set (tb := total_batches_of n batch_size) in *.
  split.
  - replace tb with (tb - 1 + 1) at 1 by lia.
    rewrite range_snoc, sum_rows_app by lia.
    rewrite sum_rows_full, range_length by
      (try lia; intros i Hi%elem_of_range_inv; rewrite Hstable by lia; nia).
    unfold sum_rows. cbn [foldr]. rewrite Hstable by lia. nia.
  - apply Forall_forall. intros i Hi%elem_of_range_inv.
    rewrite Hstable by lia. nia.
Qed.

Lemma delete_after_loop table key data save_on_fail batches u
    (fs : gmap string file) :
  fs !! key = None ->
  delete key
    (loop_model env batch_size table key data save_on_fail batches u fs).1.2
  = fs.
Proof.
  intros Hkey. apply map_eq. intros p.
  destruct (decide (p = key)) as [->|Hp].
  - by rewrite lookup_delete_eq.
  - rewrite lookup_delete_ne by done. by apply loop_frame.
Qed.

End StableFacts.

(** X15: a first run that completes over a source that does not change has
    uploaded every row once. With a positive row count [n] and a positive
    batch size, no checkpoint file, and a source that answers every batch
    window with the rows a result of [n] rows has there: when the job
    reaches its summary, it has written every batch from 0 to the last, the
    count it reports is [n], and the files are as it found them. *)
Theorem first_run_uploads_every_row env project table batch_size n replace
    (fs : gmap string file) :
  0 < n -> 0 < batch_size -> count_result env = Some n ->
  stable_source env n batch_size ->
  let total_batches := total_batches_of n batch_size in
  (fs !! BigQuery.get_checkpoint_filename env table = None ->
   let r := BigQuery.ingest_pg_to_bq_auto env project table batch_size fs in
   forall result, r.1.1 = Ok result ->
     result = Some (n, total_batches) /\ r.1.2 = fs /\
     Trace.writes r.2 = Py.range 0 total_batches) /\
  (fs !! ClickHouse.CHECKPOINT_FILE = None ->
   let r :=
     ClickHouse.ingest_query_to_clickhouse env table batch_size replace fs in
   forall total, r.1.1 = Ok total ->
     total = n /\ r.1.2 = fs /\
     Trace.writes r.2 = Py.range 0 total_batches).
Proof.
  intros Hn Hbs Hcount Hstable. cbv zeta.
  destruct (stable_source_rows env batch_size n Hn Hbs Hstable) as [Hsum Hrows].
  split.
  - intros Hfile result.
    destruct (Py.has_char "." table) eqn:Hvalid;
      [|by rewrite bq_run_invalid].
    pose proof (bq_start_absent env table n batch_size fs Hfile) as Hstart.
    pose proof (bq_run_transfers env project table batch_size n 0 0 fs fs []
                  Hvalid Hcount ltac:(lia) ltac:(lia) Hstart) as Ht.
    cbv zeta in Ht. revert Ht.
    rewrite (bq_run _ _ _ _ n), Hstart by (done || lia). cbn [fst snd].
    rewrite bq_loop_model.
    pose proof (delete_after_loop env batch_size table
                  (BigQuery.get_checkpoint_filename env table)
                  (fun i u =>
                     BigQuery.checkpoint_data i u n batch_size table project)
                  true (Py.range 0 (total_batches_of n batch_size)) 0 fs Hfile)
      as Hdel.
    destruct (loop_model _ _ _ _ _ _ _ _ fs) as [[[t|ex] fs2] es2];
      cbn [bq_finish bq_reported fst snd] in *; [|done].
    intros (_ & _ & Hrep) [= <-].
    destruct (Hrep _ eq_refl) as (_ & Hw & ->).
    split_and!; [by rewrite Hsum|done|]. rewrite Hw. by apply filter_all.
  - intros Hfile total.
    destruct (connect_ok env) eqn:Hconn;
      [|by rewrite ch_run_no_connection].
    pose proof (ch_start_absent table n batch_size replace fs Hfile) as Hstart.
    pose proof (ch_run_transfers env table batch_size replace n 0 0 fs fs []
                  Hconn Hcount ltac:(lia) ltac:(lia) Hstart) as Ht.
    cbv zeta in Ht. revert Ht.
    rewrite (ch_run _ _ _ _ n), Hstart by (done || lia). cbn [fst snd].
    destruct (read_sql env batch_size None) as [first_df|]; [|done].
    destruct (negb (replace && Z.eqb 0 0) || create_ok env); [|done].
    rewrite ch_loop_model.
    pose proof (delete_after_loop env batch_size table
                  ClickHouse.CHECKPOINT_FILE
                  (fun i u => ClickHouse.checkpoint_data table i u n batch_size)
                  false (Py.range 0 (total_batches_of n batch_size)) 0 fs Hfile)
      as Hdel.
    destruct (loop_model _ _ _ _ _ _ _ _ fs) as [[[t|ex] fs2] es2];
      cbn [ch_finish ch_reported fst snd] in *; [|done].
    intros (_ & _ & Hrep) [= <-].
    destruct (Hrep _ eq_refl) as (_ & Hw & ->).
    split_and!; [by rewrite Hsum|done|]. rewrite Hw. by apply filter_all.
Qed.

(** The source of 25 rows read ten at a time, with no checkpoint on disk:
    batches 0, 1 and 2 are written and 25 rows are reported. *)
Lemma first_run_uploads_every_row_witness :
  let r :=
    BigQuery.ingest_pg_to_bq_auto Scenario.healthy "proj" "sales.orders" 10 ∅
  in
  r.1.1 = Ok (Some (25, 3)) /\ r.1.2 = ∅ /\ Trace.writes r.2 = [0; 1; 2].
Proof.
  assert (forall i, 0 <= i < 3 -> i = 0 \/ i = 1 \/ i = 2) as Hcases
    by (intros; lia).
  assert (stable_source Scenario.healthy 25 10) as Hstable.
  { intros i Hi. change (total_batches_of 25 10) with 3 in Hi.
    destruct (Hcases i Hi) as [->|[->| ->]]; reflexivity. }
  assert ((BigQuery.ingest_pg_to_bq_auto Scenario.healthy "proj"
             "sales.orders" 10 ∅).1.1 = Ok (Some (25, 3))) as Hok
    by reflexivity.
  destruct (proj1 (first_run_uploads_every_row Scenario.healthy "proj"
                     "sales.orders" 10 25 true ∅
                     ltac:(lia) ltac:(lia) eq_refl Hstable)
              (lookup_empty _) (Some (25, 3)) Hok)
    as (_ & Hfs & Hw).
  split_and!; [exact Hok|exact Hfs|exact Hw].
Defined.

(** ** A failed BigQuery run and the run after it *)

(** X16: running [hello.py] again after a failed fetch or write continues
    where the failed run stopped. When a first BigQuery run (no checkpoint
    file on disk) ends with the error of a fetch or of a write, it failed
    at some batch [k] after going through the batches [0 .. k - 1]; a
    second run of the same job over the files it left, with the same row
    count, batch size and checkpoint directory, whatever its fetches and
    writes do, transfers the batches from [k] on, starting from the count
    of the rows of the batches before [k]. When the second run reports, the
    batches gone through by the first run followed by those fetched by the
    second are the batches 0 to the last, each once. *)
Theorem rerun_continues_after_a_failure env1 env2 project table batch_size n
    (fs : gmap string file) :
  Py.has_char "." table = true ->
  count_result env1 = Some n -> count_result env2 = Some n ->
  n <> 0 -> batch_size <> 0 ->
  CHECKPOINT_DIR env2 = CHECKPOINT_DIR env1 ->
  fs !! BigQuery.get_checkpoint_filename env1 table = None ->
  let r1 := BigQuery.ingest_pg_to_bq_auto env1 project table batch_size fs in
  let r2 :=
    BigQuery.ingest_pg_to_bq_auto env2 project table batch_size r1.1.2 in
  let total_batches := total_batches_of n batch_size in
  r1.1.1 = Raise FetchError \/ r1.1.1 = Raise WriteError ->
  exists k,
    0 <= k < total_batches /\
    Trace.done_batches r1.2 = Py.range 0 k /\
    transfers env2 batch_size (Py.range k total_batches)
      (sum_rows env1 batch_size (Py.range 0 k)) r2.2 (bq_reported r2.1.1) /\
    (forall total, bq_reported r2.1.1 = Some total ->
       Trace.done_batches r1.2 ++ Trace.fetches r2.2
         = Py.range 0 total_batches).
Proof.
  intros Hvalid Hcount1 Hcount2 Hn Hbs Hdir Hfile. cbv zeta. intros Hfailed.
  assert (exists ex,
            (BigQuery.ingest_pg_to_bq_auto env1 project table batch_size fs).1.1
            = Raise ex) as [ex Hraise].
  { destruct Hfailed as [H|H]; rewrite H; by eexists. }
  pose proof (bq_start_absent env1 table n batch_size fs Hfile) as Hstart.
  destruct (bigquery_failure_saves_checkpoint env1 project table batch_size n
              0 0 fs fs [] ex Hvalid Hcount1 Hn Hbs Hstart Hraise)
    as (k & Hk & _ & Hdone & Hsaved & _).
  cbv zeta in Hsaved.
  assert (BigQuery.get_checkpoint_filename env2 table
          = BigQuery.get_checkpoint_filename env1 table) as Hkey.
  { unfold BigQuery.get_checkpoint_filename. by rewrite Hdir. }
  rewrite <- Hkey in Hsaved.
  pose proof (bq_start_valid env2 table n batch_size _ _ (k - 1) Hsaved
                eq_refl eq_refl eq_refl) as Hstart2.
  cbn [BigQuery.checkpoint_data ck_total_uploaded default] in Hstart2.
  replace (k - 1 + 1) with k in Hstart2 by lia.
  rewrite Z.add_0_l in Hstart2.
  pose proof (bq_run_transfers env2 project table batch_size n k _ _ _ _
                Hvalid Hcount2 Hn Hbs Hstart2) as Ht.
  cbv zeta in Ht.
  exists k. split_and!; [lia..|done|done|].
  intros total Hrep. destruct Ht as (_ & _ & Hall).
  destruct (Hall total Hrep) as (-> & _).
  rewrite Hdone. symmetry. apply range_app; lia.
Qed.

(** The write of batch 1 fails in a first run over 25 rows read ten at a
    time; the run after it, over a source that works, starts at batch 1. *)
Lemma rerun_continues_after_a_failure_witness :
  exists k,
    0 <= k < 3 /\
    Trace.done_batches
      (BigQuery.ingest_pg_to_bq_auto (Scenario.write_fails_at 1) "proj"
         "sales.orders" 10 ∅).2 = Py.range 0 k.
Proof.
  destruct (rerun_continues_after_a_failure (Scenario.write_fails_at 1)
              Scenario.healthy "proj" "sales.orders" 10 25 ∅)
    as (k & Hk & Hdone & _).
  - reflexivity.
  - reflexivity.
  - reflexivity.
  - lia.
  - lia.
  - reflexivity.
  - apply lookup_empty.
  - right. reflexivity.
  - exists k. split; [exact Hk | exact Hdone].
Defined.
